(** * Credit-card fraud detection: the training pipeline, embedded and verified

    A shallow embedding of [scripts/config.py], [scripts/data_cleaning.py] and
    [scripts/model_training.py].

    Conventions of the embedding.
    - A pandas [DataFrame] is a list of named columns (pandas stores frames
      column by column) together with its number of rows.
    - A cell is an [int64] or a [float64]; floats are idealised as real
      numbers, so that [sin], [cos], [log1p] and [sqrt] are the mathematical
      functions (no rounding, no NaN).
    - Python exceptions are values of [exn]; a computation that may raise
      returns a [result].
    - Code with side effects (files written, log lines) runs in the monad
      [M], which threads the [world]; what was written before an exception
      stays written, as in Python.
    - Metrics (AUC, precision, recall, F1, importances) are only compared
      and stored: they are rationals.
    - [train_test_split], [RandomUnderSampler] and [SMOTE] are routines of
      scikit-learn and imbalanced-learn, not code of the repository. The
      modules [sklearn] and [imblearn] embed the algorithms of these
      libraries for the arguments the repository passes, on rows that carry
      their identity.
    - The random generator, the interpolation of SMOTE, the learners and
      the metric functions are interfaces (type classes): the pipeline is
      verified for every implementation of them. *)

From Stdlib Require Import List String Ascii Bool Arith NArith ZArith QArith Reals.
From Stdlib Require Import Qround Qabs Lia Lra Permutation Sorted DecimalString.
Import ListNotations.

Local Open Scope nat_scope.
Local Open Scope string_scope.
Local Open Scope list_scope.

(* ===================================================================== *)
(** * Values, exceptions, frames *)
(* ===================================================================== *)

(** The Python exceptions the pipeline can meet. [KeyError] carries the
    labels that were not found. *)
Inductive exn : Type :=
| KeyError (missing : list string)
| NameError (name : string)
| ValueError (msg : string)
| FileNotFoundError (path : string)
| FitFailure (msg : string).

Inductive result (A : Type) : Type :=
| Ok (a : A)
| Raise (e : exn).
Arguments Ok {A} a.
Arguments Raise {A} e.

Definition rbind {A B} (r : result A) (k : A -> result B) : result B :=
  match r with
  | Ok a => k a
  | Raise e => Raise e
  end.

Declare Scope result_scope.
Delimit Scope result_scope with result.
Notation "'let?' x ':=' r 'in' k" := (rbind r (fun x => k))
  (at level 10, x pattern, r at level 100, k at level 200) : result_scope.

(** A cell of a frame: pandas dtype [int64] or [float64]. *)
Inductive cell : Type :=
| Int (z : Z)
| Float (r : R).

Definition to_real (c : cell) : R :=
  match c with
  | Int z => IZR z
  | Float r => r
  end.

Record DataFrame : Type := mkFrame {
  nrows : nat;
  cols : list (string * list cell)
}.

(** [df.columns] *)
Definition columns (df : DataFrame) : list string := map fst (cols df).

Fixpoint lookup (name : string) (cs : list (string * list cell))
  : option (list cell) :=
  match cs with
  | [] => None
  | (n, v) :: rest => if String.eqb n name then Some v else lookup name rest
  end.

Definition has_column (df : DataFrame) (name : string) : bool :=
  match lookup name (cols df) with Some _ => true | None => false end.

(** [df[name]] *)
Definition getitem (df : DataFrame) (name : string) : result (list cell) :=
  match lookup name (cols df) with
  | Some v => Ok v
  | None => Raise (KeyError [name])
  end.

(** [df[names]] with a list of labels: a [KeyError] names every label that
    is absent. *)
Definition getitems (df : DataFrame) (names : list string)
  : result (list (list cell)) :=
  match filter (fun n => negb (has_column df n)) names with
  | [] => Ok (map (fun n => match lookup n (cols df) with
                           | Some v => v
                           | None => []
                           end) names)
  | missing => Raise (KeyError missing)
  end.

Fixpoint replace_column (name : string) (v : list cell)
  (cs : list (string * list cell)) : list (string * list cell) :=
  match cs with
  | [] => [(name, v)]
  | (n, old) :: rest =>
      if String.eqb n name then (n, v) :: rest
      else (n, old) :: replace_column name v rest
  end.

(** [df[name] = v]: overwrites the column in place when it exists, appends
    it as the last column otherwise. *)
Definition setitem (df : DataFrame) (name : string) (v : list cell)
  : DataFrame :=
  mkFrame (nrows df) (replace_column name v (cols df)).

(** [df.drop(columns=[name])] *)
Definition drop (df : DataFrame) (name : string) : result DataFrame :=
  if has_column df name
  then Ok (mkFrame (nrows df)
             (filter (fun c => negb (String.eqb (fst c) name)) (cols df)))
  else Raise (KeyError [name]).

(** The cells of a column; no cell when the column is absent. *)
Definition column (df : DataFrame) (name : string) : list cell :=
  match lookup name (cols df) with Some v => v | None => [] end.

Definition string_in (s : string) (l : list string) : bool :=
  existsb (String.eqb s) l.

(** The labels of a frame after [df[name] = v]. *)
Definition add_label (labels : list string) (name : string) : list string :=
  if string_in name labels then labels else labels ++ [name].

(** Row [i] of a list of columns. *)
Definition row_at (vs : list (list cell)) (i : nat) : list cell :=
  map (fun c => nth i c (Float 0)) vs.

(* ===================================================================== *)
(** * The world: files, log, console, clock *)
(* ===================================================================== *)

(** The four test-set metrics kept for a model. *)
Record metrics : Type := mkMetrics {
  auc : Q;
  precision : Q;
  recall : Q;
  f1 : Q
}.

(** [datetime.now()] *)
Record datetime : Type := mkDatetime {
  year : N; month : N; day : N;
  hour : N; minute : N; second : N
}.

(** [model_info] of [evaluate_models]. *)
Record model_info : Type := mkModelInfo {
  model_name : string;
  training_date : string;
  info_metrics : metrics;
  feature_count : nat
}.

Inductive level : Type := INFO | ERROR.

(** What a file holds. *)
Inductive artifact (model : Type) : Type :=
| Csv (df : DataFrame)
| Pickle (m : model)
| Figure (title : string)
| ImportanceCsv (ranking : list (string * Q))
| ComparisonCsv (table : list (string * metrics))
| ModelInfoCsv (info : model_info).
Arguments Csv {model} df.
Arguments Pickle {model} m.
Arguments Figure {model} title.
Arguments ImportanceCsv {model} ranking.
Arguments ComparisonCsv {model} table.
Arguments ModelInfoCsv {model} info.

Record world (model : Type) : Type := mkWorld {
  files : list (string * artifact model);
  log : list (level * string);
  stdout : list string;
  now : datetime
}.
Arguments files {model} w.
Arguments log {model} w.
Arguments stdout {model} w.
Arguments now {model} w.
Arguments mkWorld {model} files log stdout now.

Fixpoint read_file {model} (path : string)
  (fs : list (string * artifact model)) : option (artifact model) :=
  match fs with
  | [] => None
  | (p, a) :: r => if String.eqb p path then Some a else read_file path r
  end.

(** Writing a file replaces what the path held. *)
Definition write_file {model} (path : string) (a : artifact model)
  (fs : list (string * artifact model)) : list (string * artifact model) :=
  (path, a) :: filter (fun pa => negb (String.eqb (fst pa) path)) fs.

(** A computation in a world: its outcome and the world it leaves. *)
Definition M (model A : Type) : Type := world model -> result A * world model.

Definition ret {model A} (a : A) : M model A := fun w => (Ok a, w).

Definition bind {model A B} (c : M model A) (k : A -> M model B)
  : M model B :=
  fun w =>
    match c w with
    | (Ok a, w') => k a w'
    | (Raise e, w') => (Raise e, w')
    end.

Definition raise {model A} (e : exn) : M model A := fun w => (Raise e, w).

(** A pure computation that may raise. *)
Definition lift {model A} (r : result A) : M model A := fun w => (r, w).

(** [try: c  except Exception as e: h e] *)
Definition try_except {model A} (c : M model A) (h : exn -> M model A)
  : M model A :=
  fun w =>
    match c w with
    | (Ok a, w') => (Ok a, w')
    | (Raise e, w') => h e w'
    end.

(** The value a computation returned, if it returned. *)
Definition outcome {model A} (rw : result A * world model) : option A :=
  match fst rw with
  | Ok a => Some a
  | Raise _ => None
  end.

(** The record in [models/model_info.csv], if the file holds one. *)
Definition recorded_info {model} (w : world model) : option model_info :=
  match read_file "models/model_info.csv" (files w) with
  | Some (ModelInfoCsv info) => Some info
  | _ => None
  end.

Declare Scope M_scope.
Delimit Scope M_scope with M.
Notation "x <- c ;; k" := (bind c (fun x => k))
  (at level 61, c at next level, right associativity) : M_scope.
Notation "' p <- c ;; k" := (bind c (fun x => match x with p => k end))
  (at level 61, p pattern, c at next level, right associativity) : M_scope.
Notation "c ;; k" := (bind c (fun _ => k))
  (at level 61, right associativity) : M_scope.

Definition logging {model} (l : level) (msg : string) : M model unit :=
  fun w => (Ok tt, mkWorld (files w) (log w ++ [(l, msg)]) (stdout w) (now w)).

Definition print {model} (msg : string) : M model unit :=
  fun w => (Ok tt, mkWorld (files w) (log w) (stdout w ++ [msg]) (now w)).

Definition save {model} (path : string) (a : artifact model) : M model unit :=
  fun w =>
    (Ok tt, mkWorld (write_file path a (files w)) (log w) (stdout w) (now w)).

Definition datetime_now {model} : M model datetime := fun w => (Ok (now w), w).

(** [pd.read_csv(path)] *)
Definition read_csv {model} (path : string) : M model DataFrame :=
  fun w =>
    match read_file path (files w) with
    | Some (Csv df) => (Ok df, w)
    | Some _ => (Raise (ValueError "Error tokenizing data"), w)
    | None => (Raise (FileNotFoundError path), w)
    end.

(** [df.to_csv(path, index=False)] *)
Definition to_csv {model} (df : DataFrame) (path : string) : M model unit :=
  save path (Csv df).

(* ===================================================================== *)
(** * config.py *)
(* ===================================================================== *)

Module config.

Definition RAW_DATA_FILE := "data/raw/creditcard.csv".
Definition CLEANED_DATA_FILE := "data/processed/creditcard_cleaned.csv".
Definition TRAIN_DATA_FILE := "data/processed/creditcard_train.csv".
Definition TEST_DATA_FILE := "data/processed/creditcard_test.csv".
Definition MODEL_FILE := "models/fraud_detection_model.pkl".

(** [TEST_SIZE = 0.2] *)
Definition TEST_SIZE : Q := 2 # 10.
Definition RANDOM_STATE : nat := 42.

Definition decimal (n : nat) : string :=
  NilEmpty.string_of_uint (Nat.to_uint n).

(** [V_FEATURES = [f'V{i}' for i in range(1, 29)]] *)
Definition V_FEATURES : list string :=
  Eval cbv in map (fun i => String.append "V" (decimal i)) (seq 1 28).

Definition TARGET := "Class".

(** [UNDERSAMPLING_RATIO = 0.5] *)
Definition UNDERSAMPLING_RATIO : Q := 1 # 2.
Definition OVERSAMPLING_RATIO : Q := 1 # 2.

End config.

(* ===================================================================== *)
(** * data_cleaning.py *)
(* ===================================================================== *)

Module data_cleaning.
Import config.

Local Open Scope R_scope.

Definition Rsum (l : list R) : R := fold_right Rplus 0 l.

(** [Series.mean()] *)
Definition mean (l : list R) : R := Rsum l / INR (List.length l).

(** The sum of squared deviations from the mean. *)
Definition sq_dev (l : list R) : R :=
  Rsum (map (fun x => (x - mean l) * (x - mean l)) l).

(** [Series.std()] and [DataFrame.std(axis=1)]: pandas' default is
    [ddof=1], the divisor is the number of values minus one. *)
Definition std (l : list R) : R := sqrt (sq_dev l / (INR (List.length l) - 1)).

(** The standard deviation with divisor [n] (numpy's default, [ddof=0]);
    the code does not use it, the specification names it. *)
Definition population_std (l : list R) : R :=
  sqrt (sq_dev l / INR (List.length l)).

(** Python's [%] on floats: the result has the sign of the divisor. *)
Definition fmod (x y : R) : R := x - y * IZR (Int_part (x / y)).

(** [np.log1p] *)
Definition log1p (x : R) : R := ln (1 + x).

Definition reals (c : list cell) : list R := map to_real c.
Definition floats (l : list R) : list cell := map Float l.

(** The header of the raw file [creditcard.csv]: the time offset, the 28
    anonymised components, the amount and the label. *)
Definition RAW_COLUMNS : list string :=
  Eval cbv in "Time" :: V_FEATURES ++ ["Amount"; "Class"].

(** The 28 anonymised components of row [i]. *)
Definition v_components (df : DataFrame) (i : nat) : list R :=
  reals (row_at (map (column df) V_FEATURES) i).

(** The module's global names that [preprocess_data] reads but does not
    define. [upper_bound] is bound by the [if __name__ == "__main__":]
    block only. *)
Record globals : Type := mkGlobals {
  upper_bound : option R
}.

(** The globals of [data_cleaning] when it is imported by another module:
    the [__main__] block has not run. *)
Definition imported : globals := mkGlobals None.

(** The globals after the [__main__] block, [q1] and [q3] being the
    quartiles of [Amount] in the raw file. *)
Definition run_as_main (q1 q3 : R) : globals :=
  mkGlobals (Some (q3 + 1.5 * (q3 - q1))).

(** Reading a global name. *)
Definition read_upper_bound (g : globals) : result R :=
  match upper_bound g with
  | Some u => Ok u
  | None => Raise (NameError "upper_bound")
  end.

Definition preprocess_data (g : globals) (df : DataFrame)
  : result DataFrame :=
  (let processed_df := df in
   (* processed_df['Time'] = processed_df['Time'] / (60 * 60 * 24) *)
   let? time := getitem processed_df "Time" in
   let days := map (fun t => t / (60 * 60 * 24)) (reals time) in
   let processed_df := setitem processed_df "Time" (floats days) in
   (* hours = (processed_df['Time'] * 24) % 24 *)
   let hours := map (fun d => fmod (d * 24) 24) days in
   let processed_df :=
     setitem processed_df "Hour_Sin"
       (floats (map (fun h => sin (2 * PI * h / 24)) hours)) in
   let processed_df :=
     setitem processed_df "Hour_Cos"
       (floats (map (fun h => cos (2 * PI * h / 24)) hours)) in
   (* processed_df['Amount_Log'] = np.log1p(processed_df['Amount']) *)
   let? amount := getitem processed_df "Amount" in
   let amount_log := map log1p (reals amount) in
   let processed_df := setitem processed_df "Amount_Log" (floats amount_log) in
   (* v_features_mean, v_features_std: computed, never used *)
   let? _ := getitems processed_df V_FEATURES in
   let? _ := getitems processed_df V_FEATURES in
   let amount_mean := mean amount_log in
   let amount_std := std amount_log in
   let processed_df :=
     setitem processed_df "Amount_Scaled"
       (floats (map (fun a => (a - amount_mean) / amount_std) amount_log)) in
   (* (processed_df['Amount'] > upper_bound).astype(int) *)
   let? amount := getitem processed_df "Amount" in
   let? ub := read_upper_bound g in
   let processed_df :=
     setitem processed_df "Amount_Outlier"
       (map (fun a => Int (if Rgt_dec a ub then 1 else 0)) (reals amount)) in
   (* aggregates over the V columns, row by row *)
   let? v := getitems processed_df V_FEATURES in
   let processed_df :=
     setitem processed_df "V_Sum"
       (map (fun i => Float (Rsum (reals (row_at v i))))
          (seq 0 (nrows processed_df))) in
   let? v := getitems processed_df V_FEATURES in
   let processed_df :=
     setitem processed_df "V_Mean"
       (map (fun i => Float (mean (reals (row_at v i))))
          (seq 0 (nrows processed_df))) in
   let? v := getitems processed_df V_FEATURES in
   let processed_df :=
     setitem processed_df "V_Std"
       (map (fun i => Float (std (reals (row_at v i))))
          (seq 0 (nrows processed_df))) in
   Ok processed_df)%result.

Local Close Scope R_scope.
Local Open Scope M_scope.

(** [load_raw_data()]: an error is logged and raised again. *)
Definition load_raw_data {model} : M model DataFrame :=
  try_except
    (logging INFO (String.append "Loading raw data from " RAW_DATA_FILE) ;;
     df <- read_csv RAW_DATA_FILE ;;
     logging INFO "Loaded data" ;;
     ret df)
    (fun e => logging ERROR "Error loading raw data" ;; raise e).

(** [essential_columns] of [save_processed_data]: the columns of the
    lightweight file for Excel. *)
Definition essential_columns : list string :=
  ["Time"; "Amount"; "Amount_Scaled"; "Amount_Log"; "Hour_Sin"; "Hour_Cos";
   "V_Sum"; "V_Mean"; "V_Std"; "Class"; "Amount_Outlier"].

(** [os.path.join(PROCESSED_DATA_DIR, 'creditcard_excel.csv')] *)
Definition excel_file := "data/processed/creditcard_excel.csv".

(** [save_processed_data(df)]: the full frame goes to the cleaned file, its
    essential columns to the file for Excel. An exception is logged and
    answered by [False]; what was written before it stays written. *)
Definition save_processed_data {model} (df : DataFrame) : M model bool :=
  try_except
    (logging INFO (String.append "Saving processed data to " CLEANED_DATA_FILE) ;;
     to_csv df CLEANED_DATA_FILE ;;
     logging INFO "Saved processed data" ;;
     df_excel <- lift (getitems df essential_columns) ;;
     to_csv (mkFrame (nrows df) (combine essential_columns df_excel)) excel_file ;;
     logging INFO "Saved lightweight version for Excel with 11 columns" ;;
     ret true)
    (fun e => logging ERROR "Error saving processed data" ;; ret false).

End data_cleaning.

(* ===================================================================== *)
(** * Labelled samples and the random generator *)
(* ===================================================================== *)

(** Equality and order of cells are those of their numerical values, as in
    Python ([0 == 0.0]). On [int64] cells they compute. *)
Definition cell_eqb (a b : cell) : bool :=
  match a, b with
  | Int u, Int v => Z.eqb u v
  | _, _ => if Req_dec_T (to_real a) (to_real b) then true else false
  end.

Definition cell_leb (a b : cell) : bool :=
  match a, b with
  | Int u, Int v => Z.leb u v
  | _, _ => if Rle_dec (to_real a) (to_real b) then true else false
  end.

(** A label is discrete when it is an integer, or a float whose value is
    an integer. *)
Definition integral (c : cell) : bool :=
  match c with
  | Int _ => true
  | Float r => if Req_dec_T r (IZR (Int_part r)) then true else false
  end.

(** Where a row comes from: row [i] of the prepared frame, or the
    synthesiser. This is the identity of a row; pandas' own index does not
    survive resampling. *)
Inductive origin : Type :=
| Original (i : nat)
| Synthetic.

(** One row of an aligned pair [(X, y)]. *)
Record sample : Type := mkSample {
  source : origin;
  x : list cell;
  y : cell
}.

(** An aligned pair [(X, y)]: the names of the columns of [X] and the rows.
    A function of the source that takes [X] alone leaves [y] as it is. *)
Record Dataset : Type := mkDataset {
  feature_names : list string;
  samples : list sample
}.

Definition default_sample : sample := mkSample Synthetic [] (Int 0).

(** [a[idx]]: the rows at the given positions. *)
Definition take (d : list sample) (idx : list nat) : list sample :=
  map (fun i => nth i d default_sample) idx.

(** [np.flatnonzero(y == c)] *)
Definition flatnonzero (c : cell) (d : list sample) : list nat :=
  filter (fun i => cell_eqb (y (nth i d default_sample)) c)
    (seq 0 (List.length d)).

Definition count_class (c : cell) (d : list sample) : nat :=
  List.length (flatnonzero c d).

Fixpoint insert_unique (c : cell) (l : list cell) : list cell :=
  match l with
  | [] => [c]
  | d :: r =>
      if cell_eqb c d then l
      else if cell_leb c d then c :: l
      else d :: insert_unique c r
  end.

(** [np.unique]: the distinct values, in increasing order. *)
Definition np_unique (l : list cell) : list cell :=
  fold_right insert_unique [] l.

Definition classes_of (d : list sample) : list cell := np_unique (map y d).

(** Classes two by two distinct. *)
Definition distinct_classes (cs : list cell) : Prop :=
  ForallOrdPairs (fun a b => cell_eqb a b = false) cs.

(** [numpy.random.RandomState]. The one primitive the pipeline draws from
    is [permutation(n)], a shuffle of [range(n)]; whatever the seed, it
    returns a permutation. *)
Class RandomState : Type := {
  rng : Type;
  seed : nat -> rng;
  permutation : rng -> nat -> list nat * rng;
  permutation_spec :
    forall g n, Permutation (fst (permutation g n)) (seq 0 n)
}.

Section Sampling.
Context {RS : RandomState}.

(** [rng.permutation(a)] for an array: the same shuffle, applied to [a]. *)
Definition shuffled (g : rng) (a : list nat) : list nat * rng :=
  let (p, g') := permutation g (List.length a) in
  (map (fun j => nth j a 0) p, g').

(** [rng.choice(a, size=k, replace=False)] is [permutation(a)[:k]]. *)
Definition choice (g : rng) (a : list nat) (k : nat) : list nat * rng :=
  let (p, g') := shuffled g a in
  (firstn k p, g').

End Sampling.

(* ===================================================================== *)
(** * sklearn.model_selection.train_test_split (stratified) *)
(* ===================================================================== *)

(** The library routine behind [prepare_train_test_split], after
    scikit-learn's [StratifiedShuffleSplit._iter_indices] and
    [_approximate_mode]. Class shares, which the library computes in
    floating point, are computed exactly. *)
Module sklearn.
Section Split.
Context {RS : RandomState}.

Definition sum_list (l : list nat) : nat := fold_right Nat.add 0 l.

(** [np.where(remainder == value)] *)
Definition where_eq (rems : list nat) (v : nat) : list nat :=
  filter (fun i => Nat.eqb (nth i rems 0) v) (seq 0 (List.length rems)).

(** [floored[inds] += 1] *)
Definition incr_at (inds : list nat) (floored : list nat) : list nat :=
  map (fun i => nth i floored 0 + (if existsb (Nat.eqb i) inds then 1 else 0))
    (seq 0 (List.length floored)).

Fixpoint insert_desc (v : nat) (l : list nat) : list nat :=
  match l with
  | [] => [v]
  | w :: r =>
      if Nat.eqb v w then l
      else if Nat.ltb w v then v :: l
      else w :: insert_desc v r
  end.

(** [np.sort(np.unique(remainder))[::-1]] *)
Definition sorted_unique_desc (l : list nat) : list nat :=
  fold_right insert_desc [] l.

(** The loop of [_approximate_mode] over the distinct remainders, largest
    first: classes with the same remainder are drawn at random. *)
Fixpoint distribute (values : list nat) (rems floored : list nat)
  (need : nat) (g : rng) : list nat * rng :=
  match values with
  | [] => (floored, g)
  | v :: vs =>
      let inds := where_eq rems v in
      let add_now := Nat.min (List.length inds) need in
      let (chosen, g') := choice g inds add_now in
      let floored' := incr_at chosen floored in
      let need' := need - add_now in
      if Nat.eqb need' 0 then (floored', g')
      else distribute vs rems floored' need' g'
  end.

(** [_approximate_mode(class_counts, n_draws, rng)]: how many of the
    [n_draws] rows each class gets. [continuous = class_counts /
    class_counts.sum() * n_draws]; its floor is the quotient, its fractional
    part the remainder of [class_counts * n_draws] by the total. *)
Definition approximate_mode (class_counts : list nat) (n_draws : nat)
  (g : rng) : list nat * rng :=
  let total := sum_list class_counts in
  let floored := map (fun c => (c * n_draws) / total) class_counts in
  let need_to_add := n_draws - sum_list floored in
  if Nat.ltb 0 need_to_add then
    let rems := map (fun c => (c * n_draws) mod total) class_counts in
    distribute (sorted_unique_desc rems) rems floored need_to_add g
  else (floored, g).

(** [ceil(test_size * n_samples)] for [test_size = 0.2]. *)
Definition n_test_of (test_size : Q) (n_samples : nat) : nat :=
  Z.to_nat (Qceiling (test_size * inject_Z (Z.of_nat n_samples))).

(** The loop over the classes: each class is shuffled, its first [n_i] rows
    go to train and the next [t_i] to test. *)
Fixpoint split_classes (class_indices : list (list nat)) (n_i t_i : list nat)
  (g : rng) : list nat * list nat * rng :=
  match class_indices, n_i, t_i with
  | ci :: cis, n :: ns, t :: ts =>
      let (perm_indices_class_i, g1) := shuffled g ci in
      let '(train, test, g2) := split_classes cis ns ts g1 in
      (firstn n perm_indices_class_i ++ train,
       firstn t (skipn n perm_indices_class_i) ++ test, g2)
  | _, _, _ => ([], [], g)
  end.

(** [train_test_split(X, y, test_size=test_size, random_state=s,
    stratify=y)]: the positions of the train rows and of the test rows. *)
Definition stratified_split (test_size : Q) (random_state : nat)
  (d : list sample) : result (list nat * list nat) :=
  let n_samples := List.length d in
  let n_test := n_test_of test_size n_samples in
  let n_train := n_samples - n_test in
  if Nat.eqb n_train 0 then
    Raise (ValueError "the resulting train set will be empty")
  else
    let classes := classes_of d in
    let n_classes := List.length classes in
    let class_indices := map (fun c => flatnonzero c d) classes in
    let class_counts := map (@List.length nat) class_indices in
    if existsb (fun c => Nat.ltb c 2) class_counts then
      Raise (ValueError "The least populated class in y has only 1 member")
    else if Nat.ltb n_train n_classes then
      Raise (ValueError "The train_size should be greater or equal to the number of classes")
    else if Nat.ltb n_test n_classes then
      Raise (ValueError "The test_size should be greater or equal to the number of classes")
    else
      let g := seed random_state in
      let (n_i, g) := approximate_mode class_counts n_train g in
      let class_counts_remaining :=
        map (fun cn => fst cn - snd cn) (combine class_counts n_i) in
      let (t_i, g) := approximate_mode class_counts_remaining n_test g in
      let '(train, test, g) := split_classes class_indices n_i t_i g in
      let (train, g) := shuffled g train in
      let (test, g) := shuffled g test in
      Ok (train, test).

End Split.
End sklearn.

(* ===================================================================== *)
(** * imblearn: RandomUnderSampler and SMOTE with a dict strategy *)
(* ===================================================================== *)

(** The library routines behind [handle_imbalanced_data], after
    imbalanced-learn's [_sampling_strategy_dict],
    [RandomUnderSampler._fit_resample] and [SMOTE._fit_resample]. *)

(** [sampling_strategy={class: count, ...}] *)
Definition strategy : Type := list (cell * nat).

Fixpoint strategy_get (s : strategy) (c : cell) : option nat :=
  match s with
  | [] => None
  | (k, n) :: r => if cell_eqb k c then Some n else strategy_get r c
  end.

(** The interpolation step of SMOTE ([_make_samples]): [n] new feature
    vectors computed from the rows of one class and their nearest
    neighbours. *)
Class Synthesiser {RS : RandomState} : Type := {
  make_samples : rng -> list sample -> nat -> list (list cell) * rng;
  make_samples_length :
    forall g xs n, List.length (fst (make_samples g xs n)) = n
}.

Module imblearn.
Section Resampling.
Context {RS : RandomState} {SY : Synthesiser}.

(** What every sampler checks first: [check_classification_targets(y)],
    the labels are discrete, and [check_X_y(X, y)], [X] has at least one
    row and one column. *)
Definition check_X_y (d : list sample) : result unit :=
  if negb (forallb (fun s => integral (y s)) d) then
    Raise (ValueError "Unknown label type: continuous")
  else
    match d with
    | [] => Raise (ValueError "Found array with 0 sample(s)")
    | s :: _ =>
        if Nat.eqb (List.length (x s)) 0 then
          Raise (ValueError "Found array with 0 feature(s)")
        else Ok tt
    end.

(** [_sampling_strategy_dict(..., 'under-sampling')] *)
Definition check_under_sampling (s : strategy) (d : list sample)
  : result unit :=
  if existsb (fun kv => Nat.eqb (count_class (fst kv) d) 0) s then
    Raise (ValueError "The target class of the strategy is not present in the data")
  else if existsb (fun kv => Nat.ltb (count_class (fst kv) d) (snd kv)) s then
    Raise (ValueError "With under-sampling methods, the number of samples in a class should be less or equal to the original number of samples")
  else Ok tt.

(** The loop of [RandomUnderSampler._fit_resample] over [np.unique(y)]: a
    class of the strategy keeps a random choice of its rows, without
    replacement; any other class keeps all its rows. *)
Fixpoint under_classes (s : strategy) (d : list sample) (classes : list cell)
  (g : rng) : list nat * rng :=
  match classes with
  | [] => ([], g)
  | c :: cs =>
      let members := flatnonzero c d in
      let (idx, g1) :=
        match strategy_get s c with
        | Some n => choice g members n
        | None => (members, g)
        end in
      let (rest, g2) := under_classes s d cs g1 in
      (idx ++ rest, g2)
  end.

(** [RandomUnderSampler(sampling_strategy=s, random_state=r)
      .fit_resample(X, y)] *)
Definition RandomUnderSampler (s : strategy) (random_state : nat)
  (d : list sample) : result (list sample) :=
  (let? _ := check_X_y d in
   let? _ := check_under_sampling s d in
   let (idx_under, _) := under_classes s d (classes_of d) (seed random_state) in
   Ok (take d idx_under))%result.

(** [_sampling_strategy_dict(..., 'over-sampling')] *)
Definition check_over_sampling (s : strategy) (d : list sample)
  : result unit :=
  if existsb (fun kv => Nat.eqb (count_class (fst kv) d) 0) s then
    Raise (ValueError "The target class of the strategy is not present in the data")
  else if existsb (fun kv => Nat.ltb (snd kv) (count_class (fst kv) d)) s then
    Raise (ValueError "With over-sampling methods, the number of samples in a class should be greater or equal to the original number of samples")
  else Ok tt.

(** [SMOTE(k_neighbors=5)], the default. *)
Definition k_neighbors : nat := 5.

(** The loop of [SMOTE._fit_resample] over the strategy. A class that needs
    no new row is skipped; otherwise its [k_neighbors + 1] nearest
    neighbours are asked for, which fails when the class has fewer rows. *)
Fixpoint over_classes (s : strategy) (d : list sample) (g : rng)
  : result (list sample) :=
  match s with
  | [] => Ok []
  | (c, target) :: r =>
      let n_samples := target - count_class c d in
      if Nat.eqb n_samples 0 then over_classes r d g
      else
        let X_class := take d (flatnonzero c d) in
        if Nat.ltb (List.length X_class) (k_neighbors + 1) then
          Raise (ValueError "Expected n_neighbors <= n_samples_fit")
        else
          let (X_new, g1) := make_samples g X_class n_samples in
          (let? rest := over_classes r d g1 in
           Ok (map (fun v => mkSample Synthetic v c) X_new ++ rest))%result
  end.

(** [SMOTE(sampling_strategy=s, random_state=r).fit_resample(X, y)]: the
    rows given, followed by the synthetic ones. *)
Definition SMOTE (s : strategy) (random_state : nat) (d : list sample)
  : result (list sample) :=
  (let? _ := check_X_y d in
   let? _ := check_over_sampling s d in
   let? synthetic := over_classes s d (seed random_state) in
   Ok (d ++ synthetic))%result.

End Resampling.
End imblearn.

(* ===================================================================== *)
(** * scikit-learn's estimators and metrics *)
(* ===================================================================== *)

(** The three estimators of [train_models] (named by their key in the
    [models] dict) and the metric functions of [evaluate_models]. Fitting
    and scoring may raise. *)
Class Estimators : Type := {
  model : Type;
  cross_val_score : string -> Dataset -> result (list Q);
  fit : string -> Dataset -> result model;
  (** [model.feature_importances_], when the attribute exists *)
  feature_importances_ : model -> option (list Q);
  predict : model -> list (list cell) -> list cell;
  (** [model.predict_proba(X)[:, 1]] *)
  predict_proba : model -> list (list cell) -> list Q;
  roc_auc_score : list cell -> list Q -> result Q;
  (** [classification_report(..., output_dict=True)['1']]: precision,
      recall and f1-score of the fraud class *)
  classification_report : list cell -> list cell -> result (Q * Q * Q)
}.

(* ===================================================================== *)
(** * model_training.py *)
(* ===================================================================== *)

Module model_training.
Import config.

Infix "+++" := String.append (right associativity, at level 60).

(** The text of an exception, as the handlers log and print it. Of a
    [KeyError] the embedding keeps the missing labels only, and the text
    lists them; pandas words that message differently from one call to
    another, and the statements below hold whatever the wording. *)
Definition exn_message (e : exn) : string :=
  match e with
  | KeyError ks => "KeyError: " +++ String.concat ", " ks
  | NameError n => "name '" +++ n +++ "' is not defined"
  | ValueError m => m
  | FileNotFoundError p => "No such file or directory: " +++ p
  | FitFailure m => m
  end.

Definition decimal_N (n : N) : string :=
  NilEmpty.string_of_uint (N.to_uint n).

(** [%m], [%d], [%H], [%M], [%S]: two digits, zero-padded. *)
Definition two_digits (n : N) : string :=
  if N.ltb n 10 then "0" +++ decimal_N n else decimal_N n.

(** [%Y]: four digits, zero-padded. *)
Definition four_digits (n : N) : string :=
  if N.ltb n 10 then "000" +++ decimal_N n
  else if N.ltb n 100 then "00" +++ decimal_N n
  else if N.ltb n 1000 then "0" +++ decimal_N n
  else decimal_N n.

(** [t.strftime('%Y-%m-%d %H:%M:%S')] *)
Definition strftime (t : datetime) : string :=
  four_digits (year t) +++ "-" +++ two_digits (month t) +++ "-" +++
  two_digits (day t) +++ " " +++ two_digits (hour t) +++ ":" +++
  two_digits (minute t) +++ ":" +++ two_digits (second t).

(** What [datetime.now()] can return: a date of the years 1 to 9999. *)
Definition valid_datetime (t : datetime) : Prop :=
  (1 <= year t <= 9999 /\ 1 <= month t <= 12 /\ 1 <= day t <= 31 /\
   hour t < 24 /\ minute t < 60 /\ second t < 60)%N.

Definition is_digit (c : ascii) : bool :=
  Nat.leb 48 (nat_of_ascii c) && Nat.leb (nat_of_ascii c) 57.

(** [s] has the shape [pattern], where a [d] of the pattern stands for a
    decimal digit and every other character for itself. *)
Fixpoint has_shape (pattern s : string) : bool :=
  match pattern, s with
  | EmptyString, EmptyString => true
  | String p pattern', String c s' =>
      (if Ascii.eqb p "d" then is_digit c else Ascii.eqb p c)
      && has_shape pattern' s'
  | _, _ => false
  end.

(** The shape [strftime] gives with ['%Y-%m-%d %H:%M:%S']. *)
Definition TIMESTAMP_SHAPE : string := "dddd-dd-dd dd:dd:dd".

(** ISO 8601, complete representation of a date and time of day in the
    extended format: [YYYY-MM-DDThh:mm:ss], the letter T between the two. *)
Definition ISO_8601_SHAPE : string := "dddd-dd-ddTdd:dd:dd".

(** The rows of a frame as samples; row [i] is [Original i]. *)
Definition to_samples (features : DataFrame) (target : list cell)
  : list sample :=
  map (fun i => mkSample (Original i)
                  (row_at (map snd (cols features)) i)
                  (nth i target (Int 0)))
    (seq 0 (nrows features)).

(** [pd.concat([X, y], axis=1)] *)
Definition concat_xy (d : Dataset) : DataFrame :=
  mkFrame (List.length (samples d))
    (map (fun j => (nth j (feature_names d) "",
                    map (fun s => nth j (x s) (Float 0)) (samples d)))
       (seq 0 (List.length (feature_names d)))
     ++ [("Class", map y (samples d))]).

(** [X[selected]] on every row. *)
Definition select_columns (names selected : list string) (d : list sample)
  : list sample :=
  map (fun s =>
         mkSample (source s)
           (map (fun c =>
                   match find (fun nv => String.eqb (fst nv) c)
                           (combine names (x s)) with
                   | Some nv => snd nv
                   | None => Float 0
                   end) selected)
           (y s)) d.

(** [str.startswith] *)
Definition startswith (s p : string) : bool := String.prefix p s.

(** The feature selection of [preprocess_features]:
    [[col for col in X_train.columns if col.startswith('V') or col in
    ['Amount_Scaled', 'Hour_Sin', 'Hour_Cos', 'V_Sum', 'V_Mean', 'V_Std']]] *)
Definition selected_features_of (cols : list string) : list string :=
  filter (fun col =>
            startswith col "V" ||
            string_in col ["Amount_Scaled"; "Hour_Sin"; "Hour_Cos";
                           "V_Sum"; "V_Mean"; "V_Std"]) cols.

Fixpoint insert_by_importance (r : string * Q) (l : list (string * Q))
  : list (string * Q) :=
  match l with
  | [] => [r]
  | h :: t =>
      if Qle_bool (snd h) (snd r) then r :: l
      else h :: insert_by_importance r t
  end.

(** [sort_values('importance', ascending=False)]; features of equal
    importance stay in the order of the feature list. *)
Definition sort_values_desc (l : list (string * Q)) : list (string * Q) :=
  fold_right insert_by_importance [] l.

(** [pd.DataFrame({'feature': features, 'importance': importances})]: the
    arrays of a frame must have one length. *)
Definition feature_table (features : list string) (importances : list Q)
  : result (list (string * Q)) :=
  if Nat.eqb (List.length features) (List.length importances)
  then Ok (combine features importances)
  else Raise (ValueError "All arrays must be of the same length").

(** [Series.idxmax()]: the label of the first occurrence of the maximum;
    it raises on an empty series. *)
Definition idxmax (l : list (string * Q)) : result string :=
  match l with
  | [] => Raise (ValueError "attempt to get argmax of an empty sequence")
  | h :: t =>
      Ok (fst (fold_left
                 (fun best r =>
                    if Qle_bool (snd r) (snd best) then best else r)
                 t h))
  end.

Fixpoint dict_get {A} (d : list (string * A)) (k : string) : result A :=
  match d with
  | [] => Raise (KeyError [k])
  | (k', v) :: r => if String.eqb k' k then Ok v else dict_get r k
  end.

(** [int(count * ratio)] for a count and a positive ratio. *)
Definition int_times (count : nat) (ratio : Q) : nat :=
  Z.to_nat (Qfloor (inject_Z (Z.of_nat count) * ratio)).

(** The names of the estimators, in the order of the [models] dict. *)
Definition model_names : list string :=
  ["logistic_regression"; "random_forest"; "gradient_boosting"].

Section Pipeline.
Context {RS : RandomState} {SY : Synthesiser} {ES : Estimators}.

Local Open Scope M_scope.

Local Abbreviation M := (M model).

(** [load_prepared_data()]: the cleaned file, or, when it is absent, the
    raw file cleaned by the functions imported from [data_cleaning]. The
    globals of that module are then those of an imported module. *)
Definition load_prepared_data : M DataFrame :=
  try_except
    (logging INFO ("Loading cleaned data from " +++ CLEANED_DATA_FILE) ;;
     df <- read_csv CLEANED_DATA_FILE ;;
     logging INFO "Loaded data" ;;
     ret df)
    (fun e =>
       match e with
       | FileNotFoundError _ =>
           logging ERROR ("Cleaned data file not found at " +++ CLEANED_DATA_FILE) ;;
           logging INFO "Trying to load and clean raw data..." ;;
           try_except
             (raw_df <- data_cleaning.load_raw_data ;;
              processed_df <-
                lift (data_cleaning.preprocess_data data_cleaning.imported raw_df) ;;
              to_csv processed_df CLEANED_DATA_FILE ;;
              logging INFO ("Created cleaned data file at " +++ CLEANED_DATA_FILE) ;;
              ret processed_df)
             (fun e =>
                logging ERROR ("Error loading and cleaning raw data: " +++ exn_message e) ;;
                raise e)
       | _ =>
           logging ERROR ("Error loading cleaned data: " +++ exn_message e) ;;
           raise e
       end).

Definition prepare_train_test_split (df : DataFrame)
  : M (Dataset * Dataset) :=
  logging INFO "Preparing train-test split..." ;;
  features <- lift (drop df "Class") ;;
  target <- lift (getitem df "Class") ;;
  let rows := to_samples features target in
  ' (train, test) <- lift (sklearn.stratified_split TEST_SIZE RANDOM_STATE rows) ;;
  let train_set := mkDataset (columns features) (take rows train) in
  let test_set := mkDataset (columns features) (take rows test) in
  logging INFO "Train and test set shapes" ;;
  let train_df := concat_xy train_set in
  let test_df := concat_xy test_set in
  to_csv train_df TRAIN_DATA_FILE ;;
  to_csv test_df TEST_DATA_FILE ;;
  logging INFO ("Saved train data to " +++ TRAIN_DATA_FILE) ;;
  logging INFO ("Saved test data to " +++ TEST_DATA_FILE) ;;
  ret (train_set, test_set).

Definition preprocess_features (train test : Dataset)
  : M (Dataset * Dataset * list string) :=
  logging INFO "Preprocessing features..." ;;
  let selected_features := selected_features_of (feature_names train) in
  let X_train_selected :=
    mkDataset selected_features
      (select_columns (feature_names train) selected_features (samples train)) in
  let missing :=
    filter (fun c => negb (string_in c (feature_names test))) selected_features in
  (match missing with
   | [] => ret tt
   | _ => raise (KeyError missing)
   end) ;;
  let X_test_selected :=
    mkDataset selected_features
      (select_columns (feature_names test) selected_features (samples test)) in
  logging INFO "Selected features for modeling" ;;
  ret (X_train_selected, X_test_selected, selected_features).

(** [class_counts[label]] of [value_counts()]: a label that does not occur
    is not in the index. *)
Definition class_count (d : list sample) (label : Z) : result nat :=
  match count_class (Int label) d with
  | 0 => Raise (KeyError [decimal (Z.to_nat label)])
  | n => Ok n
  end.

Definition handle_imbalanced_data (train : Dataset) : M Dataset :=
  logging INFO "Handling class imbalance..." ;;
  majority_class_count <- lift (class_count (samples train) 0) ;;
  minority_class_count <- lift (class_count (samples train) 1) ;;
  logging INFO "Original class distribution" ;;
  let target_majority_count :=
    int_times majority_class_count UNDERSAMPLING_RATIO in
  resampled <-
    lift (imblearn.RandomUnderSampler
            [(Int 0, target_majority_count); (Int 1, minority_class_count)]
            RANDOM_STATE (samples train)) ;;
  let target_minority_count := int_times target_majority_count (1 # 2) in
  resampled <-
    lift (imblearn.SMOTE
            [(Int 0, target_majority_count); (Int 1, target_minority_count)]
            RANDOM_STATE resampled) ;;
  _ <- lift (class_count resampled 0) ;;
  _ <- lift (class_count resampled 1) ;;
  logging INFO "New class distribution" ;;
  ret (mkDataset (feature_names train) resampled).

(** One turn of the loop of [train_models]. *)
Definition train_one (d : Dataset) (selected_features : list string)
  (trained_models : list (string * model)) (name : string)
  : M (list (string * model)) :=
  logging INFO ("Training " +++ name +++ "...") ;;
  _ <- lift (cross_val_score name d) ;;
  logging INFO (name +++ " CV ROC-AUC") ;;
  m <- lift (fit name d) ;;
  let trained_models := trained_models ++ [(name, m)] in
  save ("models/" +++ name +++ ".pkl") (Pickle m) ;;
  logging INFO ("Saved " +++ name +++ " model") ;;
  match feature_importances_ m with
  | Some importances =>
      feature_importance <- lift (feature_table selected_features importances) ;;
      let feature_importance := sort_values_desc feature_importance in
      logging INFO ("Top 5 important features for " +++ name) ;;
      save ("model_analysis/" +++ name +++ "_feature_importance.csv")
        (ImportanceCsv feature_importance) ;;
      save ("model_analysis/" +++ name +++ "_feature_importance.png")
        (Figure ("Top 10 Feature Importance - " +++ name)) ;;
      ret trained_models
  | None => ret trained_models
  end.

Fixpoint train_loop (d : Dataset) (selected_features : list string)
  (names : list string) (trained_models : list (string * model))
  : M (list (string * model)) :=
  match names with
  | [] => ret trained_models
  | name :: rest =>
      trained_models <- train_one d selected_features trained_models name ;;
      train_loop d selected_features rest trained_models
  end.

Definition train_models (d : Dataset) (selected_features : list string)
  : M (list (string * model)) :=
  logging INFO "Training fraud detection models..." ;;
  train_loop d selected_features model_names [].

(** The metrics of one model on the test set: [roc_auc_score] on the fraud
    probabilities, then the report of the fraud class on the predictions. *)
Definition score (test : Dataset) (m : model) : result metrics :=
  (let X_test := map x (samples test) in
   let y_test := map y (samples test) in
   let y_pred := predict m X_test in
   let y_pred_proba := predict_proba m X_test in
   let? auc_score := roc_auc_score y_test y_pred_proba in
   let? prf := classification_report y_test y_pred in
   Ok (mkMetrics auc_score (fst (fst prf)) (snd (fst prf)) (snd prf)))%result.

(** One turn of the first loop of [evaluate_models]. The two figures go to
    [model_analysis/], the directory that [train_models] creates before
    its loop; [evaluate_models] does not create it, and the properties of
    [evaluate_models] below are stated of the calls that return. *)
Definition evaluate_one (test : Dataset) (results : list (string * metrics))
  (nm : string * model) : M (list (string * metrics)) :=
  let (name, m) := nm in
  logging INFO ("Evaluating " +++ name +++ "...") ;;
  scores <- lift (score test m) ;;
  logging INFO (name +++ " Test ROC-AUC") ;;
  logging INFO (name +++ " Classification Report") ;;
  save ("model_analysis/" +++ name +++ "_confusion_matrix.png")
    (Figure ("Confusion Matrix - " +++ name)) ;;
  save ("model_analysis/" +++ name +++ "_roc_curve.png")
    (Figure ("ROC Curve - " +++ name)) ;;
  ret (results ++ [(name, scores)]).

Fixpoint evaluate_loop (test : Dataset) (models : list (string * model))
  (results : list (string * metrics)) : M (list (string * metrics)) :=
  match models with
  | [] => ret results
  | nm :: rest =>
      results <- evaluate_one test results nm ;;
      evaluate_loop test rest results
  end.

Definition evaluate_models (models : list (string * model)) (test : Dataset)
  : M (string * list (string * metrics)) :=
  logging INFO "Evaluating models on test set..." ;;
  results <- evaluate_loop test models [] ;;
  save "model_analysis/model_comparison.csv" (ComparisonCsv results) ;;
  logging INFO "Model comparison results exported" ;;
  best_model_name <- lift (idxmax (map (fun r => (fst r, auc (snd r))) results)) ;;
  best_model <- lift (dict_get models best_model_name) ;;
  save MODEL_FILE (Pickle best_model) ;;
  logging INFO ("Best model (" +++ best_model_name +++ ") saved to " +++ MODEL_FILE) ;;
  t <- datetime_now ;;
  best <- lift (dict_get results best_model_name) ;;
  let info :=
    mkModelInfo best_model_name (strftime t)
      (mkMetrics (auc best) (precision best) (recall best) (f1 best))
      (List.length (feature_names test)) in
  save "models/model_info.csv" (ModelInfoCsv info) ;;
  ret (best_model_name, results).

Definition flag (b : bool) : cell := Int (if b then 1 else 0).

(** The exports at the end of [main]. *)
Definition export_predictions (trained_models : list (string * model))
  (best_model_name : string) (test : Dataset) : M unit :=
  best_model <- lift (dict_get trained_models best_model_name) ;;
  test_df <- read_csv TEST_DATA_FILE ;;
  let X_test := map x (samples test) in
  let predicted_class := predict best_model X_test in
  let test_df :=
    setitem test_df "predicted_proba"
      (map (fun q => Float (Q2R q)) (predict_proba best_model X_test)) in
  let test_df := setitem test_df "predicted_class" predicted_class in
  class <- lift (getitem test_df "Class") ;;
  let test_df :=
    setitem test_df "is_false_positive"
      (map (fun pc => flag (cell_eqb (fst pc) (Int 1) && cell_eqb (snd pc) (Int 0)))
         (combine predicted_class class)) in
  class <- lift (getitem test_df "Class") ;;
  let test_df :=
    setitem test_df "is_false_negative"
      (map (fun pc => flag (cell_eqb (fst pc) (Int 0) && cell_eqb (snd pc) (Int 1)))
         (combine predicted_class class)) in
  to_csv test_df "exports/fraud_predictions_for_sql.csv" ;;
  let excel_columns :=
    ["Time"; "Amount"; "Class"; "predicted_proba"; "predicted_class";
     "is_false_positive"; "is_false_negative"] in
  excel <- lift (getitems test_df excel_columns) ;;
  to_csv (mkFrame (nrows test_df) (combine excel_columns excel))
    "exports/fraud_predictions_for_excel.csv".

(** What [main] hands from stage to stage. *)
Record run : Type := mkRun {
  run_train : Dataset;
  run_test : Dataset;
  run_selected_features : list string;
  run_balanced : Dataset;
  run_test_processed : Dataset;
  run_trained_models : list (string * model);
  run_best_model_name : string;
  run_results : list (string * metrics)
}.

(** The body of the [try] of [main]. *)
Definition pipeline : M run :=
  df <- load_prepared_data ;;
  ' (train, test) <- prepare_train_test_split df ;;
  ' (X_train_processed, X_test_processed, selected_features) <-
      preprocess_features train test ;;
  balanced <- handle_imbalanced_data X_train_processed ;;
  trained_models <- train_models balanced selected_features ;;
  ' (best_model_name, results) <- evaluate_models trained_models X_test_processed ;;
  export_predictions trained_models best_model_name X_test_processed ;;
  logging INFO "Model training completed successfully" ;;
  logging INFO ("Best model: " +++ best_model_name) ;;
  print "Model training completed successfully." ;;
  print ("Best model: " +++ best_model_name) ;;
  print ("Model saved to " +++ MODEL_FILE) ;;
  print "Exports for SQL and Excel saved to exports" ;;
  ret (mkRun train test selected_features balanced X_test_processed
         trained_models best_model_name results).

(** [main()]: an exception of any stage is logged and printed; [main]
    itself returns normally. *)
Definition main : M (option run) :=
  logging INFO "Model training process started" ;;
  try_except
    (r <- pipeline ;; ret (Some r))
    (fun e =>
       logging ERROR ("Error in model training pipeline: " +++ exn_message e) ;;
       print ("Error in model training pipeline: " +++ exn_message e) ;;
       ret None).

End Pipeline.
End model_training.

(* ===================================================================== *)
(** * Concrete inputs and implementations used in examples *)
(* ===================================================================== *)

Module fixtures.
Import config data_cleaning.

(** A generator that never shuffles. *)
Definition identity_rng : RandomState :=
  {| rng := unit;
     seed := fun _ => tt;
     permutation := fun g n => (seq 0 n, g);
     permutation_spec := fun g n => Permutation_refl (seq 0 n) |}.

(** A synthesiser whose new rows have no features. *)
Definition blank_synthesiser : @Synthesiser identity_rng :=
  {| make_samples := fun g xs n => (repeat [] n, g);
     make_samples_length := fun g xs n => repeat_length [] n |}.

(** Estimators given by a table: a fitted model is its name, [failing]
    lists the names whose [fit] raises, and [aucs] gives the score a model
    predicts for every row, which is also the AUC it is credited with. The
    tree-based models report one importance: they are fitted on the one
    selected feature of the frames below. *)
Definition table_estimators (failing : list string) (aucs : string -> Q)
  : Estimators :=
  {| model := string;
     cross_val_score := fun _ _ => Ok [];
     fit := fun name _ =>
              if existsb (String.eqb name) failing
              then Raise (FitFailure "did not converge")
              else Ok name;
     feature_importances_ :=
       fun m => if String.eqb m "logistic_regression" then None
                else Some [1%Q];
     predict := fun _ X => map (fun _ => Int 0) X;
     predict_proba := fun m X => map (fun _ => aucs m) X;
     roc_auc_score := fun _ p => Ok (hd 0%Q p);
     classification_report := fun _ _ => Ok (1%Q, 1%Q, 1%Q) |}.

Definition no_failure : Estimators := table_estimators [] (fun _ => 1%Q).

(** A raw frame of no rows. *)
Definition empty_raw : DataFrame :=
  mkFrame 0 (map (fun c => (c, [])) RAW_COLUMNS).

(** A raw frame of one row: [V1 = 1.0], every other field zero. *)
Definition unit_row : DataFrame :=
  mkFrame 1
    (map (fun c => (c, [if String.eqb c "V1" then Float 1
                        else if String.eqb c "Class" then Int 0
                        else Float 0])) RAW_COLUMNS).

(** A raw frame of one row without the label column. *)
Definition unlabelled_row : DataFrame :=
  mkFrame 1 (filter (fun c => negb (String.eqb (fst c) "Class")) (cols unit_row)).

(** A prepared frame of [legit] rows of class 0 followed by [fraud] rows of
    class 1; the only feature columns are [Time], [Amount] and [V1]. *)
Definition prepared (legit fraud : nat) : DataFrame :=
  mkFrame (legit + fraud)
    [("Time", repeat (Float 0) (legit + fraud));
     ("V1", repeat (Float 0) (legit + fraud));
     ("Amount", repeat (Float 0) (legit + fraud));
     ("Class", repeat (Int 0) legit ++ repeat (Int 1) fraud)].

(** A training set of [legit] rows of class 0 followed by [fraud] rows of
    class 1, with the one feature [V1]. *)
Definition labelled (legit fraud : nat) : Dataset :=
  mkDataset ["V1"]
    (map (fun i => mkSample (Original i) [Float 0]
                     (if Nat.ltb i legit then Int 0 else Int 1))
       (seq 0 (legit + fraud))).

Definition blank_world {model} (fs : list (string * artifact model))
  : world model :=
  mkWorld fs [] [] (mkDatetime 2026 11 3 10 30 0)%N.

(** Estimators whose tree-based models rank two features: the second
    feature has importance 3/4, the first 1/4. *)
Definition ranked_estimators : Estimators :=
  {| model := string;
     cross_val_score := fun _ _ => Ok [];
     fit := fun name _ => Ok name;
     feature_importances_ :=
       fun m => if String.eqb m "logistic_regression" then None
                else Some [(1 # 4)%Q; (3 # 4)%Q];
     predict := fun _ X => map (fun _ => Int 0) X;
     predict_proba := fun _ X => map (fun _ => 1%Q) X;
     roc_auc_score := fun _ p => Ok (hd 0%Q p);
     classification_report := fun _ _ => Ok (1%Q, 1%Q, 1%Q) |}.

End fixtures.

Import config data_cleaning model_training.

(* ===================================================================== *)
(** * Frames: reading and writing columns *)
(* ===================================================================== *)

Lemma string_in_true (s : string) (l : list string) :
  string_in s l = true <-> In s l.
Proof.
  unfold string_in. rewrite existsb_exists. split.
  - intros [t [Ht E]]. apply String.eqb_eq in E. now subst.
  - intros H. exists s. split; [assumption | apply String.eqb_refl].
Qed.

Lemma string_in_false (s : string) (l : list string) :
  string_in s l = false -> ~ In s l.
Proof.
  intros E H. apply string_in_true in H. congruence.
Qed.

Lemma lookup_replace_same (n : string) (v : list cell) cs :
  lookup n (replace_column n v cs) = Some v.
Proof.
  induction cs as [|[m old] cs IH]; simpl.
  - now rewrite String.eqb_refl.
  - destruct (String.eqb m n) eqn:E; simpl; rewrite E; auto.
Qed.

Lemma lookup_replace_other (n m : string) (v : list cell) cs :
  n <> m -> lookup m (replace_column n v cs) = lookup m cs.
Proof.
  intros D. induction cs as [|[k old] cs IH]; simpl.
  - apply String.eqb_neq in D. now rewrite D.
  - destruct (String.eqb k n) eqn:E; simpl.
    + apply String.eqb_eq in E. subst k.
      apply String.eqb_neq in D. now rewrite D.
    + destruct (String.eqb k m); auto.
Qed.

Lemma lookup_Some_In (n : string) cs :
  (exists v, lookup n cs = Some v) <-> In n (map fst cs).
Proof.
  induction cs as [|[k old] cs IH]; simpl.
  - split; [intros [v H]; discriminate | tauto].
  - destruct (String.eqb k n) eqn:E.
    + apply String.eqb_eq in E. split; eauto.
    + apply String.eqb_neq in E. rewrite IH. tauto.
Qed.

Lemma has_column_In (df : DataFrame) (n : string) :
  has_column df n = true <-> In n (columns df).
Proof.
  unfold has_column, columns. rewrite <- lookup_Some_In.
  destruct (lookup n (cols df)); split; eauto; try discriminate.
  intros [v H]. discriminate.
Qed.

Lemma replace_column_labels (n : string) (v : list cell) cs :
  map fst (replace_column n v cs) = add_label (map fst cs) n.
Proof.
  unfold add_label, string_in.
  induction cs as [|[k old] cs IH]; simpl; auto.
  rewrite (String.eqb_sym n k).
  destruct (String.eqb k n) eqn:E; simpl; auto.
  rewrite IH. destruct (existsb (String.eqb n) (map fst cs)); auto.
Qed.

Lemma columns_setitem (df : DataFrame) (n : string) (v : list cell) :
  columns (setitem df n v) = add_label (columns df) n.
Proof. apply replace_column_labels. Qed.

Lemma getitem_has (df : DataFrame) (n : string) :
  has_column df n = true -> getitem df n = Ok (column df n).
Proof.
  unfold has_column, getitem, column.
  destruct (lookup n (cols df)); [reflexivity | discriminate].
Qed.

Lemma getitem_lacks (df : DataFrame) (n : string) :
  has_column df n = false -> getitem df n = Raise (KeyError [n]).
Proof.
  unfold has_column, getitem.
  destruct (lookup n (cols df)); [discriminate | reflexivity].
Qed.

Lemma has_column_setitem_other (df : DataFrame) (n m : string) v :
  n <> m -> has_column (setitem df n v) m = has_column df m.
Proof.
  intros D. unfold has_column, setitem; simpl.
  now rewrite lookup_replace_other.
Qed.

Lemma column_setitem_other (df : DataFrame) (n m : string) v :
  n <> m -> column (setitem df n v) m = column df m.
Proof.
  intros D. unfold column, setitem; simpl.
  now rewrite lookup_replace_other.
Qed.

Lemma column_setitem_same (df : DataFrame) (n : string) v :
  column (setitem df n v) n = v.
Proof.
  unfold column, setitem; simpl. now rewrite lookup_replace_same.
Qed.

Lemma getitem_setitem_other (df : DataFrame) (n m : string) v :
  n <> m -> getitem (setitem df n v) m = getitem df m.
Proof.
  intros D. unfold getitem, setitem; simpl.
  now rewrite lookup_replace_other.
Qed.

Lemma getitems_setitem_other (df : DataFrame) (n : string) v names :
  ~ In n names -> getitems (setitem df n v) names = getitems df names.
Proof.
  intros D. unfold getitems.
  assert (F : filter (fun k => negb (has_column (setitem df n v) k)) names
              = filter (fun k => negb (has_column df k)) names).
  { apply filter_ext_in. intros k Hk. rewrite has_column_setitem_other; auto.
    intros ->. auto. }
  rewrite F.
  destruct (filter (fun k => negb (has_column df k)) names); auto.
  f_equal. apply map_ext_in. intros k Hk. unfold setitem; simpl.
  rewrite lookup_replace_other; auto. intros ->. auto.
Qed.

Lemma getitems_has (df : DataFrame) (names : list string) :
  (forall n, In n names -> has_column df n = true) ->
  getitems df names = Ok (map (column df) names).
Proof.
  intros H. unfold getitems.
  assert (F : filter (fun k => negb (has_column df k)) names = []).
  { induction names as [|k names IH]; simpl; auto.
    rewrite (H k) by (now left). simpl. apply IH.
    intros n Hn. apply H. now right. }
  now rewrite F.
Qed.

Lemma getitems_lacks (df : DataFrame) (names : list string) (n : string) :
  In n names -> has_column df n = false ->
  exists k ks, getitems df names = Raise (KeyError (k :: ks)).
Proof.
  intros Hn Hc. unfold getitems.
  destruct (filter (fun k => negb (has_column df k)) names) as [|k ks] eqn:F.
  - assert (I : In n (filter (fun k => negb (has_column df k)) names)).
    { apply filter_In. split; auto. now rewrite Hc. }
    rewrite F in I. destruct I.
  - eauto.
Qed.

Lemma Forall2_map_same {A B C} (P : B -> C -> Prop) (f : A -> B) (h : A -> C)
  (l : list A) :
  (forall a, In a l -> P (f a) (h a)) -> Forall2 P (map f l) (map h l).
Proof.
  induction l as [|a l IH]; intros H; simpl; constructor.
  - apply H. now left.
  - apply IH. intros b Hb. apply H. now right.
Qed.

Lemma Forall2_map_right {A B} (P : A -> B -> Prop) (f : A -> B) (l : list A) :
  (forall a, In a l -> P a (f a)) -> Forall2 P l (map f l).
Proof.
  intros H. rewrite <- (map_id l) at 1. now apply Forall2_map_same.
Qed.

(* ===================================================================== *)
(** * data_cleaning.preprocess_data *)
(* ===================================================================== *)

Section PreprocessData.
Import config data_cleaning.

(** The labels [preprocess_data] assigns, in the order of assignment. *)
Let assigned : list string :=
  ["Time"; "Hour_Sin"; "Hour_Cos"; "Amount_Log"; "Amount_Scaled";
   "Amount_Outlier"; "V_Sum"; "V_Mean"; "V_Std"].

Lemma V_FEATURES_length : List.length V_FEATURES = 28.
Proof. reflexivity. Qed.

Lemma assigned_not_V (n : string) : In n assigned -> ~ In n V_FEATURES.
Proof.
  intros H. apply string_in_false.
  repeat (destruct H as [<- | H]; [reflexivity |]). destruct H.
Qed.

Ltac not_V := apply assigned_not_V; unfold assigned; simpl; tauto.

Ltac through_setitem :=
  repeat first
    [ rewrite getitem_setitem_other by discriminate
    | rewrite has_column_setitem_other by discriminate
    | rewrite column_setitem_other by discriminate
    | rewrite getitems_setitem_other by not_V ].

Lemma preprocess_data_no_Time g df :
  has_column df "Time" = false ->
  preprocess_data g df = Raise (KeyError ["Time"]).
Proof.
  intros H. unfold preprocess_data. now rewrite (getitem_lacks _ _ H).
Qed.

Lemma preprocess_data_no_Amount g df :
  has_column df "Time" = true -> has_column df "Amount" = false ->
  preprocess_data g df = Raise (KeyError ["Amount"]).
Proof.
  intros HT HA. unfold preprocess_data.
  rewrite (getitem_has _ _ HT). cbn [rbind].
  through_setitem. now rewrite (getitem_lacks _ _ HA).
Qed.

Lemma preprocess_data_no_V g df v :
  has_column df "Time" = true -> has_column df "Amount" = true ->
  In v V_FEATURES -> has_column df v = false ->
  exists k ks, preprocess_data g df = Raise (KeyError (k :: ks)).
Proof.
  intros HT HA Hv Hc. unfold preprocess_data.
  rewrite (getitem_has _ _ HT). cbn [rbind].
  through_setitem. rewrite (getitem_has _ _ HA). cbn [rbind].
  through_setitem.
  destruct (getitems_lacks df V_FEATURES v Hv Hc) as [k [ks E]].
  rewrite E. cbn [rbind]. eauto.
Qed.

Lemma preprocess_data_NameError g df :
  has_column df "Time" = true -> has_column df "Amount" = true ->
  (forall v, In v V_FEATURES -> has_column df v = true) ->
  upper_bound g = None ->
  preprocess_data g df = Raise (NameError "upper_bound").
Proof.
  intros HT HA HV Hu. unfold preprocess_data.
  rewrite (getitem_has _ _ HT). cbn [rbind].
  through_setitem. rewrite (getitem_has _ _ HA). cbn [rbind].
  through_setitem. rewrite (getitems_has _ _ HV). cbn [rbind].
  through_setitem. rewrite (getitem_has _ _ HA). cbn [rbind].
  unfold read_upper_bound. now rewrite Hu.
Qed.

Lemma preprocess_data_Ok g df u :
  has_column df "Time" = true -> has_column df "Amount" = true ->
  (forall v, In v V_FEATURES -> has_column df v = true) ->
  upper_bound g = Some u ->
  exists out,
    preprocess_data g df = Ok out /\
    nrows out = nrows df /\
    columns out = fold_left add_label assigned (columns df) /\
    column out "V_Sum" =
      map (fun i => Float (Rsum (v_components df i))) (seq 0 (nrows df)) /\
    column out "V_Mean" =
      map (fun i => Float (mean (v_components df i))) (seq 0 (nrows df)) /\
    column out "V_Std" =
      map (fun i => Float (std (v_components df i))) (seq 0 (nrows df)).
Proof.
  intros HT HA HV Hu. unfold preprocess_data.
  rewrite (getitem_has _ _ HT). cbn [rbind].
  through_setitem. rewrite (getitem_has _ _ HA). cbn [rbind].
  through_setitem. rewrite (getitems_has _ _ HV). cbn [rbind].
  through_setitem. rewrite (getitem_has _ _ HA). cbn [rbind].
  unfold read_upper_bound. rewrite Hu. cbn [rbind].
  do 3 (through_setitem; rewrite (getitems_has _ _ HV); cbn [rbind]).
  eexists. split; [reflexivity |].
  split; [reflexivity |].
  split; [now rewrite !columns_setitem |].
  unfold v_components.
  repeat split.
  - through_setitem. now rewrite column_setitem_same.
  - through_setitem. now rewrite column_setitem_same.
  - now rewrite column_setitem_same.
Qed.

End PreprocessData.

Section FeaturePreparation.
Import config data_cleaning fixtures.

Lemma preprocess_data_Ok_inv g df out :
  preprocess_data g df = Ok out ->
  has_column df "Time" = true /\ has_column df "Amount" = true /\
  (forall v, In v V_FEATURES -> has_column df v = true) /\
  exists u, upper_bound g = Some u.
Proof.
  intros E.
  destruct (has_column df "Time") eqn:HT.
  2:{ rewrite (preprocess_data_no_Time g df HT) in E. discriminate. }
  destruct (has_column df "Amount") eqn:HA.
  2:{ rewrite (preprocess_data_no_Amount g df HT HA) in E. discriminate. }
  assert (HV : forall v, In v V_FEATURES -> has_column df v = true).
  { intros v Hv. destruct (has_column df v) eqn:Hc; auto.
    destruct (preprocess_data_no_V g df v HT HA Hv Hc) as [k [ks K]].
    rewrite K in E. discriminate. }
  repeat split; auto.
  destruct (upper_bound g) as [u|] eqn:Hu; eauto.
  rewrite (preprocess_data_NameError g df HT HA HV Hu) in E. discriminate.
Qed.

Lemma v_components_length df i : List.length (v_components df i) = 28.
Proof.
  unfold v_components, reals, row_at. now rewrite !length_map.
Qed.

Lemma nth_error_map_seq {A} (f : nat -> A) (n i : nat) :
  i < n -> nth_error (map f (seq 0 n)) i = Some (f i).
Proof.
  intros H. rewrite nth_error_map, nth_error_seq.
  destruct (Nat.ltb_spec i n); [reflexivity | lia].
Qed.

Local Open Scope R_scope.

(** C6, as the code has it. For every frame that [preprocess_data] accepts
    and every row [i], the aggregate features of the row are the sum of its
    28 V components, their mean (the sum divided by 28), and their SAMPLE
    standard deviation: the square root of the sum of squared deviations
    from the mean divided by 27 (pandas' [std] has [ddof=1]). *)
Theorem aggregate_features g df out (i : nat) :
  preprocess_data g df = Ok out ->
  (i < nrows df)%nat ->
  nth_error (column out "V_Sum") i
    = Some (Float (Rsum (v_components df i))) /\
  nth_error (column out "V_Mean") i
    = Some (Float (Rsum (v_components df i) / 28)) /\
  nth_error (column out "V_Std") i
    = Some (Float (sqrt (sq_dev (v_components df i) / 27))).
Proof.
  intros E Hi.
  destruct (preprocess_data_Ok_inv g df out E) as [HT [HA [HV [u Hu]]]].
  destruct (preprocess_data_Ok g df u HT HA HV Hu)
    as [out' [E' [_ [_ [S [Me Sd]]]]]].
  rewrite E in E'. injection E' as <-.
  rewrite S, Me, Sd, !nth_error_map_seq by assumption.
  unfold mean, std. rewrite v_components_length.
  replace (INR 28) with 28 by (simpl; lra).
  replace (28 - 1) with 27 by lra.
  auto.
Qed.

Lemma unit_row_columns :
  has_column unit_row "Time" = true /\ has_column unit_row "Amount" = true /\
  (forall v, In v V_FEATURES -> has_column unit_row v = true).
Proof.
  repeat split.
  intros v H.
  repeat (destruct H as [<- | H]; [reflexivity |]). destruct H.
Qed.

Lemma unit_row_components :
  v_components unit_row 0 = 1 :: repeat 0 27.
Proof. reflexivity. Qed.

Lemma unit_row_sq_dev : sq_dev (v_components unit_row 0) = 27 / 28.
Proof.
  unfold sq_dev, mean. rewrite unit_row_components.
  simpl. field.
Qed.

Lemma aggregate_features_witness :
  exists out,
    preprocess_data (run_as_main 0 0) unit_row = Ok out /\
    nth_error (column out "V_Std") 0
      = Some (Float (sqrt (sq_dev (v_components unit_row 0) / 27))).
Proof.
  destruct unit_row_columns as [HT [HA HV]].
  destruct (preprocess_data_Ok (run_as_main 0 0) unit_row _ HT HA HV eq_refl)
    as [out [E _]].
  exists out. split; [exact E |].
  apply (aggregate_features (run_as_main 0 0) unit_row out 0 E).
  simpl. lia.
Defined.

(** C6, as the specification has it, fails: on the row with [V1 = 1] and
    every other component zero the code stores [sqrt (1/28)] in [V_Std],
    and the population standard deviation of the row is [sqrt (27/784)]. *)
Lemma V_Std_is_not_the_population_std :
  exists out,
    preprocess_data (run_as_main 0 0) unit_row = Ok out /\
    nth_error (column out "V_Std") 0 = Some (Float (sqrt (1 / 28))) /\
    population_std (v_components unit_row 0) = sqrt (27 / 784) /\
    sqrt (1 / 28) <> sqrt (27 / 784).
Proof.
  destruct unit_row_columns as [HT [HA HV]].
  destruct (preprocess_data_Ok (run_as_main 0 0) unit_row _ HT HA HV eq_refl)
    as [out [E [_ [_ [_ [_ Sd]]]]]].
  exists out. split; [exact E |]. split; [| split].
  - rewrite Sd. simpl. unfold std.
    rewrite unit_row_sq_dev, v_components_length.
    do 3 f_equal. simpl. field.
  - unfold population_std.
    rewrite unit_row_sq_dev, v_components_length.
    f_equal. simpl. field.
  - intros H. apply sqrt_inj in H; lra.
Qed.

Local Close Scope R_scope.

(** C7, as the code has it. [preprocess_data] raises a [KeyError], and
    returns no frame, whenever [Time], [Amount] or one of the 28 V columns
    is absent. It reads neither the label nor the number of rows: on every
    frame that has those 30 columns, when [upper_bound] is defined, it
    returns a frame of as many rows as it was given. *)
Theorem preprocess_data_failures g df :
  (has_column df "Time" = false \/ has_column df "Amount" = false \/
   (exists v, In v V_FEATURES /\ has_column df v = false) ->
   exists ks, preprocess_data g df = Raise (KeyError ks)) /\
  (has_column df "Time" = true -> has_column df "Amount" = true ->
   (forall v, In v V_FEATURES -> has_column df v = true) ->
   forall u, upper_bound g = Some u ->
   exists out, preprocess_data g df = Ok out /\ nrows out = nrows df).
Proof.
  split.
  - intros H.
    destruct (has_column df "Time") eqn:HT.
    2:{ eexists. now apply preprocess_data_no_Time. }
    destruct (has_column df "Amount") eqn:HA.
    2:{ eexists. now apply preprocess_data_no_Amount. }
    destruct H as [H | [H | [v [Hv Hc]]]]; try discriminate.
    destruct (preprocess_data_no_V g df v HT HA Hv Hc) as [k [ks K]].
    eauto.
  - intros HT HA HV u Hu.
    destruct (preprocess_data_Ok g df u HT HA HV Hu) as [out [E [N _]]].
    eauto.
Qed.

Lemma empty_raw_columns :
  has_column empty_raw "Time" = true /\ has_column empty_raw "Amount" = true /\
  (forall v, In v V_FEATURES -> has_column empty_raw v = true).
Proof.
  repeat split.
  intros v H.
  repeat (destruct H as [<- | H]; [reflexivity |]). destruct H.
Qed.

Lemma unlabelled_row_columns :
  has_column unlabelled_row "Time" = true /\
  has_column unlabelled_row "Amount" = true /\
  (forall v, In v V_FEATURES -> has_column unlabelled_row v = true).
Proof.
  repeat split.
  intros v H.
  repeat (destruct H as [<- | H]; [reflexivity |]). destruct H.
Qed.

Lemma preprocess_data_failures_witness :
  (exists ks,
     preprocess_data imported (mkFrame 0 [("Time", [])]) = Raise (KeyError ks)) /\
  (exists out,
     preprocess_data (run_as_main 0 0) empty_raw = Ok out /\
     nrows out = nrows empty_raw).
Proof.
  split.
  - apply (proj1 (preprocess_data_failures imported (mkFrame 0 [("Time", [])]))).
    right. left. reflexivity.
  - destruct empty_raw_columns as [HT [HA HV]].
    exact (proj2 (preprocess_data_failures (run_as_main 0 0) empty_raw)
             HT HA HV _ eq_refl).
Defined.

(** C7, as the specification has it, fails twice: a frame of zero rows and
    a frame without the label column are both accepted, and a frame is
    returned for each. *)
Lemma preprocess_data_accepts_empty_and_unlabelled :
  (nrows empty_raw = 0 /\
   exists out, preprocess_data (run_as_main 0 0) empty_raw = Ok out) /\
  (has_column unlabelled_row "Class" = false /\
   exists out, preprocess_data (run_as_main 0 0) unlabelled_row = Ok out).
Proof.
  split; (split; [reflexivity |]).
  - destruct empty_raw_columns as [HT [HA HV]].
    destruct (preprocess_data_Ok (run_as_main 0 0) empty_raw _ HT HA HV eq_refl)
      as [out [E _]]. eauto.
  - destruct unlabelled_row_columns as [HT [HA HV]].
    destruct (preprocess_data_Ok (run_as_main 0 0) unlabelled_row _ HT HA HV eq_refl)
      as [out [E _]]. eauto.
Qed.

End FeaturePreparation.

(* ===================================================================== *)
(** * model_training: loading the prepared data *)
(* ===================================================================== *)

Section LoadPreparedData.
Import config data_cleaning model_training fixtures.
Context {RS : RandomState} {SY : Synthesiser} {ES : Estimators}.

Lemma load_prepared_data_fallback (w : world model) (raw : DataFrame) :
  read_file CLEANED_DATA_FILE (files w) = None ->
  read_file RAW_DATA_FILE (files w) = Some (Csv raw) ->
  preprocess_data imported raw = Raise (NameError "upper_bound") ->
  exists w', load_prepared_data w = (Raise (NameError "upper_bound"), w') /\
             files w' = files w.
Proof.
  intros HC HR P.
  unfold load_prepared_data, load_raw_data, try_except, bind, logging,
    read_csv, lift, raise, ret. simpl.
  rewrite HC. simpl. rewrite HR. simpl. rewrite P. simpl. eauto.
Qed.

(** C9. When the cleaned file is absent, [load_prepared_data] falls back
    to [data_cleaning.preprocess_data], called from the imported module,
    where [upper_bound] was never bound. Then for every raw file with all
    the columns [preprocess_data] reads (whatever its rows),
    [load_prepared_data] raises [NameError: upper_bound], no file is
    written, and [main] ends without a run. *)
Theorem fallback_raises_NameError (w : world model) (raw : DataFrame) :
  read_file CLEANED_DATA_FILE (files w) = None ->
  read_file RAW_DATA_FILE (files w) = Some (Csv raw) ->
  has_column raw "Time" = true -> has_column raw "Amount" = true ->
  (forall v, In v V_FEATURES -> has_column raw v = true) ->
  fst (load_prepared_data w) = Raise (NameError "upper_bound") /\
  files (snd (load_prepared_data w)) = files w /\
  fst (main w) = Ok None.
Proof.
  intros HC HR HT HA HV.
  assert (P : preprocess_data imported raw = Raise (NameError "upper_bound"))
    by (now apply preprocess_data_NameError).
  destruct (load_prepared_data_fallback w raw HC HR P) as [w1 [E1 F1]].
  rewrite E1. repeat split; auto.
  unfold main, pipeline, try_except, bind. simpl.
  match goal with
  | |- context [load_prepared_data ?w0] =>
      destruct (load_prepared_data_fallback w0 raw HC HR P) as [w2 [E2 _]];
      rewrite E2
  end.
  reflexivity.
Qed.

End LoadPreparedData.

Lemma fallback_raises_NameError_witness :
  fst (@model_training.load_prepared_data fixtures.no_failure
         (fixtures.blank_world
            [(config.RAW_DATA_FILE, Csv fixtures.unit_row)]))
  = Raise (NameError "upper_bound").
Proof.
  destruct unit_row_columns as [HT [HA HV]].
  exact (proj1 (@fallback_raises_NameError fixtures.identity_rng
                  fixtures.blank_synthesiser fixtures.no_failure
                  (fixtures.blank_world
                     [(config.RAW_DATA_FILE, Csv fixtures.unit_row)])
                  fixtures.unit_row eq_refl eq_refl HT HA HV)).
Defined.

(* ===================================================================== *)
(** * model_training: the feature selection *)
(* ===================================================================== *)

Section FeatureSelection.
Import config data_cleaning model_training.
Context {RS : RandomState} {SY : Synthesiser} {ES : Estimators}.

Lemma selected_features_of_In (cols : list string) (c : string) :
  In c (selected_features_of cols) <->
  In c cols /\
  (startswith c "V" = true \/
   c = "Amount_Scaled" \/ c = "Hour_Sin" \/ c = "Hour_Cos").
Proof.
  unfold selected_features_of. rewrite filter_In, orb_true_iff, string_in_true.
  split; intros [H K]; split; auto.
  - destruct K as [K | K]; auto. simpl in K.
    repeat (destruct K as [<- | K]; auto).
  - destruct K as [K | [-> | [-> | ->]]]; auto; right; simpl; auto.
Qed.

Lemma selected_features_of_rejects (cols : list string) (c : string) :
  startswith c "V" = false ->
  string_in c ["Amount_Scaled"; "Hour_Sin"; "Hour_Cos";
               "V_Sum"; "V_Mean"; "V_Std"] = false ->
  ~ In c (selected_features_of cols).
Proof.
  intros H1 H2 H. unfold selected_features_of in H.
  apply filter_In in H. destruct H as [_ H]. rewrite H1, H2 in H.
  discriminate.
Qed.

Lemma drop_columns df name out :
  drop df name = Ok out ->
  columns out = filter (fun c => negb (String.eqb c name)) (columns df).
Proof.
  unfold drop. destruct (has_column df name); [| discriminate].
  intros E. injection E as <-. unfold columns; simpl.
  induction (cols df) as [|[k v] cs IH]; simpl; auto.
  destruct (String.eqb k name); simpl; now rewrite IH.
Qed.

Lemma preprocess_features_inv (train test : Dataset) (w w' : world model)
  Xtr Xte sel :
  preprocess_features train test w = (Ok (Xtr, Xte, sel), w') ->
  sel = selected_features_of (feature_names train) /\
  Xtr = mkDataset sel (select_columns (feature_names train) sel (samples train)) /\
  Xte = mkDataset sel (select_columns (feature_names test) sel (samples test)).
Proof.
  unfold preprocess_features, bind, logging, ret, raise. simpl.
  destruct (filter _ (selected_features_of (feature_names train)));
    simpl; intros E; inversion E; auto.
Qed.

Lemma find_combine (names : list string) (xs : list cell) (k : nat)
  (c : string) (v : cell) :
  NoDup names -> nth_error names k = Some c -> nth_error xs k = Some v ->
  find (fun nv => String.eqb (fst nv) c) (combine names xs) = Some (c, v).
Proof.
  revert k xs. induction names as [|a t IH]; intros k xs ND Hn Hx.
  - destruct k; discriminate.
  - destruct xs as [|b u]; [destruct k; discriminate |].
    inversion ND as [|? ? Na ND']; subst.
    destruct k as [|k]; simpl in *.
    + injection Hn as ->. injection Hx as ->. now rewrite String.eqb_refl.
    + assert (D : String.eqb a c = false).
      { apply String.eqb_neq. intros ->. apply Na.
        eapply nth_error_In; eauto. }
      rewrite D. eauto.
Qed.

(** Row [s'] is row [s] restricted to the columns [sel]: the same row and
    label, one cell per selected column, and the cell at the place of a
    selected column is the cell of [s] under the column of that name. *)
Let selects (names sel : list string) (s s' : sample) : Prop :=
  source s' = source s /\ y s' = y s /\
  List.length (x s') = List.length sel /\
  forall j k c,
    nth_error sel j = Some c -> nth_error names k = Some c ->
    nth_error (x s') j = nth_error (x s) k.

Lemma select_columns_selects (names sel : list string) (d : list sample) :
  NoDup names ->
  (forall s, In s d -> List.length (x s) = List.length names) ->
  Forall2 (selects names sel) d (select_columns names sel d).
Proof.
  intros ND W. unfold select_columns. apply Forall2_map_right.
  intros s Hs. unfold selects. simpl.
  split; [reflexivity |]. split; [reflexivity |].
  split; [apply length_map |].
  intros j k c Hj Hk.
  rewrite nth_error_map, Hj. simpl.
  assert (L : k < List.length (x s)).
  { rewrite (W s Hs). apply nth_error_Some. congruence. }
  destruct (nth_error (x s) k) as [v |] eqn:Hx.
  - now rewrite (find_combine names (x s) k c v ND Hk Hx).
  - apply nth_error_None in Hx. lia.
Qed.

(** C10. Whenever [preprocess_features] returns, the features it selected
    are exactly the columns of the train frame whose name starts with 'V'
    or is [Amount_Scaled], [Hour_Sin] or [Hour_Cos]; both frames it returns
    have these columns; [Amount_Outlier], [Time], [Amount] and
    [Amount_Log] are never among them. On the frame prepared from a raw
    file with the header of [creditcard.csv] the selection is V1 to V28,
    [Hour_Sin], [Hour_Cos], [Amount_Scaled], [V_Sum], [V_Mean], [V_Std].
    The rows of the two frames it returns are the rows it was given, in
    the same order and with the same labels, restricted to the selected
    columns: a row holds one cell per selected column, and that cell is
    the cell the row had under the column of that name; no cell of another
    column is in it. *)
Theorem selected_features_exactly (train test : Dataset) (w w' : world model)
  Xtr Xte sel :
  preprocess_features train test w = (Ok (Xtr, Xte, sel), w') ->
  (forall c, In c sel <->
             In c (feature_names train) /\
             (startswith c "V" = true \/
              c = "Amount_Scaled" \/ c = "Hour_Sin" \/ c = "Hour_Cos")) /\
  feature_names Xtr = sel /\ feature_names Xte = sel /\
  ~ In "Amount_Outlier" sel /\ ~ In "Time" sel /\
  ~ In "Amount" sel /\ ~ In "Amount_Log" sel /\
  (forall g raw prepared features,
     columns raw = RAW_COLUMNS ->
     preprocess_data g raw = Ok prepared ->
     drop prepared "Class" = Ok features ->
     feature_names train = columns features ->
     sel = V_FEATURES ++ ["Hour_Sin"; "Hour_Cos"; "Amount_Scaled";
                          "V_Sum"; "V_Mean"; "V_Std"]) /\
  (NoDup (feature_names train) ->
   (forall s, In s (samples train) ->
              List.length (x s) = List.length (feature_names train)) ->
   Forall2 (selects (feature_names train) sel) (samples train) (samples Xtr)) /\
  (NoDup (feature_names test) ->
   (forall s, In s (samples test) ->
              List.length (x s) = List.length (feature_names test)) ->
   Forall2 (selects (feature_names test) sel) (samples test) (samples Xte)).
Proof.
  intros E. apply preprocess_features_inv in E. destruct E as [-> [-> ->]].
  split; [intros c; apply selected_features_of_In |].
  do 2 (split; [reflexivity |]).
  do 4 (split; [now apply selected_features_of_rejects |]).
  split.
  { intros g raw prepared features HR HP HD HF.
    destruct (preprocess_data_Ok_inv g raw prepared HP) as [HT [HA [HV [u Hu]]]].
    destruct (preprocess_data_Ok g raw u HT HA HV Hu) as [out [E [_ [C _]]]].
    rewrite HP in E. injection E as <-.
    rewrite HF, (drop_columns _ _ _ HD), C, HR. reflexivity. }
  split; intros ND W; now apply select_columns_selects.
Qed.

End FeatureSelection.

(** A frame of one row where every column has a cell of its own: the
    selection keeps the cell of [V1] and drops the outlier flag. *)
Lemma selected_features_exactly_witness :
  let train :=
    mkDataset ["Time"; "V1"; "Amount"; "Amount_Outlier"]
      [mkSample (Original 0) [Float 0; Float 2; Float 5; Int 1] (Int 0)] in
  exists Xtr Xte w' s',
    @model_training.preprocess_features fixtures.no_failure train train
      (fixtures.blank_world []) = (Ok (Xtr, Xte, ["V1"]), w') /\
    samples Xtr = [s'] /\ x s' = [Float 2] /\
    ~ In "Amount_Outlier" (feature_names Xtr).
Proof.
  intros train.
  destruct (@model_training.preprocess_features fixtures.no_failure train train
              (fixtures.blank_world []))
    as [[[[Xtr Xte] sel] | e] w'] eqn:E; [| vm_compute in E; discriminate].
  assert (S : sel = ["V1"]).
  { apply preprocess_features_inv in E. destruct E as [-> _]. reflexivity. }
  subst sel.
  destruct (@selected_features_exactly fixtures.no_failure train train
              _ _ _ _ _ E) as (_ & Fn & _ & NO & _ & _ & _ & _ & Str & _).
  assert (F : Forall2
                (fun s s' =>
                   source s' = source s /\ y s' = y s /\
                   List.length (x s') = 1 /\
                   forall j k c,
                     nth_error ["V1"] j = Some c ->
                     nth_error (feature_names train) k = Some c ->
                     nth_error (x s') j = nth_error (x s) k)
                (samples train) (samples Xtr)).
  { apply Str.
    - repeat constructor; simpl; intuition discriminate.
    - intros s [<- | []]. reflexivity. }
  simpl in F. inversion F as [|s0 s' l0 l' [_ [_ [L C]]] F' E1 E2]; subst.
  inversion F'; subst.
  exists Xtr, Xte, w', s'. split; [reflexivity |]. split; [congruence |].
  split; [| now rewrite Fn].
  specialize (C 0 1 "V1" eq_refl eq_refl). simpl in C.
  destruct (x s') as [|a [|b t]]; simpl in *; try discriminate.
  now injection C as ->.
Defined.

(* ===================================================================== *)
(** * model_training: evaluation and selection *)
(* ===================================================================== *)

Section Files.
Context {model : Type}.

Lemma read_write_same (p : string) (a : artifact model) fs :
  read_file p (write_file p a fs) = Some a.
Proof. unfold write_file. simpl. now rewrite String.eqb_refl. Qed.

Lemma read_filter_other (p q : string) (fs : list (string * artifact model)) :
  p <> q ->
  read_file q (filter (fun pa => negb (String.eqb (fst pa) p)) fs)
  = read_file q fs.
Proof.
  intros D. induction fs as [|[k a] fs IH]; simpl; auto.
  destruct (String.eqb k p) eqn:E; simpl.
  - apply String.eqb_eq in E. subst k.
    apply String.eqb_neq in D. now rewrite D.
  - destruct (String.eqb k q); auto.
Qed.

Lemma read_write_other (p q : string) (a : artifact model) fs :
  p <> q -> read_file q (write_file p a fs) = read_file q fs.
Proof.
  intros D. unfold write_file. simpl.
  pose proof D as D'. apply String.eqb_neq in D'. rewrite D'.
  now apply read_filter_other.
Qed.

End Files.

Section FirstMaximum.
Local Open Scope Q_scope.

(** [best] is the first maximum of [l]: it stands at some position, nothing
    in [l] is greater, everything before it is smaller. *)
Let first_max (l : list (string * Q)) (best : string * Q) : Prop :=
  exists i,
    nth_error l i = Some best /\
    (forall j r, nth_error l j = Some r -> snd r <= snd best) /\
    (forall j r, (j < i)%nat -> nth_error l j = Some r -> snd r < snd best).

Lemma fold_first_max (t pre : list (string * Q)) (cur : string * Q) :
  first_max pre cur ->
  first_max (pre ++ t)
    (fold_left (fun best r => if Qle_bool (snd r) (snd best) then best else r)
       t cur).
Proof.
  revert pre cur. induction t as [|r t IH]; intros pre cur H.
  - now rewrite app_nil_r.
  - simpl. replace (pre ++ r :: t) with ((pre ++ [r]) ++ t)
      by (now rewrite <- app_assoc).
    apply IH. destruct H as [i [Hi [Hle Hlt]]].
    assert (Li : (i < List.length pre)%nat)
      by (apply nth_error_Some; congruence).
    destruct (Qle_bool (snd r) (snd cur)) eqn:E.
    + apply Qle_bool_iff in E. exists i. repeat split.
      * rewrite nth_error_app1; auto.
      * intros j s Hj.
        destruct (Nat.lt_ge_cases j (List.length pre)) as [L | L].
        -- rewrite nth_error_app1 in Hj; eauto.
        -- rewrite nth_error_app2 in Hj by assumption.
           destruct (j - List.length pre)%nat as [|k]; simpl in Hj.
           ++ now inversion Hj; subst.
           ++ destruct k; discriminate.
      * intros j s Lj Hj. rewrite nth_error_app1 in Hj by lia. eauto.
    + assert (G : snd cur < snd r).
      { apply Qnot_le_lt. intros C. apply Qle_bool_iff in C. congruence. }
      exists (List.length pre). repeat split.
      * rewrite nth_error_app2, Nat.sub_diag; auto.
      * intros j s Hj.
        destruct (Nat.lt_ge_cases j (List.length pre)) as [L | L].
        -- rewrite nth_error_app1 in Hj by assumption.
           apply Qlt_le_weak. eapply Qle_lt_trans; eauto.
        -- rewrite nth_error_app2 in Hj by assumption.
           destruct (j - List.length pre)%nat as [|k]; simpl in Hj.
           ++ inversion Hj; subst. apply Qle_refl.
           ++ destruct k; discriminate.
      * intros j s Lj Hj. rewrite nth_error_app1 in Hj by assumption.
        eapply Qle_lt_trans; eauto.
Qed.

(** [idxmax] returns the label of the first maximum. *)
Lemma idxmax_first_max (l : list (string * Q)) (name : string) :
  idxmax l = Ok name ->
  exists i a,
    nth_error l i = Some (name, a) /\
    (forall j r, nth_error l j = Some r -> snd r <= a) /\
    (forall j r, (j < i)%nat -> nth_error l j = Some r -> snd r < a).
Proof.
  destruct l as [|h t]; simpl; [discriminate |].
  intros E. injection E as E.
  assert (F : first_max ([h] ++ t)
                (fold_left (fun best r =>
                              if Qle_bool (snd r) (snd best) then best else r)
                   t h)).
  { apply fold_first_max. exists 0%nat. repeat split; auto.
    - intros [|[|j]] r Hj; simpl in Hj; try discriminate.
      inversion Hj. apply Qle_refl.
    - intros j r Hj. lia. }
  destruct F as [i [Hi [Hle Hlt]]].
  destruct (fold_left _ t h) as [n a]. simpl in *. subst n.
  exists i, a. auto.
Qed.

Lemma idxmax_nonempty (l : list (string * Q)) :
  l <> [] -> exists name, idxmax l = Ok name.
Proof. destruct l; [congruence | simpl; eauto]. Qed.

End FirstMaximum.

Section Evaluation.
Context {RS : RandomState} {SY : Synthesiser} {ES : Estimators}.

Lemma dict_get_In {A} (d : list (string * A)) (k : string) :
  In k (map fst d) -> exists v, dict_get d k = Ok v.
Proof.
  induction d as [|[k' v] d IH]; simpl; [tauto |].
  intros [-> | H].
  - rewrite String.eqb_refl. eauto.
  - destruct (String.eqb k' k); eauto.
Qed.

Lemma dict_get_nth {A} (d : list (string * A)) (i : nat) (k : string) (v : A) :
  NoDup (map fst d) -> nth_error d i = Some (k, v) -> dict_get d k = Ok v.
Proof.
  revert i. induction d as [|[k' v'] d IH]; intros i ND H.
  - destruct i; discriminate.
  - simpl in ND. inversion ND as [|? ? Hn ND']; subst.
    destruct i as [|i]; simpl in *.
    + inversion H; subst. now rewrite String.eqb_refl.
    + destruct (String.eqb k' k) eqn:E.
      * apply String.eqb_eq in E. subst k'. exfalso. apply Hn.
        apply nth_error_In in H. apply (in_map fst) in H. exact H.
      * eauto.
Qed.

(** What the loop of [evaluate_models] leaves: one entry per model, under
    the model's name and in the order of the dict, or the exception of the
    first model whose scoring raised. *)
Lemma evaluate_loop_spec (test : Dataset) models acc (w : world model) :
  match evaluate_loop test models acc w with
  | (Ok results, w') =>
      exists scored,
        results = acc ++ scored /\
        Forall2 (fun nm r => fst r = fst nm /\ score test (snd nm) = Ok (snd r))
          models scored /\
        now w' = now w
  | (Raise e, _) => exists nm, In nm models /\ score test (snd nm) = Raise e
  end.
Proof.
  revert acc w. induction models as [|[name m] models IH]; intros acc w.
  - simpl. exists []. rewrite app_nil_r. auto.
  - simpl. unfold bind at 1. unfold evaluate_one.
    unfold bind, lift, logging, save, ret. simpl.
    destruct (score test m) as [sc | e] eqn:S.
    + simpl.
      match goal with
      | |- context [evaluate_loop test models ?a ?w0] =>
          specialize (IH a w0); destruct (evaluate_loop test models a w0)
            as [[results | e] w']
      end.
      * destruct IH as [scored [-> [F N]]].
        exists ((name, sc) :: scored). rewrite <- app_assoc. simpl.
        repeat split; auto.
      * destruct IH as [nm [I Sc]]. exists nm. auto.
    + exists (name, m). auto.
Qed.

(** What [evaluate_models] returns and leaves behind. *)
Lemma evaluate_models_spec models (test : Dataset) (w : world model) :
  NoDup (map fst models) ->
  match evaluate_models models test w with
  | (Ok (name, results), w') =>
      Forall2 (fun nm r => fst r = fst nm /\ score test (snd nm) = Ok (snd r))
        models results /\
      idxmax (map (fun r => (fst r, auc (snd r))) results) = Ok name /\
      exists m best fs,
        dict_get models name = Ok m /\
        dict_get results name = Ok best /\
        files w' =
          write_file "models/model_info.csv"
            (ModelInfoCsv
               (mkModelInfo name (strftime (now w))
                  (mkMetrics (auc best) (precision best) (recall best) (f1 best))
                  (List.length (feature_names test))))
            (write_file MODEL_FILE (Pickle m) fs)
  | (Raise e, _) =>
      models = [] \/ exists nm, In nm models /\ score test (snd nm) = Raise e
  end.
Proof.
  intros ND. unfold evaluate_models.
  unfold bind at 1. unfold logging at 1.
  unfold bind at 1.
  match goal with
  | |- context [evaluate_loop test models [] ?w0] =>
      pose proof (evaluate_loop_spec test models [] w0) as L;
      destruct (evaluate_loop test models [] w0) as [[results | e] w1]
  end.
  2:{ right. exact L. }
  destruct L as [scored [-> [F N]]]. simpl in F, N. simpl app.
  unfold bind, lift, logging, save, ret, datetime_now. simpl.
  destruct (idxmax (map (fun r => (fst r, auc (snd r))) scored))
    as [name | e] eqn:I.
  2:{ left. destruct scored; [| simpl in I; discriminate].
      now inversion F. }
  simpl.
  destruct (idxmax_first_max _ _ I) as [i [a [Hi _]]].
  rewrite nth_error_map in Hi.
  destruct (nth_error scored i) as [[n best] |] eqn:Hs; [| discriminate].
  simpl in Hi. inversion Hi; subst n a. clear Hi.
  assert (K : map fst scored = map fst models).
  { clear -F. induction F as [|nm r ms rs [E _] _ IH]; simpl; congruence. }
  assert (Gr : dict_get scored name = Ok best).
  { eapply dict_get_nth; eauto. now rewrite K. }
  destruct (dict_get_In models name) as [m Gm].
  { rewrite <- K. apply nth_error_In in Hs. now apply (in_map fst) in Hs. }
  rewrite Gm. simpl. rewrite Gr. simpl.
  split; [exact F |]. split; [exact I |].
  exists m, best. eexists. repeat split; auto.
  now rewrite N.
Qed.

End Evaluation.

(* ===================================================================== *)
(** * model_training: training *)
(* ===================================================================== *)

Section Training.
Context {RS : RandomState} {SY : Synthesiser} {ES : Estimators}.

(** A model family trains when its cross-validation and its fit return and
    the fitted model, if it has importances, has one per selected
    feature. *)
Let trains (d : Dataset) (sel : list string) (name : string) (m : model)
  : Prop :=
  fit name d = Ok m /\
  (exists s, cross_val_score name d = Ok s) /\
  (forall imp, feature_importances_ m = Some imp ->
               List.length imp = List.length sel).

(** A model family fails with [e] when its cross-validation raises [e], or
    its cross-validation returns and its fit raises [e], or both return and
    the importances of the fitted model do not match the selected features:
    [e] is then the [ValueError] of the importance table. *)
Let fails (d : Dataset) (sel : list string) (name : string) (e : exn)
  : Prop :=
  cross_val_score name d = Raise e \/
  ((exists s, cross_val_score name d = Ok s) /\ fit name d = Raise e) \/
  ((exists s, cross_val_score name d = Ok s) /\
   exists m imp,
     fit name d = Ok m /\ feature_importances_ m = Some imp /\
     List.length imp <> List.length sel /\
     e = ValueError "All arrays must be of the same length").

Lemma feature_table_Ok (sel : list string) (imp : list Q) :
  List.length imp = List.length sel ->
  feature_table sel imp = Ok (combine sel imp).
Proof.
  intros H. unfold feature_table. now rewrite H, Nat.eqb_refl.
Qed.

Lemma feature_table_Raise (sel : list string) (imp : list Q) :
  List.length imp <> List.length sel ->
  feature_table sel imp
  = Raise (ValueError "All arrays must be of the same length").
Proof.
  intros H. unfold feature_table.
  destruct (Nat.eqb_spec (List.length sel) (List.length imp)); congruence.
Qed.

Lemma train_one_spec d sel acc name (w : world model) :
  match train_one d sel acc name w with
  | (Ok trained, _) =>
      exists m, trained = acc ++ [(name, m)] /\ trains d sel name m
  | (Raise e, _) => fails d sel name e
  end.
Proof.
  unfold train_one, trains, fails, bind, lift, logging, save, ret. simpl.
  destruct (cross_val_score name d) as [s | e] eqn:C; simpl.
  2:{ auto. }
  destruct (fit name d) as [m | e] eqn:F; simpl.
  2:{ right. left. split; eauto. }
  destruct (feature_importances_ m) as [imp |] eqn:I; simpl.
  2:{ exists m. split; [reflexivity |]. split; [reflexivity |].
      split; [eauto |]. intros imp' H. rewrite I in H. discriminate. }
  destruct (Nat.eq_dec (List.length imp) (List.length sel)) as [L | L].
  - rewrite (feature_table_Ok sel imp L). simpl.
    exists m. split; [reflexivity |]. split; [reflexivity |].
    split; [eauto |]. intros imp' H. rewrite I in H. now injection H as <-.
  - rewrite (feature_table_Raise sel imp L). simpl.
    right. right. split; eauto. exists m, imp. auto.
Qed.

Lemma train_loop_spec d sel names acc (w : world model) :
  match train_loop d sel names acc w with
  | (Ok trained, _) =>
      exists ms, trained = acc ++ ms /\ map fst ms = names /\
                 Forall (fun nm => trains d sel (fst nm) (snd nm)) ms
  | (Raise e, _) =>
      exists before name after,
        names = before ++ name :: after /\ fails d sel name e
  end.
Proof.
  revert acc w. induction names as [|name rest IH]; intros acc w.
  - simpl. exists []. rewrite app_nil_r. auto.
  - simpl. unfold bind at 1.
    pose proof (train_one_spec d sel acc name w) as T.
    destruct (train_one d sel acc name w) as [[acc' | e] w1] eqn:E1.
    + destruct T as [m [-> Tm]].
      specialize (IH (acc ++ [(name, m)]) w1).
      destruct (train_loop d sel rest (acc ++ [(name, m)]) w1)
        as [[trained | e] w2].
      * destruct IH as [ms [-> [Hn Hf]]].
        exists ((name, m) :: ms). rewrite <- app_assoc. simpl.
        repeat split; auto. now rewrite Hn.
      * destruct IH as [before [nm [after [Hn He]]]].
        exists (name :: before), nm, after.
        split; [simpl; now rewrite Hn | exact He].
    + exists [], name, rest. auto.
Qed.

Lemma train_models_names d sel (w w' : world model) trained :
  train_models d sel w = (Ok trained, w') -> map fst trained = model_names.
Proof.
  unfold train_models. unfold bind at 1. unfold logging at 1.
  match goal with
  | |- context [train_loop d sel model_names [] ?w1] =>
      pose proof (train_loop_spec d sel model_names [] w1) as L;
      destruct (train_loop d sel model_names [] w1) as [[ms | e] w2]
  end; intros E; inversion E; subst.
  destruct L as [ms [-> [Hn _]]]. exact Hn.
Qed.

End Training.

(** C3, as the specification has it, fails: when the fit of the logistic
    regression raises (and the two other families would fit),
    [train_models] raises that exception, and neither the random forest nor
    the gradient boosting is trained: no model file is written for them,
    where the same call with a logistic regression that fits writes both
    files. *)
Lemma one_failure_aborts_the_others :
  let ES := fixtures.table_estimators ["logistic_regression"] (fun _ => 1%Q) in
  let ES0 := fixtures.table_estimators [] (fun _ => 1%Q) in
  let d := fixtures.labelled 4 2 in
  let w := @fixtures.blank_world (@model ES) [] in
  let w0 := @fixtures.blank_world (@model ES0) [] in
  @fit ES "random_forest" d = Ok "random_forest" /\
  @fit ES "gradient_boosting" d = Ok "gradient_boosting" /\
  fst (@train_models ES d ["V1"] w) = Raise (FitFailure "did not converge") /\
  read_file "models/random_forest.pkl"
    (files (snd (@train_models ES d ["V1"] w))) = None /\
  read_file "models/gradient_boosting.pkl"
    (files (snd (@train_models ES d ["V1"] w))) = None /\
  read_file "models/random_forest.pkl"
    (files (snd (@train_models ES0 d ["V1"] w0)))
  = Some (Pickle "random_forest") /\
  read_file "models/gradient_boosting.pkl"
    (files (snd (@train_models ES0 d ["V1"] w0)))
  = Some (Pickle "gradient_boosting").
Proof. repeat split; vm_compute; reflexivity. Qed.

(* ===================================================================== *)
(** * model_training: the selected model and its metadata *)
(* ===================================================================== *)

Section Selection.
Context {RS : RandomState} {SY : Synthesiser} {ES : Estimators}.
Local Open Scope Q_scope.

Lemma Forall2_nth_error_r {A B} (P : A -> B -> Prop) l1 l2 (i : nat) (b : B) :
  Forall2 P l1 l2 -> nth_error l2 i = Some b ->
  exists a, nth_error l1 i = Some a /\ P a b.
Proof.
  intros F. revert i. induction F as [|a0 b0 l1 l2 H F IH]; intros i Hi.
  - destruct i; discriminate.
  - destruct i as [|i]; simpl in *.
    + inversion Hi; subst. eauto.
    + eauto.
Qed.

Lemma scored_names (models : list (string * model)) (test : Dataset)
  (results : list (string * metrics)) :
  Forall2 (fun nm r => fst r = fst nm /\ score test (snd nm) = Ok (snd r))
    models results ->
  map fst results = map fst models.
Proof.
  intros F. induction F as [|nm r ms rs [E _] _ IH]; simpl; congruence.
Qed.

(** The model [evaluate_models] names: where it stands in the dict, its
    scores, and the two files written for it. *)
Lemma evaluate_models_selected models (test : Dataset) (w w' : world model)
  name results :
  NoDup (map fst models) ->
  evaluate_models models test w = (Ok (name, results), w') ->
  exists m best i,
    map fst results = map fst models /\
    nth_error models i = Some (name, m) /\
    nth_error results i = Some (name, best) /\
    score test m = Ok best /\
    (forall j r, nth_error results j = Some r -> auc (snd r) <= auc best) /\
    (forall j r, (j < i)%nat -> nth_error results j = Some r ->
                 auc (snd r) < auc best) /\
    read_file MODEL_FILE (files w') = Some (Pickle m) /\
    read_file "models/model_info.csv" (files w') =
      Some (ModelInfoCsv
              (mkModelInfo name (strftime (now w)) best
                 (List.length (feature_names test)))).
Proof.
  intros ND E.
  pose proof (evaluate_models_spec models test w ND) as S.
  rewrite E in S.
  destruct S as [F [I [m [best [fs [Gm [Gr Fw]]]]]]].
  destruct (idxmax_first_max _ _ I) as [i [a [Hi [Hle Hlt]]]].
  rewrite nth_error_map in Hi.
  destruct (nth_error results i) as [[n b] |] eqn:Hr; [| discriminate].
  simpl in Hi. inversion Hi; subst n a. clear Hi.
  pose proof (scored_names _ _ _ F) as K.
  assert (b = best).
  { assert (G : dict_get results name = Ok b).
    { eapply dict_get_nth; eauto. now rewrite K. }
    congruence. }
  subst b.
  destruct (Forall2_nth_error_r _ _ _ _ _ F Hr) as [[n m'] [Hm [Hn Hs]]].
  simpl in Hn, Hs. subst n.
  assert (m' = m).
  { pose proof (dict_get_nth _ _ _ _ ND Hm). congruence. }
  subst m'.
  exists m, best, i.
  repeat split; auto.
  - intros j r Hj. apply (Hle j (fst r, auc (snd r))).
    now rewrite nth_error_map, Hj.
  - intros j r Lj Hj. apply (Hlt j (fst r, auc (snd r))); auto.
    now rewrite nth_error_map, Hj.
  - rewrite Fw, read_write_other by discriminate. apply read_write_same.
  - rewrite Fw, read_write_same. now destruct best.
Qed.

(** C2. Whenever [evaluate_models] returns, on a dict of models of
    distinct names, the dict was not empty and the results hold one record
    per model, in the order of the dict, under the name of the model and
    with the metrics of its own scoring on the test set. The model it
    names and writes to [MODEL_FILE] has an AUC that no model exceeds and
    that every model before it in that order is strictly below: the
    highest AUC, and among equals the first. The dict that [train_models]
    returns is in the order logistic_regression, random_forest,
    gradient_boosting. *)
Theorem best_model_is_first_maximum models (test : Dataset)
  (w w' : world model) (name : string) results :
  NoDup (map fst models) ->
  evaluate_models models test w = (Ok (name, results), w') ->
  models <> [] /\
  Forall2 (fun nm r => fst r = fst nm /\ score test (snd nm) = Ok (snd r))
    models results /\
  exists m best i,
    nth_error models i = Some (name, m) /\
    nth_error results i = Some (name, best) /\
    score test m = Ok best /\
    (forall j r, nth_error results j = Some r -> auc (snd r) <= auc best) /\
    (forall j r, (j < i)%nat -> nth_error results j = Some r ->
                 auc (snd r) < auc best) /\
    read_file MODEL_FILE (files w') = Some (Pickle m) /\
    (forall d sel w0 w1,
       train_models d sel w0 = (Ok models, w1) ->
       map fst models =
         ["logistic_regression"; "random_forest"; "gradient_boosting"]).
Proof.
  intros ND E.
  pose proof (evaluate_models_spec models test w ND) as S.
  rewrite E in S. destruct S as [F _].
  destruct (evaluate_models_selected models test w w' name results ND E)
    as [m [best [i [K [Hm [Hr [Hs [Hle [Hlt [Fm _]]]]]]]]]].
  split.
  { intros ->. destruct i; discriminate. }
  split; [exact F |].
  exists m, best, i.
  repeat split; auto.
  intros d sel w0 w1 T. exact (train_models_names d sel w0 w1 models T).
Qed.

Lemma has_shape_app (p1 p2 s1 s2 : string) :
  has_shape p1 s1 = true -> has_shape p2 s2 = true ->
  has_shape (p1 +++ p2) (s1 +++ s2) = true.
Proof.
  revert s1. induction p1 as [|c p1 IH]; intros [|d s1] H1 H2;
    simpl in *; try discriminate; auto.
  apply andb_true_iff in H1. destruct H1 as [Hc H1].
  rewrite Hc. simpl. auto.
Qed.

Lemma two_digits_shape (n : N) :
  (n < 100)%N -> has_shape "dd" (two_digits n) = true.
Proof.
  intros H.
  assert (A : forallb (fun k => has_shape "dd" (two_digits (N.of_nat k)))
                (seq 0 100) = true) by (vm_compute; reflexivity).
  rewrite forallb_forall in A.
  specialize (A (N.to_nat n)). rewrite N2Nat.id in A. apply A.
  apply in_seq. lia.
Qed.

Lemma four_digits_shape (n : N) :
  (n < 10000)%N -> has_shape "dddd" (four_digits n) = true.
Proof.
  intros H.
  assert (A : forallb (fun k => has_shape "dddd" (four_digits (N.of_nat k)))
                (seq 0 (N.to_nat 10000)) = true) by (vm_compute; reflexivity).
  rewrite forallb_forall in A.
  specialize (A (N.to_nat n)). rewrite N2Nat.id in A. apply A.
  apply in_seq. lia.
Qed.

Lemma strftime_shape (t : datetime) :
  valid_datetime t -> has_shape TIMESTAMP_SHAPE (strftime t) = true.
Proof.
  intros (Hy & Hm & Hd & Hh & Hmi & Hs).
  unfold strftime.
  change TIMESTAMP_SHAPE
    with ("dddd" +++ "-" +++ "dd" +++ "-" +++ "dd" +++ " " +++
          "dd" +++ ":" +++ "dd" +++ ":" +++ "dd").
  repeat first
    [ apply has_shape_app
    | apply four_digits_shape; lia
    | apply two_digits_shape; lia
    | reflexivity ].
Qed.

(** C8, as the code has it. Whenever [evaluate_models] returns, the file
    [models/model_info.csv] holds one record next to the pickled selected
    model in [MODEL_FILE]: the name of the selected model, the time of the
    call formatted [YYYY-MM-DD HH:MM:SS] (the date and the time of day
    separated by a space), the four metrics of the selected model on the
    test set, and the number of columns of the test frame, which is the
    number of selected features when the frame comes from
    [preprocess_features]. *)
Theorem model_info_record models (test : Dataset) (w w' : world model)
  name results :
  NoDup (map fst models) ->
  valid_datetime (now w) ->
  evaluate_models models test w = (Ok (name, results), w') ->
  exists info m best,
    read_file "models/model_info.csv" (files w') = Some (ModelInfoCsv info) /\
    read_file MODEL_FILE (files w') = Some (Pickle m) /\
    dict_get models name = Ok m /\
    model_name info = name /\
    score test m = Ok best /\
    info_metrics info = best /\
    training_date info = strftime (now w) /\
    has_shape TIMESTAMP_SHAPE (training_date info) = true /\
    feature_count info = List.length (feature_names test) /\
    (forall train test0 w0 w1 Xtr sel,
       preprocess_features train test0 w0 = (Ok (Xtr, test, sel), w1) ->
       feature_count info = List.length sel).
Proof.
  intros ND V E.
  destruct (evaluate_models_selected models test w w' name results ND E)
    as [m [best [i [K [Hm [Hr [Hs [_ [_ [Fm Fi]]]]]]]]]].
  eexists. exists m, best.
  split; [exact Fi |]. simpl.
  repeat split; auto.
  - eapply dict_get_nth; eauto.
  - now apply strftime_shape.
  - intros train test0 w0 w1 Xtr sel P.
    apply preprocess_features_inv in P. destruct P as [_ [_ ->]]. reflexivity.
Qed.

End Selection.

Section SelectionExamples.
Import fixtures.
Local Open Scope Q_scope.

(** The three fitted models of the examples: a model is its name. *)
Let three_models : list (string * string) :=
  map (fun n => (n, n)) model_names.

Let aucs_of (a b c : Q) (m : string) : Q :=
  if String.eqb m "logistic_regression" then a
  else if String.eqb m "random_forest" then b else c.

Let one_test : Dataset :=
  mkDataset ["V1"; "Hour_Sin"]
    [mkSample (Original 0) [Float 0; Float 0] (Int 1)].

(** AUCs 0.90, 0.95, 0.93: the random forest is selected. *)
Example highest_auc_is_selected :
  option_map fst
    (outcome (@evaluate_models (table_estimators [] (aucs_of 0.90 0.95 0.93))
                three_models one_test (blank_world [])))
  = Some "random_forest".
Proof. vm_compute. reflexivity. Qed.

(** AUCs 0.95, 0.95, 0.90: of the two best, the first in the order of the
    dict, the logistic regression, is selected. *)
Example tie_goes_to_the_first :
  option_map fst
    (outcome (@evaluate_models (table_estimators [] (aucs_of 0.95 0.95 0.90))
                three_models one_test (blank_world [])))
  = Some "logistic_regression".
Proof. vm_compute. reflexivity. Qed.

Lemma best_model_is_first_maximum_witness :
  exists results w' best,
    @evaluate_models (table_estimators [] (aucs_of 0.90 0.95 0.93))
      three_models one_test (blank_world [])
    = (Ok ("random_forest", results), w') /\
    nth_error results 1 = Some ("random_forest", best) /\
    (forall j r, nth_error results j = Some r -> auc (snd r) <= auc best) /\
    Forall2 (fun nm r =>
               fst r = fst nm /\
               @score (table_estimators [] (aucs_of 0.90 0.95 0.93))
                 one_test (snd nm) = Ok (snd r))
      three_models results.
Proof.
  destruct (@evaluate_models (table_estimators [] (aucs_of 0.90 0.95 0.93))
              three_models one_test (blank_world []))
    as [[[name results] | e] w'] eqn:E; [| vm_compute in E; discriminate].
  destruct (@best_model_is_first_maximum
              (table_estimators [] (aucs_of 0.90 0.95 0.93))
              three_models one_test (blank_world []) w' name results)
    as (_ & F & m & best & i & Hm & Hr & _ & Hle & _).
  - repeat constructor; simpl; intuition discriminate.
  - exact E.
  - assert (N : name = "random_forest")
      by (vm_compute in E; now injection E as <- _ _).
    subst name. clear E.
    exists results, w', best. split; [reflexivity |].
    destruct i as [|[|[|i]]]; simpl in Hm; try discriminate.
    + split; [exact Hr |]. split; [exact Hle | exact F].
    + destruct i; discriminate.
Defined.

Lemma model_info_record_witness :
  exists info,
    recorded_info
      (snd (@evaluate_models (table_estimators [] (aucs_of 0.90 0.95 0.93))
              three_models one_test (blank_world [])))
    = Some info /\
    feature_count info = 2%nat /\
    has_shape TIMESTAMP_SHAPE (training_date info) = true.
Proof.
  destruct (@evaluate_models (table_estimators [] (aucs_of 0.90 0.95 0.93))
              three_models one_test (blank_world [])) as [[[name results] | e] w']
    eqn:E; [| vm_compute in E; discriminate].
  destruct (@model_info_record (table_estimators [] (aucs_of 0.90 0.95 0.93))
              three_models one_test (blank_world []) w' name results)
    as (info & m & best & Fi & _ & _ & _ & _ & _ & _ & Sh & Fc & _).
  - repeat constructor; simpl; intuition discriminate.
  - unfold valid_datetime. simpl. lia.
  - exact E.
  - exists info. unfold recorded_info. simpl snd. rewrite Fi. auto.
Defined.

(** C8, as the specification has it, fails: the timestamp written on
    3 November 2026 at 10:30:00 is ["2026-11-03 10:30:00"], which is not a
    date and time of ISO 8601: a space stands where ISO 8601 has the
    letter T. *)
Lemma training_date_is_not_ISO_8601 :
  option_map training_date
    (recorded_info
       (snd (@evaluate_models (table_estimators [] (aucs_of 0.90 0.95 0.93))
               three_models one_test (blank_world []))))
  = Some "2026-11-03 10:30:00" /\
  has_shape ISO_8601_SHAPE "2026-11-03 10:30:00" = false.
Proof. split; vm_compute; reflexivity. Qed.

End SelectionExamples.

(* ===================================================================== *)
(** * Classes of a labelled set *)
(* ===================================================================== *)

Section Classes.

Lemma cell_eqb_iff (a b : cell) :
  cell_eqb a b = true <-> to_real a = to_real b.
Proof.
  destruct a as [u | r], b as [v | s]; simpl;
    try (destruct (Req_dec_T _ _); split; congruence).
  rewrite Z.eqb_eq. split; [congruence | apply eq_IZR].
Qed.

Lemma cell_leb_iff (a b : cell) :
  cell_leb a b = true <-> (to_real a <= to_real b)%R.
Proof.
  destruct a as [u | r], b as [v | s]; simpl;
    try (destruct (Rle_dec _ _); split; congruence).
  rewrite Z.leb_le. split; [apply IZR_le | apply le_IZR].
Qed.

Lemma cell_eqb_refl (a : cell) : cell_eqb a a = true.
Proof. now apply cell_eqb_iff. Qed.

Lemma cell_eqb_sym (a b : cell) : cell_eqb a b = cell_eqb b a.
Proof.
  destruct (cell_eqb a b) eqn:E, (cell_eqb b a) eqn:F; auto;
    [apply cell_eqb_iff in E | apply cell_eqb_iff in F];
    [symmetry in E; apply cell_eqb_iff in E | symmetry in F; apply cell_eqb_iff in F];
    congruence.
Qed.

Lemma cell_eqb_trans (a b c : cell) :
  cell_eqb a b = true -> cell_eqb b c = true -> cell_eqb a c = true.
Proof. rewrite !cell_eqb_iff. congruence. Qed.

(** Equal cells select the same rows. *)
Lemma cell_eqb_right (a b c : cell) :
  cell_eqb b c = true -> cell_eqb a b = cell_eqb a c.
Proof.
  intros H. destruct (cell_eqb a b) eqn:E, (cell_eqb a c) eqn:F; auto.
  - rewrite (cell_eqb_trans a b c E H) in F. discriminate.
  - rewrite cell_eqb_sym in H. rewrite (cell_eqb_trans a c b F H) in E.
    discriminate.
Qed.

(** Classes in strictly increasing order. *)
Let increasing : list cell -> Prop :=
  StronglySorted (fun a b => (to_real a < to_real b)%R).

Lemma insert_unique_In (c d : cell) (l : list cell) :
  In d (insert_unique c l) -> d = c \/ In d l.
Proof.
  induction l as [|e l IH]; simpl.
  - intros [<- | []]. auto.
  - destruct (cell_eqb c e); [auto |].
    destruct (cell_leb c e); simpl.
    + intros [<- | H]; auto.
    + intros [<- | H]; auto. destruct (IH H); auto.
Qed.

Lemma insert_unique_increasing (c : cell) (l : list cell) :
  increasing l -> increasing (insert_unique c l).
Proof.
  unfold increasing. induction l as [|e l IH]; simpl; intros S.
  - repeat constructor.
  - destruct (cell_eqb c e) eqn:E; [assumption |].
    inversion S as [|? ? S' F]; subst.
    destruct (cell_leb c e) eqn:L.
    + apply cell_leb_iff in L.
      assert (to_real c <> to_real e).
      { intros H. apply cell_eqb_iff in H. congruence. }
      constructor; [assumption |]. constructor; [lra |].
      eapply Forall_impl; [| exact F]. simpl. intros. lra.
    + assert (to_real e < to_real c)%R.
      { apply Rnot_le_lt. intros H. apply cell_leb_iff in H. congruence. }
      constructor; [auto |].
      apply Forall_forall. intros d Hd.
      apply insert_unique_In in Hd. destruct Hd as [-> | Hd]; [assumption |].
      rewrite Forall_forall in F. auto.
Qed.

Lemma insert_unique_covers (c : cell) (l : list cell) :
  (exists d, In d (insert_unique c l) /\ cell_eqb c d = true) /\
  (forall d, In d l -> In d (insert_unique c l)).
Proof.
  induction l as [|e l [[d [Hd Ed]] IH]]; simpl.
  - split; [exists c; split; [now left | apply cell_eqb_refl] | tauto].
  - destruct (cell_eqb c e) eqn:E.
    + split; [exists e; simpl; auto | auto].
    + destruct (cell_leb c e).
      * split; [exists c; split; [now left | apply cell_eqb_refl] |].
        intros x Hx. now right.
      * split; [exists d; simpl; auto |].
        intros x [<- | Hx]; simpl; auto.
Qed.

Lemma np_unique_increasing (l : list cell) : increasing (np_unique l).
Proof.
  induction l; simpl; [constructor | now apply insert_unique_increasing].
Qed.

Lemma np_unique_covers (l : list cell) (c : cell) :
  In c l -> exists d, In d (np_unique l) /\ cell_eqb c d = true.
Proof.
  induction l as [|e l IH]; simpl; [tauto |].
  intros [<- | H].
  - apply insert_unique_covers.
  - destruct (IH H) as [d [Hd Ed]]. exists d. split; auto.
    now apply insert_unique_covers.
Qed.

Lemma np_unique_In (l : list cell) (c : cell) :
  In c (np_unique l) -> In c l.
Proof.
  induction l as [|e l IH]; simpl; [tauto |].
  intros H. apply insert_unique_In in H. destruct H; auto.
Qed.

Lemma np_unique_distinct (l : list cell) : distinct_classes (np_unique l).
Proof.
  unfold distinct_classes.
  pose proof (np_unique_increasing l) as S. unfold increasing in S.
  induction S as [|a cs S IH F]; constructor; auto.
  eapply Forall_impl; [| exact F]. simpl. intros b H.
  destruct (cell_eqb a b) eqn:E; auto.
  apply cell_eqb_iff in E. lra.
Qed.

End Classes.

(* ===================================================================== *)
(** * Positions, rows and shuffles *)
(* ===================================================================== *)

Section Positions.

Lemma map_filter_positions {A} (p : A -> bool) (def : A) (d : list A) (start : nat) :
  map (fun i => nth (i - start) d def)
    (filter (fun i => p (nth (i - start) d def)) (seq start (List.length d)))
  = filter p d.
Proof.
  revert start. induction d as [|a d IH]; intros start; [reflexivity |].
  assert (E : forall i, In i (seq (S start) (List.length d)) ->
                        nth (i - start) (a :: d) def = nth (i - S start) d def).
  { intros i Hi. apply in_seq in Hi.
    replace (i - start) with (S (i - S start)) by lia. reflexivity. }
  assert (F : filter (fun i => p (nth (i - start) (a :: d) def))
                (seq (S start) (List.length d))
              = filter (fun i => p (nth (i - S start) d def))
                  (seq (S start) (List.length d))).
  { apply filter_ext_in. intros i Hi. now rewrite E. }
  assert (G : map (fun i => nth (i - start) (a :: d) def)
                (filter (fun i => p (nth (i - S start) d def))
                   (seq (S start) (List.length d)))
              = filter p d).
  { rewrite <- (IH (S start)). apply map_ext_in. intros i Hi.
    apply filter_In in Hi. now apply E. }
  change (seq start (List.length (a :: d)))
    with (start :: seq (S start) (List.length d)).
  cbn [filter]. rewrite F, Nat.sub_diag.
  change (nth 0 (a :: d) def) with a.
  destruct (p a); cbn [map]; rewrite G, ?Nat.sub_diag; reflexivity.
Qed.

Lemma map_nth_positions {A} (def : A) (d : list A) :
  map (fun i => nth i d def) (seq 0 (List.length d)) = d.
Proof.
  pose proof (map_filter_positions (fun _ => true) def d 0) as H.
  assert (F : forall (B : Type) (l : list B), filter (fun _ => true) l = l).
  { intros B l. induction l; simpl; congruence. }
  rewrite !F in H. rewrite <- H at 2.
  apply map_ext. intros i. now rewrite Nat.sub_0_r.
Qed.

Lemma take_flatnonzero (c : cell) (d : list sample) :
  take d (flatnonzero c d) = filter (fun s => cell_eqb (y s) c) d.
Proof.
  unfold take, flatnonzero.
  rewrite <- (map_filter_positions (fun s => cell_eqb (y s) c) default_sample d 0).
  assert (F : filter (fun i => cell_eqb (y (nth i d default_sample)) c)
                (seq 0 (List.length d))
              = filter (fun i => cell_eqb (y (nth (i - 0) d default_sample)) c)
                  (seq 0 (List.length d))).
  { apply filter_ext. intros i. now rewrite Nat.sub_0_r. }
  rewrite F. apply map_ext. intros i. now rewrite Nat.sub_0_r.
Qed.

Lemma count_class_filter (c : cell) (d : list sample) :
  count_class c d = List.length (filter (fun s => cell_eqb (y s) c) d).
Proof.
  unfold count_class. rewrite <- take_flatnonzero. unfold take.
  now rewrite length_map.
Qed.

Lemma count_class_app (c : cell) (d1 d2 : list sample) :
  count_class c (d1 ++ d2) = count_class c d1 + count_class c d2.
Proof. now rewrite !count_class_filter, filter_app, length_app. Qed.

Lemma flatnonzero_In (c : cell) (d : list sample) (i : nat) :
  In i (flatnonzero c d) <->
  i < List.length d /\ cell_eqb (y (nth i d default_sample)) c = true.
Proof.
  unfold flatnonzero. rewrite filter_In, in_seq. intuition lia.
Qed.

Lemma flatnonzero_NoDup (c : cell) (d : list sample) : NoDup (flatnonzero c d).
Proof. apply NoDup_filter, seq_NoDup. Qed.

Lemma flatnonzero_ext (c c' : cell) (d : list sample) :
  cell_eqb c c' = true -> flatnonzero c d = flatnonzero c' d.
Proof.
  intros E. apply filter_ext. intros i. now apply cell_eqb_right.
Qed.

Lemma filter_disjoint_perm {A} (p q : A -> bool) (l : list A) :
  (forall a, In a l -> p a = true -> q a = false) ->
  Permutation (filter p l ++ filter q l) (filter (fun a => p a || q a) l).
Proof.
  induction l as [|a l IH]; intros H; simpl; auto.
  assert (IH' : Permutation (filter p l ++ filter q l)
                  (filter (fun a => p a || q a) l)).
  { apply IH. intros b Hb. apply H. now right. }
  destruct (p a) eqn:P; simpl.
  - rewrite (H a (or_introl eq_refl) P). now constructor.
  - destruct (q a); simpl; auto.
    rewrite <- IH'. symmetry. apply Permutation_middle.
Qed.

(** The positions of the classes, class after class, are all the positions,
    each once. *)
Lemma classes_partition (d : list sample) (cs : list cell) :
  distinct_classes cs ->
  Permutation (List.concat (map (fun c => flatnonzero c d) cs))
    (filter (fun i => existsb (cell_eqb (y (nth i d default_sample))) cs)
       (seq 0 (List.length d))).
Proof.
  unfold distinct_classes.
  induction 1 as [|c cs F _ IH]; simpl.
  - induction (seq 0 (List.length d)); simpl; auto.
  - rewrite IH. unfold flatnonzero. apply filter_disjoint_perm.
    intros i _ E. apply not_true_is_false. intros X.
    apply existsb_exists in X. destruct X as [c' [Hc' E']].
    rewrite Forall_forall in F. specialize (F c' Hc').
    assert (cell_eqb c c' = true).
    { apply cell_eqb_trans with (y (nth i d default_sample)); auto.
      now rewrite cell_eqb_sym. }
    congruence.
Qed.

Lemma classes_of_partition (d : list sample) :
  Permutation (List.concat (map (fun c => flatnonzero c d) (classes_of d)))
    (seq 0 (List.length d)).
Proof.
  rewrite classes_partition by apply np_unique_distinct.
  assert (F : forall (l : list nat) (f : nat -> bool),
             (forall i, In i l -> f i = true) -> filter f l = l).
  { intros l f. induction l as [|a l IH]; simpl; intros H; auto.
    rewrite H by now left. f_equal. apply IH. intros i Hi. apply H. now right. }
  rewrite F; auto.
  intros i Hi. apply in_seq in Hi. apply existsb_exists.
  destruct (np_unique_covers (map y d) (y (nth i d default_sample)))
    as [c [Hc E]].
  - apply in_map, nth_In. lia.
  - exists c. auto.
Qed.

Context {RS : RandomState}.

Lemma shuffled_perm (g : rng) (a : list nat) :
  Permutation (fst (shuffled g a)) a.
Proof.
  unfold shuffled.
  pose proof (permutation_spec g (List.length a)) as P.
  destruct (permutation g (List.length a)) as [p g']. simpl in *.
  apply Permutation_trans
    with (map (fun j => nth j a 0) (seq 0 (List.length a))).
  - now apply Permutation_map.
  - now rewrite map_nth_positions.
Qed.

Lemma choice_firstn (g : rng) (a : list nat) (k : nat) :
  fst (choice g a k) = firstn k (fst (shuffled g a)).
Proof. unfold choice. now destruct (shuffled g a). Qed.

Lemma firstn_skipn_prefix {A} (n t : nat) (l : list A) :
  firstn n l ++ firstn t (skipn n l) = firstn (n + t) l.
Proof.
  revert l. induction n as [|n IH]; intros [|a l]; simpl; auto.
  - now rewrite firstn_nil.
  - now rewrite IH.
Qed.

End Positions.

(* ===================================================================== *)
(** * sklearn: the share of each class *)
(* ===================================================================== *)

Section ApproximateMode.
Import sklearn.
Context {RS : RandomState}.

Lemma sum_list_app (l1 l2 : list nat) :
  sum_list (l1 ++ l2) = sum_list l1 + sum_list l2.
Proof. induction l1; simpl; lia. Qed.

Lemma sum_list_map_add {A} (F G : A -> nat) (l : list A) :
  sum_list (map (fun i => F i + G i) l)
  = sum_list (map F l) + sum_list (map G l).
Proof. induction l; simpl; lia. Qed.

Lemma sum_list_indicator {A} (b : A -> bool) (l : list A) :
  sum_list (map (fun i => if b i then 1 else 0) l) = List.length (filter b l).
Proof. induction l as [|a l IH]; simpl; auto. destruct (b a); simpl; lia. Qed.

Lemma existsb_eqb_In (i : nat) (l : list nat) :
  existsb (Nat.eqb i) l = true <-> In i l.
Proof.
  rewrite existsb_exists. split.
  - intros [j [Hj E]]. apply Nat.eqb_eq in E. now subst.
  - intros H. exists i. split; auto. apply Nat.eqb_refl.
Qed.

Lemma incr_at_length (inds fl : list nat) :
  List.length (incr_at inds fl) = List.length fl.
Proof. unfold incr_at. now rewrite length_map, length_seq. Qed.

Lemma incr_at_nth (inds fl : list nat) (i : nat) :
  i < List.length fl ->
  nth i (incr_at inds fl) 0
  = nth i fl 0 + (if existsb (Nat.eqb i) inds then 1 else 0).
Proof.
  intros H. unfold incr_at.
  set (f := fun i => nth i fl 0 + (if existsb (Nat.eqb i) inds then 1 else 0)).
  rewrite (nth_indep _ 0 (f 0)) by (now rewrite length_map, length_seq).
  rewrite map_nth, seq_nth by assumption. reflexivity.
Qed.

Lemma sum_incr_at (inds fl : list nat) :
  NoDup inds -> (forall i, In i inds -> i < List.length fl) ->
  sum_list (incr_at inds fl) = sum_list fl + List.length inds.
Proof.
  intros ND R. unfold incr_at.
  rewrite sum_list_map_add, map_nth_positions, sum_list_indicator.
  f_equal. apply Permutation_length, NoDup_Permutation; auto.
  - apply NoDup_filter, seq_NoDup.
  - intros i. rewrite filter_In, in_seq, existsb_eqb_In.
    split; [tauto |]. intros H. specialize (R i H). split; [lia | assumption].
Qed.

Lemma NoDup_firstn {A} (k : nat) (l : list A) : NoDup l -> NoDup (firstn k l).
Proof.
  intros H. rewrite <- (firstn_skipn k l) in H.
  now apply NoDup_app_remove_r in H.
Qed.

Lemma In_firstn {A} (k : nat) (l : list A) (a : A) :
  In a (firstn k l) -> In a l.
Proof.
  intros H. rewrite <- (firstn_skipn k l). apply in_or_app. now left.
Qed.

(** A choice without replacement: distinct elements of the array, as many
    as asked when the array has that many. *)
Lemma choice_spec (g : rng) (a : list nat) (k : nat) :
  NoDup a ->
  NoDup (fst (choice g a k)) /\
  (forall i, In i (fst (choice g a k)) -> In i a) /\
  List.length (fst (choice g a k)) = Nat.min k (List.length a).
Proof.
  intros ND. rewrite choice_firstn.
  pose proof (shuffled_perm g a) as P.
  repeat split.
  - apply NoDup_firstn. eapply Permutation_NoDup; [symmetry |]; eauto.
  - intros i Hi. apply In_firstn in Hi. eapply Permutation_in; eauto.
  - rewrite length_firstn. now rewrite (Permutation_length P).
Qed.

Lemma where_eq_In (rems : list nat) (v i : nat) :
  In i (where_eq rems v) <-> i < List.length rems /\ nth i rems 0 = v.
Proof.
  unfold where_eq. rewrite filter_In, in_seq, Nat.eqb_eq. intuition lia.
Qed.

Lemma where_eq_NoDup (rems : list nat) (v : nat) : NoDup (where_eq rems v).
Proof. apply NoDup_filter, seq_NoDup. Qed.

(** How many positions the remainders [vs] offer. *)
Let offered (rems vs : list nat) : nat :=
  sum_list (map (fun v => List.length (where_eq rems v)) vs).

Lemma distribute_length (vs rems fl : list nat) (need : nat) (g : rng) :
  List.length (fst (distribute vs rems fl need g)) = List.length fl.
Proof.
  revert fl need g. induction vs as [|v vs IH]; intros fl need g; simpl; auto.
  destruct (choice g (where_eq rems v) _) as [chosen g'].
  destruct (Nat.eqb _ 0); simpl.
  - apply incr_at_length.
  - rewrite IH. apply incr_at_length.
Qed.

Lemma distribute_sum (vs rems fl : list nat) (need : nat) (g : rng) :
  List.length fl = List.length rems ->
  sum_list (fst (distribute vs rems fl need g))
  = sum_list fl + Nat.min need (offered rems vs).
Proof.
  unfold offered.
  revert fl need g. induction vs as [|v vs IH]; intros fl need g L; simpl.
  - lia.
  - pose proof (choice_spec g (where_eq rems v)
                  (Nat.min (List.length (where_eq rems v)) need)
                  (where_eq_NoDup rems v)) as [ND [Sub Len]].
    destruct (choice g (where_eq rems v) _) as [chosen g']. simpl in *.
    assert (S : sum_list (incr_at chosen fl) = sum_list fl + List.length chosen).
    { apply sum_incr_at; auto. intros i Hi. apply Sub, where_eq_In in Hi. lia. }
    destruct (Nat.eqb_spec (need - Nat.min (List.length (where_eq rems v)) need) 0)
      as [Z | NZ]; simpl.
    + rewrite S. lia.
    + rewrite IH by (now rewrite incr_at_length). rewrite S. lia.
Qed.

Lemma distribute_bound (vs rems fl : list nat) (need : nat) (g : rng) (i : nat) :
  NoDup vs -> List.length fl = List.length rems -> i < List.length fl ->
  nth i fl 0 <= nth i (fst (distribute vs rems fl need g)) 0 /\
  nth i (fst (distribute vs rems fl need g)) 0
  <= nth i fl 0 + (if existsb (Nat.eqb (nth i rems 0)) vs then 1 else 0).
Proof.
  revert fl need g. induction vs as [|v vs IH]; intros fl need g ND L Hi; simpl.
  - lia.
  - inversion ND as [|? ? Nv ND']; subst.
    pose proof (choice_spec g (where_eq rems v)
                  (Nat.min (List.length (where_eq rems v)) need)
                  (where_eq_NoDup rems v)) as [_ [Sub _]].
    destruct (choice g (where_eq rems v) _) as [chosen g']. simpl in *.
    pose proof (incr_at_nth chosen fl i Hi) as N.
    assert (C : existsb (Nat.eqb i) chosen = true ->
                nth i rems 0 = v /\ existsb (Nat.eqb (nth i rems 0)) vs = false).
    { intros E. apply existsb_eqb_In, Sub, where_eq_In in E.
      destruct E as [_ E]. split; auto.
      apply not_true_is_false. intros X. apply existsb_eqb_In in X. congruence. }
    destruct (Nat.eqb _ 0); simpl.
    + rewrite N. destruct (existsb (Nat.eqb i) chosen).
      * destruct (C eq_refl) as [-> _]. rewrite Nat.eqb_refl. simpl. lia.
      * destruct (_ || _); lia.
    + destruct (IH (incr_at chosen fl)
                  (need - Nat.min (List.length (where_eq rems v)) need) g' ND')
        as [Lo Hi']; try (rewrite incr_at_length; assumption).
      rewrite N in Lo, Hi'. destruct (existsb (Nat.eqb i) chosen).
      * destruct (C eq_refl) as [Ev Ef]. rewrite Ef in Hi'.
        rewrite Ev, Nat.eqb_refl. simpl. lia.
      * destruct (existsb (Nat.eqb (nth i rems 0)) vs);
          destruct (Nat.eqb (nth i rems 0) v); simpl; lia.
Qed.

End ApproximateMode.

Section ApproximateModeSpec.
Import sklearn.
Context {RS : RandomState}.

Lemma insert_desc_In (v w : nat) (l : list nat) :
  In w (insert_desc v l) <-> w = v \/ In w l.
Proof.
  induction l as [|u l IH]; simpl.
  - intuition.
  - destruct (Nat.eqb_spec v u) as [-> | D]; simpl; [intuition |].
    destruct (Nat.ltb u v); simpl; [intuition |].
    rewrite IH. intuition.
Qed.

Lemma insert_desc_sorted (v : nat) (l : list nat) :
  StronglySorted gt l -> StronglySorted gt (insert_desc v l).
Proof.
  induction l as [|u l IH]; simpl; intros S.
  - repeat constructor.
  - destruct (Nat.eqb_spec v u) as [-> | D]; [assumption |].
    inversion S as [|? ? S' F]; subst.
    destruct (Nat.ltb_spec u v) as [L | L].
    + constructor; [assumption |]. constructor; [lia |].
      eapply Forall_impl; [| exact F]. simpl. intros. lia.
    + constructor; [auto |].
      apply Forall_forall. intros w Hw. apply insert_desc_In in Hw.
      destruct Hw as [-> | Hw]; [lia |].
      rewrite Forall_forall in F. auto.
Qed.

Lemma sorted_unique_desc_NoDup (l : list nat) : NoDup (sorted_unique_desc l).
Proof.
  assert (S : StronglySorted gt (sorted_unique_desc l)).
  { induction l; simpl; [constructor | now apply insert_desc_sorted]. }
  induction S as [|a vs S IH F]; constructor; auto.
  intros H. rewrite Forall_forall in F. specialize (F a H). lia.
Qed.

Lemma sorted_unique_desc_In (l : list nat) (v : nat) :
  In v (sorted_unique_desc l) <-> In v l.
Proof.
  induction l as [|a l IH]; simpl; [tauto |].
  rewrite insert_desc_In, IH. intuition.
Qed.

(** The positions of the distinct remainders are all the positions. *)
Lemma where_eq_partition (rems vs : list nat) :
  NoDup vs ->
  Permutation (List.concat (map (where_eq rems) vs))
    (filter (fun i => existsb (Nat.eqb (nth i rems 0)) vs)
       (seq 0 (List.length rems))).
Proof.
  induction 1 as [|v vs Nv ND IH]; simpl.
  - induction (seq 0 (List.length rems)); simpl; auto.
  - rewrite IH. unfold where_eq. apply filter_disjoint_perm.
    intros i _ E. apply Nat.eqb_eq in E. apply not_true_is_false.
    intros X. apply existsb_eqb_In in X. congruence.
Qed.

Lemma offered_all (rems : list nat) :
  sum_list (map (fun v => List.length (where_eq rems v)) (sorted_unique_desc rems))
  = List.length rems.
Proof.
  assert (E : forall vs,
             sum_list (map (fun v => List.length (where_eq rems v)) vs)
             = List.length (List.concat (map (where_eq rems) vs))).
  { induction vs as [|v vs IH]; simpl; auto. rewrite length_app. lia. }
  rewrite E.
  rewrite (Permutation_length
             (where_eq_partition rems _ (sorted_unique_desc_NoDup rems))).
  assert (F : forall (l : list nat) (f : nat -> bool),
             (forall i, In i l -> f i = true) -> filter f l = l).
  { intros l f. induction l as [|a l IH]; simpl; intros H; auto.
    rewrite H by now left. f_equal. apply IH. intros i Hi. apply H. now right. }
  rewrite F, length_seq; auto.
  intros i Hi. apply in_seq in Hi. apply existsb_eqb_In.
  apply sorted_unique_desc_In, nth_In. lia.
Qed.

Lemma sum_list_scaled (counts : list nat) (n : nat) :
  sum_list (map (fun c => c * n) counts) = sum_list counts * n.
Proof. induction counts; simpl; lia. Qed.

Lemma sum_list_div_mod (l : list nat) (T : nat) :
  T <> 0 ->
  sum_list l
  = T * sum_list (map (fun a => a / T) l) + sum_list (map (fun a => a mod T) l).
Proof.
  intros H. induction l as [|a l IH]; simpl; [lia |].
  pose proof (Nat.div_mod_eq a T). lia.
Qed.

Lemma sum_list_mod_bound (l : list nat) (T : nat) :
  T <> 0 ->
  sum_list (map (fun a => a mod T) l) + List.length l <= List.length l * T.
Proof.
  intros H. induction l as [|a l IH]; simpl; [lia |].
  pose proof (Nat.mod_upper_bound a T H). lia.
Qed.

(** [_approximate_mode] gives every class the floor of its proportional
    share or one more, and gives out exactly [n_draws] rows. *)
Lemma approximate_mode_spec (counts : list nat) (n_draws : nat) (g : rng) :
  0 < sum_list counts ->
  let out := fst (approximate_mode counts n_draws g) in
  List.length out = List.length counts /\
  sum_list out = n_draws /\
  forall i, i < List.length counts ->
    (nth i counts 0 * n_draws) / sum_list counts <= nth i out 0 /\
    nth i out 0 <= (nth i counts 0 * n_draws) / sum_list counts + 1.
Proof.
  intros HT. unfold approximate_mode.
  set (T := sum_list counts) in *.
  set (floored := map (fun c => c * n_draws / T) counts).
  set (rems := map (fun c => (c * n_draws) mod T) counts).
  assert (TN : T <> 0) by lia.
  assert (Lf : List.length floored = List.length counts)
    by (unfold floored; now rewrite length_map).
  assert (Lr : List.length rems = List.length counts)
    by (unfold rems; now rewrite length_map).
  assert (Nf : forall i, nth i floored 0 = nth i counts 0 * n_draws / T).
  { intros i. unfold floored.
    destruct (Nat.lt_ge_cases i (List.length counts)) as [Hi | Hi].
    - rewrite (nth_indep _ 0 ((fun c => c * n_draws / T) 0))
        by (now rewrite length_map).
      apply (map_nth (fun c => c * n_draws / T)).
    - rewrite !nth_overflow by (rewrite ?length_map; lia).
      simpl. now rewrite Nat.Div0.div_0_l. }
  assert (D : T * n_draws = T * sum_list floored + sum_list rems).
  { pose proof (sum_list_div_mod (map (fun c => c * n_draws) counts) T TN) as D.
    rewrite sum_list_scaled, !map_map in D. fold T in D.
    unfold floored, rems. lia. }
  assert (B : sum_list rems + List.length counts <= List.length counts * T).
  { pose proof (sum_list_mod_bound (map (fun c => c * n_draws) counts) T TN) as B.
    rewrite !map_map, length_map in B. exact B. }
  assert (Le : sum_list floored <= n_draws) by nia.
  destruct (Nat.ltb_spec 0 (n_draws - sum_list floored)) as [Pos | Zero]; simpl.
  - repeat split.
    + now rewrite distribute_length.
    + rewrite distribute_sum by lia. rewrite offered_all, Lr.
      assert (n_draws - sum_list floored <= List.length counts) by nia.
      lia.
    + rewrite <- Nf.
      apply (distribute_bound (sorted_unique_desc rems) rems floored
               (n_draws - sum_list floored) g i); try lia.
      apply sorted_unique_desc_NoDup.
    + rewrite <- Nf.
      destruct (distribute_bound (sorted_unique_desc rems) rems floored
                  (n_draws - sum_list floored) g i) as [_ U]; try lia.
      * apply sorted_unique_desc_NoDup.
      * destruct (existsb _ _); lia.
  - repeat split; try lia; rewrite Nf; lia.
Qed.

(** When the rows to draw are all the rows, every class gives all it has. *)
Lemma approximate_mode_exact (counts : list nat) (g : rng) :
  0 < sum_list counts ->
  approximate_mode counts (sum_list counts) g = (counts, g).
Proof.
  intros HT. unfold approximate_mode.
  assert (F : map (fun c => c * sum_list counts / sum_list counts) counts
              = counts).
  { induction counts as [|c cs IH]; simpl; auto.
    rewrite Nat.div_mul by (simpl in HT; lia). f_equal.
    transitivity (map (fun a => a) cs); [| apply map_id].
    apply map_ext. intros a. apply Nat.div_mul. simpl in HT. lia. }
  rewrite F, Nat.sub_diag. reflexivity.
Qed.

End ApproximateModeSpec.

(* ===================================================================== *)
(** * sklearn: the stratified split *)
(* ===================================================================== *)

Section StratifiedSplit.
Import sklearn.
Context {RS : RandomState}.

Lemma Permutation_filter {A} (f : A -> bool) (l l' : list A) :
  Permutation l l' -> Permutation (filter f l) (filter f l').
Proof.
  induction 1 as [| a l l' P IH | a b l | l1 l2 l3 P1 IH1 P2 IH2]; simpl; auto.
  - destruct (f a); auto.
  - destruct (f a), (f b); auto. apply perm_swap.
  - now transitivity (filter f l2).
Qed.

Lemma take_app (d : list sample) (i1 i2 : list nat) :
  take d (i1 ++ i2) = take d i1 ++ take d i2.
Proof. unfold take. apply map_app. Qed.

Lemma count_class_take_perm (c : cell) (d : list sample) (i1 i2 : list nat) :
  Permutation i1 i2 ->
  count_class c (take d i1) = count_class c (take d i2).
Proof.
  intros P. rewrite !count_class_filter.
  apply Permutation_length, Permutation_filter. unfold take.
  now apply Permutation_map.
Qed.

Lemma take_all (d : list sample) : take d (seq 0 (List.length d)) = d.
Proof. apply map_nth_positions. Qed.

Lemma cell_eqb_left (a b c : cell) :
  cell_eqb a b = true -> cell_eqb a c = cell_eqb b c.
Proof.
  intros H. rewrite (cell_eqb_sym a c), (cell_eqb_sym b c).
  now apply cell_eqb_right.
Qed.

(** Rows taken at positions of class [c'] are of class [c']. *)
Lemma count_class_take_class (c c' : cell) (d : list sample) (idx : list nat) :
  (forall i, In i idx -> In i (flatnonzero c' d)) ->
  count_class c (take d idx)
  = if cell_eqb c' c then List.length idx else 0.
Proof.
  intros H. rewrite count_class_filter. unfold take.
  induction idx as [|i idx IH]; simpl.
  - now destruct (cell_eqb c' c).
  - assert (E : cell_eqb (y (nth i d default_sample)) c' = true).
    { apply (flatnonzero_In c' d i). apply H. now left. }
    rewrite (cell_eqb_left _ _ c E).
    assert (IH' : List.length
                    (filter (fun s => cell_eqb (y s) c)
                       (map (fun i => nth i d default_sample) idx))
                  = if cell_eqb c' c then List.length idx else 0).
    { apply IH. intros j Hj. apply H. now right. }
    destruct (cell_eqb c' c); simpl; now rewrite IH'.
Qed.

Lemma strategy_get_none (cs : list cell) (ns : list nat) (c : cell) :
  Forall (fun c' => cell_eqb c c' = false) cs ->
  strategy_get (combine cs ns) c = None.
Proof.
  intros F. revert ns. induction F as [|c' cs E F IH]; intros [|n ns]; simpl; auto.
  rewrite cell_eqb_sym, E. apply IH.
Qed.

(** The share of class [c] among [ns], the shares of the classes [cs]. *)
Let share (cs : list cell) (ns : list nat) (c : cell) : nat :=
  match strategy_get (combine cs ns) c with
  | Some n => n
  | None => 0
  end.

Let remaining (counts ns : list nat) : list nat :=
  map (fun cn => fst cn - snd cn) (combine counts ns).

(** The loop over the classes: train and test together hold every position
    of every class once; train holds [n_i] positions of class [i]. *)
Lemma split_classes_spec (d : list sample) (classes : list cell)
  (n_i : list nat) (g : rng) :
  distinct_classes classes ->
  Forall2 (fun c n => n <= List.length (flatnonzero c d)) classes n_i ->
  let cis := map (fun c => flatnonzero c d) classes in
  let r := split_classes cis n_i
             (remaining (map (@List.length nat) cis) n_i) g in
  Permutation (fst (fst r) ++ snd (fst r)) (List.concat cis) /\
  List.length (fst (fst r)) = sum_list n_i /\
  forall c, count_class c (take d (fst (fst r))) = share classes n_i c.
Proof.
  unfold share, remaining. intros DC F. revert g.
  induction F as [|c n cs ns Hn F IH]; intros g; simpl.
  - repeat split; auto.
  - inversion DC as [|? ? Fc DC']; subst.
    pose proof (shuffled_perm g (flatnonzero c d)) as P.
    destruct (shuffled g (flatnonzero c d)) as [p g1]. simpl in P.
    specialize (IH DC' g1). simpl in IH.
    destruct (split_classes _ ns _ g1) as [[train test] g2]. simpl in *.
    destruct IH as [IP [IL IC]].
    assert (Lp : List.length p = List.length (flatnonzero c d))
      by (now apply Permutation_length).
    repeat split.
    + rewrite <- app_assoc.
      apply Permutation_trans
        with (firstn n p ++ firstn (List.length (flatnonzero c d) - n) (skipn n p)
              ++ train ++ test).
      * apply Permutation_app_head.
        rewrite !app_assoc. apply Permutation_app_tail, Permutation_app_comm.
      * rewrite app_assoc, firstn_skipn_prefix.
        replace (n + (List.length (flatnonzero c d) - n)) with (List.length p)
          by lia.
        rewrite firstn_all. now apply Permutation_app.
    + rewrite length_app, length_firstn, IL. lia.
    + intros c0. rewrite take_app, count_class_app, IC.
      rewrite (count_class_take_class c0 c).
      2:{ intros i Hi. apply In_firstn in Hi. eapply Permutation_in; eauto. }
      rewrite length_firstn.
      destruct (cell_eqb c c0) eqn:E.
      * rewrite strategy_get_none; [lia |].
        eapply Forall_impl; [| exact Fc]. simpl. intros c' X.
        rewrite <- (cell_eqb_left c c0 c' E). exact X.
      * reflexivity.
Qed.

Lemma sum_remaining (counts ns : list nat) :
  Forall2 (fun c n => n <= c) counts ns ->
  sum_list (remaining counts ns) + sum_list ns = sum_list counts.
Proof.
  unfold remaining. induction 1 as [|c n cs ns H F IH]; simpl; lia.
Qed.

Lemma Forall2_pointwise {A B} (P : A -> B -> Prop) (da : A) (db : B)
  (l1 : list A) (l2 : list B) :
  List.length l1 = List.length l2 ->
  (forall i, i < List.length l1 -> P (nth i l1 da) (nth i l2 db)) ->
  Forall2 P l1 l2.
Proof.
  revert l2. induction l1 as [|a l1 IH]; intros [|b l2] L H;
    simpl in L; try discriminate; constructor.
  - apply (H 0). simpl. lia.
  - apply IH; [lia |]. intros i Hi. apply (H (S i)). simpl. lia.
Qed.

Lemma share_Some (cs : list cell) (ns : list nat) (c : cell) (v : nat) :
  strategy_get (combine cs ns) c = Some v ->
  exists k, k < List.length cs /\ k < List.length ns /\
            cell_eqb (nth k cs (Int 0)) c = true /\ nth k ns 0 = v.
Proof.
  revert ns. induction cs as [|c' cs IH]; intros [|n ns]; simpl;
    try discriminate.
  destruct (cell_eqb c' c) eqn:E.
  - intros X. injection X as <-. exists 0. repeat split; auto; lia.
  - intros X. destruct (IH ns X) as [k [H1 [H2 [H3 H4]]]].
    exists (S k). repeat split; auto; lia.
Qed.

Lemma share_None (cs : list cell) (ns : list nat) (c : cell) :
  List.length cs = List.length ns ->
  strategy_get (combine cs ns) c = None ->
  Forall (fun c' => cell_eqb c' c = false) cs.
Proof.
  revert ns. induction cs as [|c' cs IH]; intros [|n ns] L; simpl in *;
    try discriminate; [constructor |].
  destruct (cell_eqb c' c) eqn:E; [discriminate |].
  intros X. constructor; auto. apply (IH ns); auto.
Qed.

(** A class that is not among the classes of the rows has no row. *)
Lemma count_class_absent (c : cell) (d : list sample) :
  Forall (fun c' => cell_eqb c' c = false) (classes_of d) ->
  count_class c d = 0.
Proof.
  intros F. unfold count_class.
  destruct (flatnonzero c d) as [|i l] eqn:E; auto.
  assert (Hi : In i (flatnonzero c d)) by (rewrite E; now left).
  apply flatnonzero_In in Hi. destruct Hi as [Li Ei].
  destruct (np_unique_covers (map y d) (y (nth i d default_sample)))
    as [c' [Hc' Ec']].
  { apply in_map, nth_In, Li. }
  rewrite Forall_forall in F. specialize (F c' Hc').
  rewrite cell_eqb_sym in Ec'.
  rewrite (cell_eqb_trans c' _ c Ec' Ei) in F. discriminate.
Qed.

Lemma class_counts_sum (d : list sample) :
  sum_list (map (@List.length nat)
              (map (fun c => flatnonzero c d) (classes_of d)))
  = List.length d.
Proof.
  transitivity
    (List.length
       (List.concat (map (fun c => flatnonzero c d) (classes_of d)))).
  - induction (map (fun c => flatnonzero c d) (classes_of d)) as [|l ls IH];
      simpl; auto.
    rewrite length_app. lia.
  - rewrite (Permutation_length (classes_of_partition d)). apply length_seq.
Qed.

(** What [train_test_split] returns when it returns: the positions of the
    rows, each once, [ceil(test_size * n)] of them in test; and in train,
    of every class, the floor of its proportional share or one more. *)
Lemma stratified_split_spec (test_size : Q) (random_state : nat)
  (d : list sample) (train test : list nat) :
  stratified_split test_size random_state d = Ok (train, test) ->
  let n := List.length d in
  let n_test := n_test_of test_size n in
  let n_train := n - n_test in
  0 < n_test /\ n_test < n /\
  Permutation (train ++ test) (seq 0 n) /\
  List.length train = n_train /\
  List.length test = n_test /\
  forall c,
    count_class c d * n_train / n <= count_class c (take d train) /\
    count_class c (take d train) <= count_class c d * n_train / n + 1.
Proof.
  intros E n n_test n_train. unfold stratified_split in E.
  fold n in E. fold n_test in E. fold n_train in E.
  set (classes := classes_of d) in *.
  set (cis := map (fun c => flatnonzero c d) classes) in *.
  set (counts := map (@List.length nat) cis) in *.
  destruct (Nat.eqb_spec n_train 0) as [| NT]; [discriminate |].
  destruct (existsb (fun c => Nat.ltb c 2) counts) eqn:Small; [discriminate |].
  destruct (Nat.ltb_spec n_train (List.length classes)); [discriminate |].
  destruct (Nat.ltb_spec n_test (List.length classes)); [discriminate |].
  assert (Sum : sum_list counts = n) by apply class_counts_sum.
  assert (Lc : List.length counts = List.length classes)
    by (unfold counts, cis; now rewrite !length_map).
  assert (Nc : forall k, k < List.length classes ->
                 nth k counts 0
                 = List.length (flatnonzero (nth k classes (Int 0)) d)).
  { intros k Hk. unfold counts, cis.
    rewrite (nth_indep _ 0 (List.length (flatnonzero (Int 0) d)))
      by (now rewrite !length_map).
    rewrite (map_nth (@List.length nat)).
    now rewrite (map_nth (fun c => flatnonzero c d)). }
  assert (Big : forall k, k < List.length classes -> 2 <= nth k counts 0).
  { intros k Hk.
    assert (I : In (nth k counts 0) counts) by (apply nth_In; lia).
    destruct (Nat.ltb_spec (nth k counts 0) 2) as [L |]; auto.
    assert (X : existsb (fun c => Nat.ltb c 2) counts = true).
    { apply existsb_exists. exists (nth k counts 0). split; auto.
      now apply Nat.ltb_lt. }
    congruence. }
  assert (Pos : 0 < n_test).
  { destruct classes as [|c0 cs] eqn:Ecl; simpl in *; [| lia].
    unfold counts, cis in Sum. simpl in Sum. lia. }
  assert (Lt : n_test < n) by lia.
  pose proof (approximate_mode_spec counts n_train (seed random_state))
    as [Ln [Sn Bn]]; [lia |].
  destruct (approximate_mode counts n_train (seed random_state)) as [n_i g1].
  simpl in Ln, Sn, Bn.
  assert (F : Forall2 (fun c m => m <= List.length (flatnonzero c d)) classes n_i).
  { apply (Forall2_pointwise _ (Int 0) 0); [lia |].
    intros k Hk. rewrite <- Nc by assumption.
    destruct (Bn k) as [_ U]; [lia |]. rewrite Sum in U.
    specialize (Big k Hk).
    assert (nth k counts 0 * n_train / n < nth k counts 0).
    { apply Nat.Div0.div_lt_upper_bound. nia. }
    lia. }
  assert (F' : Forall2 (fun c m => m <= c) counts n_i).
  { apply (Forall2_pointwise _ 0 0); [lia |].
    intros k Hk.
    destruct (Bn k) as [_ U]; [lia |]. rewrite Sum in U.
    specialize (Big k ltac:(lia)).
    assert (nth k counts 0 * n_train / n < nth k counts 0).
    { apply Nat.Div0.div_lt_upper_bound. nia. }
    lia. }
  pose proof (sum_remaining counts n_i F') as SR. unfold remaining in SR.
  assert (ST : sum_list (map (fun cn => fst cn - snd cn) (combine counts n_i))
               = n_test) by lia.
  rewrite <- ST in E at 1.
  rewrite approximate_mode_exact in E by lia.
  pose proof (split_classes_spec d classes n_i g1 (np_unique_distinct _) F)
    as [SP [SL SC]].
  unfold remaining in SP, SL, SC. fold cis in SP, SL, SC. fold counts in SP, SL, SC.
  destruct (split_classes cis n_i _ g1) as [[train0 test0] g2].
  simpl in SP, SL, SC.
  pose proof (shuffled_perm g2 train0) as P1.
  destruct (shuffled g2 train0) as [train1 g3]. simpl in P1.
  pose proof (shuffled_perm g3 test0) as P2.
  destruct (shuffled g3 test0) as [test1 g4]. simpl in P2.
  injection E as <- <-.
  assert (PA : Permutation (train1 ++ test1) (seq 0 n)).
  { rewrite P1, P2, SP. apply classes_of_partition. }
  assert (LT : List.length train1 = n_train).
  { rewrite (Permutation_length P1). lia. }
  repeat split; auto.
  - pose proof (Permutation_length PA) as L.
    rewrite length_app, length_seq in L. lia.
  - rewrite (count_class_take_perm c d train1 train0 P1), SC. unfold share.
    destruct (strategy_get (combine classes n_i) c) as [v |] eqn:G.
    + destruct (share_Some _ _ _ _ G) as [k [K1 [K2 [K3 K4]]]].
      destruct (Bn k) as [Lo _]; [lia |]. rewrite Sum in Lo.
      rewrite (Nc k K1), K4 in Lo.
      fold (count_class (nth k classes (Int 0)) d) in Lo.
      unfold count_class in Lo |- *.
      now rewrite <- (flatnonzero_ext _ _ d K3).
    + rewrite count_class_absent;
        [rewrite Nat.mul_0_l, Nat.Div0.div_0_l; lia |].
      apply (share_None classes n_i); auto. lia.
  - rewrite (count_class_take_perm c d train1 train0 P1), SC. unfold share.
    destruct (strategy_get (combine classes n_i) c) as [v |] eqn:G.
    + destruct (share_Some _ _ _ _ G) as [k [K1 [K2 [K3 K4]]]].
      destruct (Bn k) as [_ U]; [lia |]. rewrite Sum in U.
      rewrite (Nc k K1), K4 in U.
      unfold count_class.
      now rewrite <- (flatnonzero_ext _ _ d K3).
    + lia.
Qed.

End StratifiedSplit.

(* ===================================================================== *)
(** * model_training: the split manager *)
(* ===================================================================== *)

Section SplitManager.
Import sklearn.
Context {RS : RandomState} {SY : Synthesiser} {ES : Estimators}.

(** The split returns whenever no check of scikit-learn fails. *)
Lemma stratified_split_total (test_size : Q) (random_state : nat)
  (d : list sample) :
  let n := List.length d in
  let n_test := n_test_of test_size n in
  0 < n - n_test ->
  (forall c, In c (classes_of d) -> 2 <= count_class c d) ->
  List.length (classes_of d) <= n - n_test ->
  List.length (classes_of d) <= n_test ->
  exists train test, stratified_split test_size random_state d = Ok (train, test).
Proof.
  intros n n_test H0 H2 Htr Hte. unfold stratified_split.
  fold n. fold n_test.
  destruct (Nat.eqb_spec (n - n_test) 0); [lia |].
  rewrite map_map.
  assert (S : existsb (fun c => Nat.ltb c 2)
                (map (fun c => List.length (flatnonzero c d)) (classes_of d))
              = false).
  { apply not_true_is_false. intros X. apply existsb_exists in X.
    destruct X as [k [Hk Lk]]. apply in_map_iff in Hk.
    destruct Hk as [c [<- Hc]]. apply Nat.ltb_lt in Lk.
    specialize (H2 c Hc). unfold count_class in H2. lia. }
  rewrite S.
  destruct (Nat.ltb_spec (n - n_test) (List.length (classes_of d))); [lia |].
  destruct (Nat.ltb_spec n_test (List.length (classes_of d))); [lia |].
  destruct (approximate_mode _ _ _) as [n_i g1].
  destruct (approximate_mode _ n_test g1) as [t_i g2].
  destruct (split_classes _ n_i t_i g2) as [[train test] g3].
  destruct (shuffled g3 train) as [train1 g4].
  destruct (shuffled g4 test) as [test1 g5].
  eauto.
Qed.

Lemma n_test_of_fifth (n : nat) : n_test_of TEST_SIZE n = (n + 4) / 5.
Proof.
  unfold n_test_of, TEST_SIZE, Qceiling, Qfloor, Qopp, Qmult, inject_Z.
  cbn [Qnum Qden]. change (Z.pos (10 * 1)) with 10%Z.
  set (z := Z.of_nat n).
  assert (Hz : (0 <= z)%Z) by (unfold z; lia).
  assert (E : (- (- (2 * z) / 10) = (z + 4) / 5)%Z).
  { pose proof (Z.div_mod (- (2 * z)) 10 ltac:(lia)).
    pose proof (Z.mod_pos_bound (- (2 * z)) 10 ltac:(lia)).
    pose proof (Z.div_mod (z + 4) 5 ltac:(lia)).
    pose proof (Z.mod_pos_bound (z + 4) 5 ltac:(lia)).
    lia. }
  rewrite E. unfold z.
  change 4%Z with (Z.of_nat 4). change 5%Z with (Z.of_nat 5).
  now rewrite <- Nat2Z.inj_add, <- Nat2Z.inj_div, Nat2Z.id.
Qed.

Lemma to_samples_length (features : DataFrame) (target : list cell) :
  List.length (to_samples features target) = nrows features.
Proof. unfold to_samples. now rewrite length_map, length_seq. Qed.

Lemma to_samples_source (features : DataFrame) (target : list cell) (idx : list nat) :
  (forall i, In i idx -> i < nrows features) ->
  map source (take (to_samples features target) idx) = map Original idx.
Proof.
  intros H. unfold take. rewrite map_map. apply map_ext_in. intros i Hi.
  unfold to_samples.
  set (f := fun i => mkSample (Original i)
                       (row_at (map snd (cols features)) i)
                       (nth i target (Int 0))).
  rewrite (nth_indep _ default_sample (f 0))
    by (rewrite length_map, length_seq; auto).
  rewrite (map_nth f), seq_nth by auto. reflexivity.
Qed.

Lemma drop_nrows df name out : drop df name = Ok out -> nrows out = nrows df.
Proof.
  unfold drop. destruct (has_column df name); [| discriminate].
  intros E. now injection E as <-.
Qed.

Lemma drop_has df name out : drop df name = Ok out -> has_column df name = true.
Proof. unfold drop. destruct (has_column df name); [auto | discriminate]. Qed.

(** What [prepare_train_test_split] does when the split returns. *)
Lemma prepare_train_test_split_run (df features : DataFrame)
  (train test : list nat) (w : world model) :
  drop df "Class" = Ok features ->
  stratified_split TEST_SIZE RANDOM_STATE
    (to_samples features (column df "Class")) = Ok (train, test) ->
  let rows := to_samples features (column df "Class") in
  let train_set := mkDataset (columns features) (take rows train) in
  let test_set := mkDataset (columns features) (take rows test) in
  exists w',
    prepare_train_test_split df w = (Ok (train_set, test_set), w') /\
    files w' = write_file TEST_DATA_FILE (Csv (concat_xy test_set))
                 (write_file TRAIN_DATA_FILE (Csv (concat_xy train_set))
                    (files w)).
Proof.
  intros D S rows train_set test_set.
  unfold prepare_train_test_split, bind, lift, logging, to_csv, save, ret.
  simpl. rewrite D. simpl.
  rewrite (getitem_has _ _ (drop_has _ _ _ D)). simpl.
  rewrite S. simpl. eauto.
Qed.

Lemma prepare_train_test_split_inv (df : DataFrame) (w w' : world model)
  (train_set test_set : Dataset) :
  prepare_train_test_split df w = (Ok (train_set, test_set), w') ->
  exists features train test,
    drop df "Class" = Ok features /\
    stratified_split TEST_SIZE RANDOM_STATE
      (to_samples features (column df "Class")) = Ok (train, test) /\
    train_set = mkDataset (columns features)
                  (take (to_samples features (column df "Class")) train) /\
    test_set = mkDataset (columns features)
                 (take (to_samples features (column df "Class")) test) /\
    files w' = write_file TEST_DATA_FILE (Csv (concat_xy test_set))
                 (write_file TRAIN_DATA_FILE (Csv (concat_xy train_set))
                    (files w)).
Proof.
  intros E.
  destruct (drop df "Class") as [features | e] eqn:D.
  2:{ revert E. unfold prepare_train_test_split, bind, lift, logging. simpl.
      rewrite D. discriminate. }
  destruct (stratified_split TEST_SIZE RANDOM_STATE
              (to_samples features (column df "Class")))
    as [[train test] | e] eqn:S.
  2:{ revert E. unfold prepare_train_test_split, bind, lift, logging. simpl.
      rewrite D. simpl. rewrite (getitem_has _ _ (drop_has _ _ _ D)). simpl.
      rewrite S. discriminate. }
  destruct (prepare_train_test_split_run df features train test w D S)
    as [w1 [R F]].
  rewrite R in E. inversion E; subst.
  exists features, train, test. repeat split; auto.
Qed.

End SplitManager.

Section SplitManagerClaim.
Import sklearn.
Context {RS : RandomState} {SY : Synthesiser} {ES : Estimators}.

(** C5, as the code has it. For every frame with a label column in which
    every class has at least two rows, and with at least as many test rows
    and train rows as classes, [prepare_train_test_split] returns and
    writes both partitions. The partitions are disjoint by row identity
    and together are the rows of the frame; test holds
    [ceil(0.2 * n)] of the [n] rows. Every class is stratified to within
    one row: train holds the floor of the class's proportional share or
    one row more, test holds the rest. Hence the ratio of a class in a
    partition of [k] rows is within [1/k] of its ratio in the frame: within
    one percentage point as soon as the partition has 100 rows. *)
Theorem split_is_a_stratified_partition (df features : DataFrame)
  (w : world model) :
  drop df "Class" = Ok features ->
  let rows := to_samples features (column df "Class") in
  let n := nrows df in
  let n_test := (n + 4) / 5 in
  let n_train := n - n_test in
  0 < n ->
  (forall c, In c (classes_of rows) -> 2 <= count_class c rows) ->
  List.length (classes_of rows) <= n_train ->
  List.length (classes_of rows) <= n_test ->
  exists train test w',
    prepare_train_test_split df w = (Ok (train, test), w') /\
    read_file TRAIN_DATA_FILE (files w') = Some (Csv (concat_xy train)) /\
    read_file TEST_DATA_FILE (files w') = Some (Csv (concat_xy test)) /\
    Permutation (map source (samples train) ++ map source (samples test))
      (map Original (seq 0 n)) /\
    List.length (samples test) = n_test /\
    List.length (samples train) = n_train /\
    forall c,
      let cnt := count_class c rows in
      let tr := count_class c (samples train) in
      let te := count_class c (samples test) in
      tr + te = cnt /\
      cnt * n_train / n <= tr <= cnt * n_train / n + 1 /\
      tr * n <= cnt * n_train + n /\ cnt * n_train <= tr * n + n /\
      te * n <= cnt * n_test + n /\ cnt * n_test <= te * n + n /\
      (100 <= n_test ->
       100 * (te * n) <= 100 * (cnt * n_test) + n * n_test /\
       100 * (cnt * n_test) <= 100 * (te * n) + n * n_test).
Proof.
  intros D rows n n_test n_train Hn H2 Htr Hte.
  assert (Ln : List.length rows = n).
  { unfold rows. rewrite to_samples_length. now apply drop_nrows in D. }
  assert (Nt : n_test_of TEST_SIZE (List.length rows) = n_test).
  { rewrite Ln. apply n_test_of_fifth. }
  assert (Cl : 1 <= List.length (classes_of rows)).
  { destruct rows as [|s rows'] eqn:R; simpl in Ln; [lia |].
    destruct (np_unique_covers (map y (s :: rows')) (y s)) as [c [Hc _]];
      [now left |].
    unfold classes_of. destruct (np_unique (map y (s :: rows')));
      [destruct Hc | simpl; lia]. }
  pose proof (stratified_split_total TEST_SIZE RANDOM_STATE rows) as T.
  cbv zeta in T. rewrite Nt, Ln in T. fold n_train in T.
  destruct T as [train [test S]]; auto; [unfold n_train in *; lia |].
  destruct (prepare_train_test_split_run df features train test w D S)
    as [w' [R F]].
  destruct (stratified_split_spec _ _ _ _ _ S) as [_ [_ [P [LT [LE B]]]]].
  rewrite Nt, Ln in *. fold n_train in LT, B. fold rows in R, F.
  assert (Rg : forall i, In i (train ++ test) -> i < nrows features).
  { intros i Hi. apply (Permutation_in _ P), in_seq in Hi.
    apply drop_nrows in D. unfold n in Hi. lia. }
  eexists. eexists. exists w'. split; [exact R |]. simpl samples.
  split; [rewrite F, read_write_other by discriminate; apply read_write_same |].
  split; [rewrite F; apply read_write_same |].
  split.
  { unfold rows. rewrite <- map_app, <- take_app, to_samples_source by exact Rg.
    now apply Permutation_map. }
  split; [unfold take; now rewrite length_map |].
  split; [unfold take; now rewrite length_map |].
  intros c cnt tr te.
  assert (T : tr + te = cnt).
  { unfold tr, te, cnt. rewrite <- count_class_app, <- take_app.
    rewrite (count_class_take_perm c rows _ _ P), <- Ln. now rewrite take_all. }
  destruct (B c) as [Lo Up]. fold cnt tr in Lo, Up.
  pose proof (Nat.div_mod_eq (cnt * n_train) n) as DM.
  pose proof (Nat.mod_upper_bound (cnt * n_train) n ltac:(lia)) as MB.
  assert (NN : n_train + n_test = n).
  { unfold n_train. assert (n_test <= n); [| lia].
    unfold n_test. apply Nat.Div0.div_le_upper_bound. lia. }
  repeat split; auto; try nia.
Qed.

End SplitManagerClaim.

Section SplitExamples.
Import fixtures.

Lemma split_is_a_stratified_partition_witness :
  exists train test w',
    @prepare_train_test_split identity_rng no_failure (prepared 40 10)
      (blank_world []) = (Ok (train, test), w') /\
    List.length (samples test) = 10 /\
    List.length (samples train) = 40 /\
    count_class (Int 1) (samples train) + count_class (Int 1) (samples test)
    = 10.
Proof.
  pose (features :=
          mkFrame 50 (filter (fun c => negb (String.eqb (fst c) "Class"))
                        (cols (prepared 40 10)))).
  destruct (@split_is_a_stratified_partition identity_rng no_failure
              (prepared 40 10) features (blank_world []))
    as (train & test & w' & R & _ & _ & _ & Lte & Ltr & B).
  - reflexivity.
  - vm_compute. lia.
  - intros c Hc. vm_compute in Hc.
    destruct Hc as [<- | [<- | []]]; vm_compute; lia.
  - vm_compute. lia.
  - vm_compute. lia.
  - exists train, test, w'. split; [exact R |].
    split; [exact Lte |]. split; [exact Ltr |].
    destruct (B (Int 1)) as [T _]. rewrite T. vm_compute. reflexivity.
Defined.

(** C5, as the specification has it, fails on small frames: of ten rows,
    two of them fraud (a ratio of 20%), the test partition gets two rows
    and no fraud (0%), twenty percentage points away; a partition of two
    rows can only hold 0%, 50% or 100% of fraud. *)
Lemma small_split_misses_the_ratio :
  option_map
    (fun tt => (List.length (samples (snd tt)),
                count_class (Int 1) (samples (snd tt)),
                count_class (Int 1) (samples (fst tt)),
                List.length (samples (fst tt))))
    (outcome (@prepare_train_test_split identity_rng no_failure (prepared 8 2)
                (blank_world [])))
  = Some (2, 0, 2, 8) /\
  (1 # 100 < Qabs ((0 # 2) - (2 # 10)))%Q /\
  (1 # 100 < Qabs ((2 # 8) - (2 # 10)))%Q.
Proof.
  split; [vm_compute; reflexivity |].
  split; vm_compute; reflexivity.
Qed.

End SplitExamples.

(* ===================================================================== *)
(** * imblearn: under-sampling and over-sampling *)
(* ===================================================================== *)

Section Resampling.
Import imblearn.
Context {RS : RandomState} {SY : Synthesiser}.

(** How many rows of class [c] an under-sampling with strategy [s] keeps. *)
Let kept (s : strategy) (d : list sample) (c : cell) : nat :=
  match strategy_get s c with
  | Some n => Nat.min n (count_class c d)
  | None => count_class c d
  end.

Lemma strategy_get_ext (s : strategy) (c c' : cell) :
  cell_eqb c c' = true -> strategy_get s c = strategy_get s c'.
Proof.
  intros E. induction s as [|[k n] s IH]; simpl; auto.
  rewrite (cell_eqb_right k c c' E). now rewrite IH.
Qed.

Lemma count_class_ext (c c' : cell) (d : list sample) :
  cell_eqb c c' = true -> count_class c d = count_class c' d.
Proof. intros E. unfold count_class. now rewrite (flatnonzero_ext c c' d E). Qed.

(** The rows one class keeps: distinct positions of the class, the number
    the strategy asks for, and all of them when it asks for all. *)
Lemma kept_positions (s : strategy) (d : list sample) (c : cell) (g : rng) :
  let p := fst (match strategy_get s c with
                | Some n => choice g (flatnonzero c d) n
                | None => (flatnonzero c d, g)
                end) in
  NoDup p /\
  (forall i, In i p -> In i (flatnonzero c d)) /\
  List.length p = kept s d c /\
  ((forall n, strategy_get s c = Some n -> count_class c d <= n) ->
   forall i, In i (flatnonzero c d) -> In i p).
Proof.
  unfold kept. destruct (strategy_get s c) as [n |]; simpl.
  - destruct (choice_spec g (flatnonzero c d) n (flatnonzero_NoDup c d))
      as [ND [Sub Len]].
    repeat split; auto.
    intros H i Hi. specialize (H n eq_refl). unfold count_class in H.
    rewrite choice_firstn, firstn_all2.
    + eapply Permutation_in; [symmetry; apply shuffled_perm | exact Hi].
    + rewrite (Permutation_length (shuffled_perm g (flatnonzero c d))). lia.
  - repeat split; auto. apply flatnonzero_NoDup.
Qed.

Lemma under_classes_In (s : strategy) (d : list sample) (classes : list cell)
  (g : rng) (i : nat) :
  In i (fst (under_classes s d classes g)) ->
  exists c, In c classes /\ In i (flatnonzero c d).
Proof.
  revert g. induction classes as [|c cs IH]; intros g; simpl; [tauto |].
  pose proof (kept_positions s d c g) as [_ [Sub _]].
  destruct (match strategy_get s c with
            | Some n => choice g (flatnonzero c d) n
            | None => (flatnonzero c d, g)
            end) as [p g1].
  specialize (IH g1). destruct (under_classes s d cs g1) as [rest g2].
  simpl in *. intros H. apply in_app_or in H. destruct H as [H | H].
  - exists c. auto.
  - destruct (IH H) as [c' [Hc' Hi]]. exists c'. auto.
Qed.

Lemma distinct_classes_disjoint (d : list sample) (c c' : cell) (i : nat) :
  cell_eqb c c' = false ->
  In i (flatnonzero c d) -> In i (flatnonzero c' d) -> False.
Proof.
  intros E H H'. apply flatnonzero_In in H, H'.
  destruct H as [_ H], H' as [_ H'].
  rewrite cell_eqb_sym in H.
  rewrite (cell_eqb_trans c _ c' H H') in E. discriminate.
Qed.

Lemma under_classes_NoDup (s : strategy) (d : list sample) (classes : list cell)
  (g : rng) :
  distinct_classes classes -> NoDup (fst (under_classes s d classes g)).
Proof.
  intros DC. revert g. induction DC as [|c cs F DC IH]; intros g; simpl.
  - constructor.
  - pose proof (kept_positions s d c g) as [ND [Sub _]].
    destruct (match strategy_get s c with
              | Some n => choice g (flatnonzero c d) n
              | None => (flatnonzero c d, g)
              end) as [p g1].
    specialize (IH g1). pose proof (under_classes_In s d cs g1) as In'.
    destruct (under_classes s d cs g1) as [rest g2]. simpl in *.
    apply NoDup_app; auto.
    intros i Hp Hr. destruct (In' i Hr) as [c' [Hc' Hi]].
    rewrite Forall_forall in F.
    exact (distinct_classes_disjoint d c c' i (F c' Hc') (Sub i Hp) Hi).
Qed.

Lemma under_classes_count (s : strategy) (d : list sample) (classes : list cell)
  (g : rng) (c : cell) :
  distinct_classes classes ->
  count_class c (take d (fst (under_classes s d classes g)))
  = if existsb (fun c' => cell_eqb c' c) classes then kept s d c else 0.
Proof.
  intros DC. revert g. induction DC as [|c' cs F DC IH]; intros g; simpl.
  - reflexivity.
  - pose proof (kept_positions s d c' g) as [_ [Sub [Len _]]].
    destruct (match strategy_get s c' with
              | Some n => choice g (flatnonzero c' d) n
              | None => (flatnonzero c' d, g)
              end) as [p g1].
    specialize (IH g1).
    destruct (under_classes s d cs g1) as [rest g2]. simpl in *.
    rewrite take_app, count_class_app, IH, (count_class_take_class c c') by auto.
    destruct (cell_eqb c' c) eqn:E; simpl.
    + assert (X : existsb (fun c'' => cell_eqb c'' c) cs = false).
      { apply not_true_is_false. intros X. apply existsb_exists in X.
        destruct X as [c'' [Hc'' E'']]. rewrite Forall_forall in F.
        specialize (F c'' Hc''). rewrite cell_eqb_sym in E''.
        rewrite (cell_eqb_trans c' c c'' E E'') in F. discriminate. }
      rewrite X, Len. unfold kept.
      rewrite (strategy_get_ext s c' c E), (count_class_ext c' c d E). lia.
    + reflexivity.
Qed.

Lemma under_classes_keeps_all (s : strategy) (d : list sample)
  (classes : list cell) (g : rng) (c : cell) :
  In c classes ->
  (forall n, strategy_get s c = Some n -> count_class c d <= n) ->
  forall i, In i (flatnonzero c d) -> In i (fst (under_classes s d classes g)).
Proof.
  intros Hc Hn i Hi. revert g.
  induction classes as [|c' cs IH]; intros g; simpl; [destruct Hc |].
  pose proof (kept_positions s d c' g) as [_ [_ [_ All]]].
  destruct (match strategy_get s c' with
            | Some n => choice g (flatnonzero c' d) n
            | None => (flatnonzero c' d, g)
            end) as [p g1].
  assert (IH' : In c cs -> In i (fst (under_classes s d cs g1))) by auto.
  destruct (under_classes s d cs g1) as [rest g2]. simpl in *.
  apply in_or_app. destruct Hc as [-> | Hc]; auto.
Qed.

End Resampling.

(* ===================================================================== *)
(** * model_training: the class balancer *)
(* ===================================================================== *)

Section ClassBalancer.
Import imblearn.
Context {RS : RandomState} {SY : Synthesiser} {ES : Estimators}.

Lemma int_times_half (n : nat) : int_times n (1 # 2) = n / 2.
Proof.
  unfold int_times, Qfloor, Qmult, inject_Z. cbn [Qnum Qden].
  change (Z.pos (1 * 2)) with (Z.of_nat 2).
  now rewrite Z.mul_1_r, <- Nat2Z.inj_div, Nat2Z.id.
Qed.

Lemma class_present (c : cell) (d : list sample) :
  0 < count_class c d ->
  existsb (fun c' => cell_eqb c' c) (classes_of d) = true.
Proof.
  intros H. destruct (existsb _ (classes_of d)) eqn:E; auto.
  rewrite count_class_absent in H; [lia |].
  apply Forall_forall. intros c' Hc'.
  apply not_true_is_false. intros X.
  assert (Y : existsb (fun c' => cell_eqb c' c) (classes_of d) = true).
  { apply existsb_exists. eauto. }
  congruence.
Qed.

Lemma class_count_Ok (d : list sample) (label : Z) :
  0 < count_class (Int label) d ->
  class_count d label = Ok (count_class (Int label) d).
Proof.
  unfold class_count. destruct (count_class (Int label) d); [lia | auto].
Qed.

Lemma count_class_synthetic (c : cell) (vs : list (list cell)) :
  count_class c (map (fun v => mkSample Synthetic v (Int 1)) vs)
  = if cell_eqb (Int 1) c then List.length vs else 0.
Proof.
  rewrite count_class_filter.
  destruct (cell_eqb (Int 1) c) eqn:E;
    induction vs as [|v vs IH]; cbn [map filter y List.length]; auto;
    rewrite E; cbn [List.length]; auto.
Qed.

(** Rows with discrete labels and at least one feature. *)
Let checked (d : list sample) : Prop :=
  forall s, In s d -> integral (y s) = true /\ x s <> [].

Lemma check_X_y_Ok (d : list sample) :
  d <> [] -> checked d -> check_X_y d = Ok tt.
Proof.
  intros NE C. unfold check_X_y.
  assert (F : forallb (fun s => integral (y s)) d = true).
  { apply forallb_forall. intros s Hs. now apply C. }
  rewrite F. simpl. destruct d as [|s d]; [congruence |].
  destruct (C s (or_introl eq_refl)) as [_ X].
  destruct (x s); [congruence | reflexivity].
Qed.

Lemma count_class_nonempty (c : cell) (d : list sample) :
  0 < count_class c d -> d <> [].
Proof. intros H ->. unfold count_class in H. simpl in H. lia. Qed.

Lemma take_checked (d : list sample) (idx : list nat) :
  checked d -> (forall i, In i idx -> i < List.length d) -> checked (take d idx).
Proof.
  intros C R s Hs. unfold take in Hs. apply in_map_iff in Hs.
  destruct Hs as [i [<- Hi]]. apply C, nth_In, R, Hi.
Qed.

(** Under-sampling with the strategy of [handle_imbalanced_data]. *)
Lemma under_sampling_run (d : list sample) (t0 : nat) :
  let M := count_class (Int 0) d in
  let N := count_class (Int 1) d in
  checked d ->
  0 < M -> 0 < N -> t0 <= M ->
  exists idx,
    RandomUnderSampler [(Int 0, t0); (Int 1, N)] RANDOM_STATE d
    = Ok (take d idx) /\
    NoDup idx /\
    (forall i, In i idx -> i < List.length d) /\
    (forall i, In i (flatnonzero (Int 1) d) -> In i idx) /\
    count_class (Int 0) (take d idx) = t0 /\
    count_class (Int 1) (take d idx) = N.
Proof.
  intros M N HC HM HN Ht. subst M N.
  unfold RandomUnderSampler.
  rewrite (check_X_y_Ok d (count_class_nonempty _ _ HM) HC). cbn [rbind].
  unfold check_under_sampling. simpl existsb.
  destruct (Nat.eqb_spec (count_class (Int 0) d) 0); [lia |].
  destruct (Nat.eqb_spec (count_class (Int 1) d) 0); [lia |].
  destruct (Nat.ltb_spec (count_class (Int 0) d) t0); [lia |].
  rewrite Nat.ltb_irrefl. simpl.
  set (s := [(Int 0, t0); (Int 1, count_class (Int 1) d)]).
  pose proof (under_classes_NoDup s d (classes_of d) (seed RANDOM_STATE)
                (np_unique_distinct _)) as ND.
  pose proof (under_classes_In s d (classes_of d) (seed RANDOM_STATE)) as Sub.
  pose proof (fun c => under_classes_count s d (classes_of d)
                         (seed RANDOM_STATE) c (np_unique_distinct _)) as Cn.
  pose proof (fun c => under_classes_keeps_all s d (classes_of d)
                         (seed RANDOM_STATE) c) as All.
  destruct (under_classes s d (classes_of d) (seed RANDOM_STATE)) as [idx g].
  cbn [fst] in *. exists idx. repeat split; auto.
  - intros i Hi. destruct (Sub i Hi) as [c [_ Hc]].
    now apply flatnonzero_In in Hc.
  - intros i Hi.
    destruct (np_unique_covers (map y d) (y (nth i d default_sample)))
      as [c [Hc Ec]].
    { apply in_map, nth_In. now apply flatnonzero_In in Hi. }
    assert (E1 : cell_eqb c (Int 1) = true).
    { rewrite cell_eqb_sym in Ec. apply (cell_eqb_trans _ _ _ Ec).
      now apply flatnonzero_In in Hi. }
    apply (All c Hc).
    + intros k. rewrite (strategy_get_ext s c (Int 1) E1). simpl.
      intros X. injection X as <-.
      now rewrite (count_class_ext c (Int 1) d E1).
    + now rewrite (flatnonzero_ext c (Int 1) d E1).
  - rewrite Cn, class_present by assumption. simpl. lia.
  - rewrite Cn, class_present by assumption. simpl. lia.
Qed.

(** Over-sampling with the strategy of [handle_imbalanced_data]. *)
Lemma over_sampling_run (d : list sample) (t1 : nat) :
  let M := count_class (Int 0) d in
  let N := count_class (Int 1) d in
  checked d ->
  0 < M -> 0 < N -> N <= t1 -> N = t1 \/ 6 <= N ->
  exists vs,
    SMOTE [(Int 0, M); (Int 1, t1)] RANDOM_STATE d
    = Ok (d ++ map (fun v => mkSample Synthetic v (Int 1)) vs) /\
    List.length vs = t1 - N.
Proof.
  intros M N HC HM HN Ht H6. subst M N.
  set (N := count_class (Int 1) d) in *.
  unfold SMOTE.
  rewrite (check_X_y_Ok d (count_class_nonempty _ _ HM) HC). cbn [rbind].
  unfold check_over_sampling. simpl existsb. fold N.
  destruct (Nat.eqb_spec (count_class (Int 0) d) 0); [lia |].
  destruct (Nat.eqb_spec N 0); [lia |].
  rewrite Nat.ltb_irrefl.
  destruct (Nat.ltb_spec t1 N); [lia |].
  cbn [orb rbind over_classes]. fold N. rewrite Nat.sub_diag.
  cbn [Nat.eqb].
  destruct (Nat.eqb_spec (t1 - N) 0) as [Z | NZ].
  - exists []. simpl. split; [reflexivity | lia].
  - assert (L : List.length (take d (flatnonzero (Int 1) d)) = N).
    { unfold take. now rewrite length_map. }
    rewrite L. unfold k_neighbors.
    destruct (Nat.ltb_spec N (5 + 1)); [lia |].
    pose proof (make_samples_length (seed RANDOM_STATE)
                  (take d (flatnonzero (Int 1) d)) (t1 - N)) as Len.
    destruct (make_samples _ _ (t1 - N)) as [X_new g1]. simpl in *.
    exists X_new. rewrite app_nil_r. auto.
Qed.

(** Over-sampling below the present count: SMOTE refuses a target for
    class 1 that is smaller than the number of rows of class 1. *)
Lemma over_sampling_refuses (d : list sample) (t0 t1 : nat) :
  checked d -> d <> [] ->
  count_class (Int 0) d = t0 -> t1 < count_class (Int 1) d ->
  SMOTE [(Int 0, t0); (Int 1, t1)] RANDOM_STATE d
  = Raise (ValueError
             (if Nat.eqb t0 0
              then "The target class of the strategy is not present in the data"
              else "With over-sampling methods, the number of samples in a class should be greater or equal to the original number of samples")).
Proof.
  intros HC NE H0 H1. unfold SMOTE.
  rewrite (check_X_y_Ok d NE HC). cbn [rbind].
  unfold check_over_sampling. cbn [existsb fst snd]. rewrite H0.
  destruct (Nat.eqb_spec t0 0) as [Z | NZ]; [reflexivity |].
  destruct (Nat.eqb_spec (count_class (Int 1) d) 0); [lia |].
  cbn [orb]. rewrite Nat.ltb_irrefl.
  destruct (Nat.ltb_spec t1 (count_class (Int 1) d)); [reflexivity | lia].
Qed.

(** C1, as the code has it. Take any training set (of rows with at least
    one feature and discrete labels) with [M] rows of class 0 and [N >= 1]
    rows of class 1.

    When [N <= floor(0.5 * floor(0.5 * M))], and [N] is that target or at
    least 6 (SMOTE asks each minority row for its 5 nearest neighbours),
    [handle_imbalanced_data] returns. The set it returns is a selection of
    the rows given, at distinct positions (drawn without replacement,
    seeded by [RANDOM_STATE]), followed by synthetic rows of class 1.
    Every row of class 1 given is in the selection. It has
    [floor(0.5 * M)] rows of class 0 and [floor(0.5 * floor(0.5 * M))]
    rows of class 1, which is at least [N].

    When [N] exceeds [floor(0.5 * floor(0.5 * M))], whatever [M] is and so
    also when [N < floor(0.5 * M)], [handle_imbalanced_data] raises and no
    set is returned; for [M >= 2] the exception is the refusal of the
    over-sampler, whose target is below the [N] rows present. *)
Theorem balancer_counts (train : Dataset) (w : world model) :
  let d := samples train in
  let M := count_class (Int 0) d in
  let N := count_class (Int 1) d in
  (forall s, In s d -> integral (y s) = true /\ x s <> []) ->
  1 <= N ->
  (N <= M / 2 / 2 ->
   N = M / 2 / 2 \/ 6 <= N ->
   exists out w' idx synthetic,
     handle_imbalanced_data train w = (Ok out, w') /\
     feature_names out = feature_names train /\
     samples out = take d idx ++ synthetic /\
     NoDup idx /\
     (forall i, In i idx -> i < List.length d) /\
     (forall i, In i (flatnonzero (Int 1) d) -> In i idx) /\
     Forall (fun s => source s = Synthetic /\ y s = Int 1) synthetic /\
     List.length synthetic = M / 2 / 2 - N /\
     count_class (Int 0) (samples out) = M / 2 /\
     count_class (Int 1) (samples out) = M / 2 / 2 /\
     N <= count_class (Int 1) (samples out)) /\
  (M / 2 / 2 < N ->
   (exists e, fst (handle_imbalanced_data train w) = Raise e) /\
   (2 <= M ->
    fst (handle_imbalanced_data train w)
    = Raise (ValueError "With over-sampling methods, the number of samples in a class should be greater or equal to the original number of samples"))).
Proof.
  intros d M N HC H1. split.
  - intros H2 H6.
    assert (HM : 4 <= M).
    { destruct (Nat.lt_ge_cases M 4) as [L |]; auto.
      assert (M / 2 / 2 = 0); [| lia].
      rewrite Nat.Div0.div_div. apply Nat.div_small. lia. }
    assert (Hh : 2 <= M / 2).
    { apply Nat.div_le_lower_bound; lia. }
    assert (Hle : M / 2 <= M).
    { apply Nat.Div0.div_le_upper_bound. lia. }
    destruct (under_sampling_run d (M / 2)) as [idx [U [ND [Rg [All [C0 C1]]]]]];
      try (fold M; fold N; lia); [exact HC |].
    fold N in U, C1.
    destruct (over_sampling_run (take d idx) (M / 2 / 2))
      as [vs [O Lv]]; try (rewrite ?C0, ?C1; lia);
      [now apply take_checked |].
    rewrite C0 in O. rewrite C1 in Lv.
    set (synthetic := map (fun v => mkSample Synthetic v (Int 1)) vs) in *.
    assert (S0 : count_class (Int 0) (take d idx ++ synthetic) = M / 2).
    { rewrite count_class_app, C0. unfold synthetic.
      rewrite count_class_synthetic.
      change (cell_eqb (Int 1) (Int 0)) with false. cbv iota. lia. }
    assert (S1 : count_class (Int 1) (take d idx ++ synthetic) = M / 2 / 2).
    { rewrite count_class_app, C1. unfold synthetic.
      rewrite count_class_synthetic.
      change (cell_eqb (Int 1) (Int 1)) with true. cbv iota. lia. }
    exists (mkDataset (feature_names train) (take d idx ++ synthetic)).
    eexists. exists idx, synthetic.
    split.
    { unfold handle_imbalanced_data, bind, lift, logging, ret.
      cbv beta iota zeta. fold d.
      rewrite (class_count_Ok d 0) by (fold M; lia). cbv beta iota zeta.
      rewrite (class_count_Ok d 1) by (fold N; lia). cbv beta iota zeta.
      fold M. fold N. unfold UNDERSAMPLING_RATIO. rewrite !int_times_half.
      rewrite U. cbv beta iota zeta. rewrite O. cbv beta iota zeta.
      rewrite (class_count_Ok _ 0) by (rewrite S0; lia). cbv beta iota zeta.
      rewrite (class_count_Ok _ 1) by (rewrite S1; lia). cbv beta iota zeta.
      reflexivity. }
    simpl samples. simpl feature_names.
    repeat split; auto; try lia.
    + unfold synthetic. apply Forall_forall. intros s Hs.
      apply in_map_iff in Hs. destruct Hs as [v [<- _]]. auto.
    + unfold synthetic. now rewrite length_map.
  - intros H2.
    destruct (Nat.eq_dec M 0) as [Z | NZ].
    { split; [| lia].
      exists (KeyError ["0"]).
      unfold handle_imbalanced_data, bind, lift, logging, class_count.
      cbv beta iota zeta. fold d. fold M. rewrite Z. reflexivity. }
    assert (Hle : M / 2 <= M).
    { apply Nat.Div0.div_le_upper_bound. lia. }
    destruct (under_sampling_run d (M / 2)) as [idx [U [ND [Rg [All [C0 C1]]]]]];
      try (fold M; fold N; lia); [exact HC |].
    fold N in U, C1.
    assert (R : fst (handle_imbalanced_data train w)
                = Raise (ValueError
                           (if Nat.eqb (M / 2) 0
                            then "The target class of the strategy is not present in the data"
                            else "With over-sampling methods, the number of samples in a class should be greater or equal to the original number of samples"))).
    { unfold handle_imbalanced_data, bind, lift, logging, ret.
      cbv beta iota zeta. fold d.
      rewrite (class_count_Ok d 0) by (fold M; lia). cbv beta iota zeta.
      rewrite (class_count_Ok d 1) by (fold N; lia). cbv beta iota zeta.
      fold M. fold N. unfold UNDERSAMPLING_RATIO. rewrite !int_times_half.
      rewrite U. cbv beta iota zeta.
      rewrite (over_sampling_refuses (take d idx) (M / 2) (M / 2 / 2)).
      - reflexivity.
      - now apply take_checked.
      - apply (count_class_nonempty (Int 1)). rewrite C1. lia.
      - exact C0.
      - rewrite C1. exact H2. }
    split; [eauto |].
    intros HM. rewrite R.
    destruct (Nat.eqb_spec (M / 2) 0) as [Z | _]; [| reflexivity].
    assert (1 <= M / 2) by (apply Nat.div_le_lower_bound; lia). lia.
Qed.

End ClassBalancer.

Section BalancerExamples.
Import fixtures.

Lemma balancer_counts_witness :
  (exists out w',
     @handle_imbalanced_data identity_rng blank_synthesiser no_failure
       (labelled 32 6) (blank_world []) = (Ok out, w') /\
     count_class (Int 0) (samples out) = 16 /\
     count_class (Int 1) (samples out) = 8) /\
  (exists e,
     fst (@handle_imbalanced_data identity_rng blank_synthesiser no_failure
            (labelled 8 3) (blank_world [])) = Raise e).
Proof.
  assert (HC : forall a b s,
            In s (samples (labelled a b)) ->
            integral (y s) = true /\ x s <> []).
  { intros a b s Hs. apply in_map_iff in Hs. destruct Hs as [i [<- _]].
    split; [now destruct (Nat.ltb i a) | discriminate]. }
  split.
  - destruct (@balancer_counts identity_rng blank_synthesiser no_failure
                (labelled 32 6) (blank_world []) (HC 32 6)) as [Acc _].
    { vm_compute. lia. }
    destruct Acc
      as (out & w' & idx & synthetic & R & _ & _ & _ & _ & _ & _ & _ & C0 & C1 & _).
    + vm_compute. lia.
    + right. vm_compute. lia.
    + exists out, w'. split; [exact R |]. split.
      * rewrite C0. vm_compute. reflexivity.
      * rewrite C1. vm_compute. reflexivity.
  - destruct (@balancer_counts identity_rng blank_synthesiser no_failure
                (labelled 8 3) (blank_world []) (HC 8 3)) as [_ Ref].
    { vm_compute. lia. }
    apply Ref. vm_compute. lia.
Defined.

(** C1, as the specification has it, fails: with 8 rows of class 0 and 3
    of class 1 the minority count is below [floor(0.5 * 8) = 4], but the
    minority target [floor(0.5 * 4) = 2] is below the 3 rows present, and
    the over-sampler raises: no resampled set is returned (and no set
    could have 2 minority rows and at least 3). *)
Lemma balancer_rejects_a_minority_above_the_target :
  count_class (Int 0) (samples (labelled 8 3)) = 8 /\
  count_class (Int 1) (samples (labelled 8 3)) = 3 /\
  3 < int_times 8 UNDERSAMPLING_RATIO /\
  int_times (int_times 8 UNDERSAMPLING_RATIO) (1 # 2) = 2 /\
  fst (@handle_imbalanced_data identity_rng blank_synthesiser no_failure
         (labelled 8 3) (blank_world []))
  = Raise (ValueError "With over-sampling methods, the number of samples in a class should be greater or equal to the original number of samples").
Proof. repeat split; vm_compute; try reflexivity; lia. Qed.

End BalancerExamples.

(* ===================================================================== *)
(** * model_training: the pipeline and the test partition *)
(* ===================================================================== *)

Section Pipeline.
Import imblearn.
Context {RS : RandomState} {SY : Synthesiser} {ES : Estimators}.

(** A computation keeps a file when it leaves the file as it found it,
    whether it returns or raises. *)
Let keeps {A} (p : string) (c : M model A) : Prop :=
  forall w, read_file p (files (snd (c w))) = read_file p (files w).

Lemma keeps_ret {A} p (a : A) : keeps p (ret a).
Proof. intros w. reflexivity. Qed.

Lemma keeps_lift {A} p (r : result A) : keeps p (lift r).
Proof. intros w. reflexivity. Qed.





Lemma keeps_read_csv p q : keeps p (@read_csv model q).
Proof.
  intros w. unfold read_csv.
  destruct (read_file q (files w)) as [[] |]; reflexivity.
Qed.

Lemma keeps_save p q (a : artifact model) : q <> p -> keeps p (save q a).
Proof. intros D w. unfold save. simpl. now apply read_write_other. Qed.

Lemma keeps_bind {A B} p (c : M model A) (k : A -> M model B) :
  keeps p c -> (forall a, keeps p (k a)) -> keeps p (bind c k).
Proof.
  intros Hc Hk w. unfold bind. specialize (Hc w).
  destruct (c w) as [[a | e] w1]; simpl in *; [| exact Hc].
  rewrite <- Hc. apply Hk.
Qed.








Lemma bind_Ok {A B} (c : M model A) (k : A -> M model B) w b w' :
  bind c k w = (Ok b, w') ->
  exists a w1, c w = (Ok a, w1) /\ k a w1 = (Ok b, w').
Proof.
  unfold bind. destruct (c w) as [[a | e] w1]; [eauto | discriminate].
Qed.






Lemma select_columns_y names sel (d : list sample) :
  map y (select_columns names sel d) = map y d.
Proof. unfold select_columns. rewrite map_map. reflexivity. Qed.

Lemma main_Ok (w w' : world model) (r : run) :
  main w = (Ok (Some r), w') -> exists w1, pipeline w1 = (Ok r, w').
Proof.
  unfold main. intros E. apply bind_Ok in E. destruct E as [u [w1 [_ E]]].
  unfold try_except in E.
  destruct (bind pipeline (fun r0 => ret (Some r0)) w1) as [[a | e] w2] eqn:P.
  - injection E as -> ->. apply bind_Ok in P.
    destruct P as [r0 [w3 [P R]]]. unfold ret in R. injection R as -> ->.
    eauto.
  - unfold bind, logging, print, ret in E. simpl in E. discriminate.
Qed.



End Pipeline.


(** With 32 rows of class 0 and 3 of class 1 the targets are 16 and 8, above
    the 3 minority rows, but SMOTE cannot find 5 neighbours among 3 rows. *)
Example balancer_needs_six_minority_rows :
  fst (@handle_imbalanced_data fixtures.identity_rng fixtures.blank_synthesiser
         fixtures.no_failure (fixtures.labelled 32 3) (fixtures.blank_world []))
  = Raise (ValueError "Expected n_neighbors <= n_samples_fit").
Proof. vm_compute. reflexivity. Qed.

(* ===================================================================== *)
(** * data_cleaning.preprocess_data: the engineered columns *)
(* ===================================================================== *)

Section EngineeredColumns.
Import config data_cleaning fixtures.
Local Open Scope R_scope.

(** The labels [preprocess_data] assigns. *)
Let assigned : list string :=
  ["Time"; "Hour_Sin"; "Hour_Cos"; "Amount_Log"; "Amount_Scaled";
   "Amount_Outlier"; "V_Sum"; "V_Mean"; "V_Std"].

Let days_of (df : DataFrame) : list R :=
  map (fun t => t / (60 * 60 * 24)) (reals (column df "Time")).

Let hours_of (df : DataFrame) : list R :=
  map (fun d => fmod (d * 24) 24) (days_of df).

Let amount_log_of (df : DataFrame) : list R :=
  map log1p (reals (column df "Amount")).

Lemma assigned_is_not_V (n : string) : In n assigned -> ~ In n V_FEATURES.
Proof.
  intros H. apply string_in_false.
  repeat (destruct H as [<- | H]; [reflexivity |]). destruct H.
Qed.

Ltac across_setitem :=
  repeat first
    [ rewrite getitem_setitem_other by discriminate
    | rewrite has_column_setitem_other by discriminate
    | rewrite column_setitem_other by discriminate
    | rewrite getitems_setitem_other
        by (apply assigned_is_not_V; unfold assigned; simpl; tauto) ].

(** Every column [preprocess_data] assigns, and the columns it leaves. *)
Lemma preprocess_data_assigned g df u :
  has_column df "Time" = true -> has_column df "Amount" = true ->
  (forall v, In v V_FEATURES -> has_column df v = true) ->
  upper_bound g = Some u ->
  exists out,
    preprocess_data g df = Ok out /\
    column out "Time" = floats (days_of df) /\
    column out "Hour_Sin"
      = floats (map (fun h => sin (2 * PI * h / 24)) (hours_of df)) /\
    column out "Hour_Cos"
      = floats (map (fun h => cos (2 * PI * h / 24)) (hours_of df)) /\
    column out "Amount_Log" = floats (amount_log_of df) /\
    column out "Amount_Scaled"
      = floats (map (fun a => (a - mean (amount_log_of df))
                              / std (amount_log_of df)) (amount_log_of df)) /\
    column out "Amount_Outlier"
      = map (fun a => Int (if Rgt_dec a u then 1 else 0))
          (reals (column df "Amount")) /\
    (forall n, ~ In n assigned -> column out n = column df n).
Proof.
  intros HT HA HV Hu. unfold preprocess_data.
  rewrite (getitem_has _ _ HT). cbn [rbind].
  across_setitem. rewrite (getitem_has _ _ HA). cbn [rbind].
  across_setitem. rewrite (getitems_has _ _ HV). cbn [rbind].
  across_setitem. rewrite (getitem_has _ _ HA). cbn [rbind].
  unfold read_upper_bound. rewrite Hu. cbn [rbind].
  do 3 (across_setitem; rewrite (getitems_has _ _ HV); cbn [rbind]).
  eexists. split; [reflexivity |].
  unfold days_of, hours_of, amount_log_of.
  do 6 (split; [across_setitem; now rewrite column_setitem_same |]).
  intros n Hn.
  rewrite !column_setitem_other; auto;
    intros <-; apply Hn; unfold assigned; simpl; tauto.
Qed.

Lemma preprocess_data_columns g df out :
  preprocess_data g df = Ok out ->
  exists u,
    upper_bound g = Some u /\
    column out "Time" = floats (days_of df) /\
    column out "Hour_Sin"
      = floats (map (fun h => sin (2 * PI * h / 24)) (hours_of df)) /\
    column out "Hour_Cos"
      = floats (map (fun h => cos (2 * PI * h / 24)) (hours_of df)) /\
    column out "Amount_Log" = floats (amount_log_of df) /\
    column out "Amount_Scaled"
      = floats (map (fun a => (a - mean (amount_log_of df))
                              / std (amount_log_of df)) (amount_log_of df)) /\
    column out "Amount_Outlier"
      = map (fun a => Int (if Rgt_dec a u then 1 else 0))
          (reals (column df "Amount")) /\
    (forall n, ~ In n assigned -> column out n = column df n).
Proof.
  intros E.
  destruct (preprocess_data_Ok_inv g df out E) as [HT [HA [HV [u Hu]]]].
  destruct (preprocess_data_assigned g df u HT HA HV Hu) as [out' [E' C]].
  rewrite E in E'. injection E' as <-. eauto.
Qed.

(** X2. [preprocess_data] rewrites one column of the raw file and no
    other: [Time], from seconds to days. Every column it does not assign,
    among them [Amount], [Class] and the 28 V columns, comes out as it
    went in. *)
Theorem preprocessing_keeps_the_raw_columns g df out :
  preprocess_data g df = Ok out ->
  column out "Time"
    = floats (map (fun t => t / 86400) (reals (column df "Time"))) /\
  (forall n,
     ~ In n ["Time"; "Hour_Sin"; "Hour_Cos"; "Amount_Log"; "Amount_Scaled";
             "Amount_Outlier"; "V_Sum"; "V_Mean"; "V_Std"] ->
     column out n = column df n) /\
  column out "Amount" = column df "Amount" /\
  column out "Class" = column df "Class" /\
  (forall v, In v V_FEATURES -> column out v = column df v).
Proof.
  intros E.
  destruct (preprocess_data_columns g df out E)
    as (u & _ & HT & _ & _ & _ & _ & _ & K).
  split.
  { rewrite HT. unfold days_of. f_equal. apply map_ext. intros t.
    f_equal. lra. }
  split; [exact K |].
  split; [apply K; simpl; intuition discriminate |].
  split; [apply K; simpl; intuition discriminate |].
  intros v Hv. apply K. intros Ha. exact (assigned_is_not_V v Ha Hv).
Qed.

Lemma preprocessing_keeps_the_raw_columns_witness :
  exists out,
    preprocess_data (run_as_main 0 0) unit_row = Ok out /\
    column out "V1" = [Float 1] /\ column out "Class" = [Int 0].
Proof.
  destruct unit_row_columns as [HT [HA HV]].
  destruct (preprocess_data_Ok (run_as_main 0 0) unit_row _ HT HA HV eq_refl)
    as [out [E _]].
  exists out. split; [exact E |].
  destruct (preprocessing_keeps_the_raw_columns (run_as_main 0 0) unit_row out E)
    as (_ & _ & _ & C & V).
  split; [apply (V "V1"); now left | exact C].
Defined.

End EngineeredColumns.

(* ===================================================================== *)
(** * data_cleaning.save_processed_data *)
(* ===================================================================== *)

Section SaveProcessedData.
Import config data_cleaning fixtures.
Context {model : Type}.

Lemma getitems_Ok_inv (df : DataFrame) (names : list string) v :
  getitems df names = Ok v ->
  v = map (column df) names /\
  forall n, In n names -> has_column df n = true.
Proof.
  unfold getitems.
  destruct (filter (fun n => negb (has_column df n)) names) as [|k ks] eqn:F;
    [| discriminate].
  intros [= <-]. split; [reflexivity |].
  intros n Hn. destruct (has_column df n) eqn:H; [reflexivity |].
  assert (I : In n (filter (fun n => negb (has_column df n)) names)).
  { apply filter_In. split; [exact Hn | now rewrite H]. }
  rewrite F in I. destruct I.
Qed.

Lemma getitems_Raise_inv (df : DataFrame) (names : list string) e :
  getitems df names = Raise e ->
  exists n, In n names /\ has_column df n = false.
Proof.
  unfold getitems.
  destruct (filter (fun n => negb (has_column df n)) names) as [|k ks] eqn:F;
    [discriminate |].
  intros _. assert (I : In k (filter (fun n => negb (has_column df n)) names))
    by (rewrite F; now left).
  apply filter_In in I. destruct I as [I H]. exists k. split; [exact I |].
  now destruct (has_column df k).
Qed.

(** The two ways [save_processed_data] ends. *)
Lemma save_processed_data_spec (df : DataFrame) (w : world model) :
  match getitems df essential_columns with
  | Ok v =>
      exists w',
        save_processed_data df w = (Ok true, w') /\
        files w' =
          write_file excel_file
            (Csv (mkFrame (nrows df) (combine essential_columns v)))
            (write_file CLEANED_DATA_FILE (Csv df) (files w))
  | Raise _ =>
      exists w',
        save_processed_data df w = (Ok false, w') /\
        files w' = write_file CLEANED_DATA_FILE (Csv df) (files w) /\
        last (log w') (INFO, "") = (ERROR, "Error saving processed data")
  end.
Proof.
  unfold save_processed_data, try_except, bind, lift, logging, to_csv, save, ret.
  destruct (getitems df essential_columns) as [v | e]; simpl;
    eexists; repeat split.
  apply last_last.
Qed.

Lemma save_processed_data_cleaned (df : DataFrame) (w : world model) :
  read_file CLEANED_DATA_FILE (files (snd (save_processed_data df w)))
  = Some (Csv df).
Proof.
  pose proof (save_processed_data_spec df w) as S.
  destruct (getitems df essential_columns) as [v | e].
  - destruct S as [w' [-> F]]. simpl. rewrite F.
    rewrite read_write_other by discriminate. apply read_write_same.
  - destruct S as [w' [-> [F _]]]. simpl. rewrite F. apply read_write_same.
Qed.

(** X5. [save_processed_data] never raises and always leaves the full
    frame in the cleaned file. It answers [True] exactly when the frame has
    the eleven essential columns; the file for Excel then holds exactly
    these columns, in the order of the list, with the cells of the frame.
    Otherwise it answers [False] after the cleaned file was written, logs
    an error, and leaves the file for Excel as it was. *)
Theorem save_processed_data_never_raises (df : DataFrame) (w : world model) :
  exists b w',
    save_processed_data df w = (Ok b, w') /\
    read_file CLEANED_DATA_FILE (files w') = Some (Csv df) /\
    (b = true <->
     forall c, In c essential_columns -> has_column df c = true) /\
    (b = true ->
     exists ex,
       read_file excel_file (files w') = Some (Csv ex) /\
       columns ex = essential_columns /\ nrows ex = nrows df /\
       forall c, In c essential_columns -> column ex c = column df c) /\
    (b = false ->
     read_file excel_file (files w') = read_file excel_file (files w) /\
     last (log w') (INFO, "") = (ERROR, "Error saving processed data")).
Proof.
  pose proof (save_processed_data_cleaned df w) as C.
  pose proof (save_processed_data_spec df w) as S.
  destruct (getitems df essential_columns) as [v | e] eqn:G.
  - destruct S as [w' [E F]]. rewrite E in C. simpl in C.
    apply getitems_Ok_inv in G. destruct G as [-> H].
    exists true, w'. split; [exact E |]. split; [exact C |].
    split; [tauto |]. split; [| discriminate].
    intros _. eexists. rewrite F. split; [apply read_write_same |].
    split; [reflexivity |]. split; [reflexivity |].
    intros c Hc.
    repeat (destruct Hc as [<- | Hc]; [reflexivity |]). destruct Hc.
  - destruct S as [w' [E [F L]]]. rewrite E in C. simpl in C.
    apply getitems_Raise_inv in G. destruct G as [n [Hn Hc]].
    exists false, w'. split; [exact E |]. split; [exact C |].
    split.
    { split; [discriminate |]. intros H. rewrite (H n Hn) in Hc. discriminate. }
    split; [discriminate |].
    intros _. split; [| exact L].
    rewrite F. now apply read_write_other.
Qed.

Lemma In_fold_add_label (l cs : list string) (n : string) :
  In n (fold_left add_label l cs) <-> In n cs \/ In n l.
Proof.
  revert cs. induction l as [|a l IH]; intros cs; simpl.
  - tauto.
  - rewrite IH. unfold add_label.
    destruct (string_in a cs) eqn:S.
    + apply string_in_true in S. intuition (subst; auto).
    + rewrite in_app_iff. simpl. tauto.
Qed.

Lemma has_column_preprocessed g df out (n : string) :
  preprocess_data g df = Ok out ->
  has_column out n = true <->
  has_column df n = true \/
  In n ["Time"; "Hour_Sin"; "Hour_Cos"; "Amount_Log"; "Amount_Scaled";
        "Amount_Outlier"; "V_Sum"; "V_Mean"; "V_Std"].
Proof.
  intros E.
  destruct (preprocess_data_Ok_inv g df out E) as [HT [HA [HV [u Hu]]]].
  destruct (preprocess_data_Ok g df u HT HA HV Hu) as [out' [E' [_ [C _]]]].
  rewrite E in E'. injection E' as <-.
  rewrite !has_column_In, C. apply In_fold_add_label.
Qed.

(** X6. Saving what [preprocess_data] returned succeeds exactly when the
    raw frame had the label column. [preprocess_data] does not read
    [Class], so a raw frame without it is preprocessed without complaint;
    [save_processed_data] then writes the cleaned file and answers
    [False]. *)
Theorem saving_preprocessed_data_needs_the_label g df out (w : world model) :
  preprocess_data g df = Ok out ->
  (fst (save_processed_data out w) = Ok true <-> has_column df "Class" = true) /\
  (fst (save_processed_data out w) = Ok false <-> has_column df "Class" = false).
Proof.
  intros E.
  destruct (preprocess_data_Ok_inv g df out E) as [HT [HA _]].
  assert (K : (forall c, In c essential_columns -> has_column out c = true)
              <-> has_column df "Class" = true).
  { split.
    - intros H.
      assert (C : has_column out "Class" = true)
        by (apply H; unfold essential_columns; simpl; tauto).
      apply (has_column_preprocessed g df out "Class" E) in C.
      destruct C as [C | C]; [exact C |].
      simpl in C. intuition discriminate.
    - intros C c Hc. apply (has_column_preprocessed g df out c E).
      unfold essential_columns in Hc. simpl in Hc.
      destruct Hc as [<- | [<- | Hc]]; [simpl; tauto | now left |].
      repeat (destruct Hc as [<- | Hc];
              [first [now left | simpl; tauto] |]).
      destruct Hc. }
  pose proof (save_processed_data_spec out w) as S.
  destruct (getitems out essential_columns) as [v | e] eqn:G.
  - destruct S as [w' [-> _]]. simpl.
    apply getitems_Ok_inv in G. destruct G as [_ H].
    apply K in H. rewrite H. split; split; auto; discriminate.
  - destruct S as [w' [-> _]]. simpl.
    apply getitems_Raise_inv in G. destruct G as [n [Hn Hc]].
    assert (N : has_column df "Class" = false).
    { destruct (has_column df "Class") eqn:C; [| reflexivity].
      rewrite (proj2 K eq_refl n Hn) in Hc. discriminate. }
    rewrite N. split; split; auto; discriminate.
Qed.

End SaveProcessedData.

Lemma saving_preprocessed_data_needs_the_label_witness :
  exists out,
    data_cleaning.preprocess_data (data_cleaning.run_as_main 0 0)
      fixtures.unlabelled_row = Ok out /\
    fst (data_cleaning.save_processed_data out
           (@fixtures.blank_world unit [])) = Ok false.
Proof.
  destruct unlabelled_row_columns as [HT [HA HV]].
  destruct (preprocess_data_Ok (data_cleaning.run_as_main 0 0)
              fixtures.unlabelled_row _ HT HA HV eq_refl) as [out [E _]].
  exists out. split; [exact E |].
  apply (proj2 (saving_preprocessed_data_needs_the_label
                  (data_cleaning.run_as_main 0 0) fixtures.unlabelled_row out
                  (@fixtures.blank_world unit []) E)).
  reflexivity.
Defined.

(* ===================================================================== *)
(** * model_training: what [load_prepared_data] and [main] can do *)
(* ===================================================================== *)

Section LoadingAndMain.
Import config data_cleaning model_training fixtures.
Context {RS : RandomState} {SY : Synthesiser} {ES : Estimators}.

(** With the cleaned file in place, it is what [load_prepared_data]
    returns. *)
Lemma load_prepared_data_present (w : world model) (df : DataFrame) :
  read_file CLEANED_DATA_FILE (files w) = Some (Csv df) ->
  exists w', load_prepared_data w = (Ok df, w') /\ files w' = files w.
Proof.
  intros H.
  unfold load_prepared_data, try_except, bind, logging, read_csv, ret. simpl.
  rewrite H. simpl. eauto.
Qed.

(** Called from the imported module, [preprocess_data] never returns. *)
Lemma preprocess_data_imported (raw : DataFrame) :
  exists e, preprocess_data imported raw = Raise e.
Proof.
  destruct (preprocess_data imported raw) as [out | e] eqn:P; [| eauto].
  destruct (preprocess_data_Ok_inv _ _ _ P) as (_ & _ & _ & u & Hu).
  discriminate.
Qed.

(** Without a readable cleaned file, [load_prepared_data] raises and
    writes nothing. *)
Lemma load_prepared_data_absent (w : world model) :
  (forall df, read_file CLEANED_DATA_FILE (files w) <> Some (Csv df)) ->
  exists e w', load_prepared_data w = (Raise e, w') /\ files w' = files w.
Proof.
  intros H.
  unfold load_prepared_data, load_raw_data, try_except, bind, logging,
    read_csv, lift, raise, ret, to_csv, save. simpl.
  destruct (read_file CLEANED_DATA_FILE (files w)) as [[df | | | | |] |] eqn:C;
    simpl; try (do 2 eexists; split; reflexivity).
  - exfalso. now apply (H df).
  - destruct (read_file RAW_DATA_FILE (files w)) as [[raw | | | | |] |];
      simpl; try (do 2 eexists; split; reflexivity).
    destruct (preprocess_data_imported raw) as [e ->]. simpl.
    do 2 eexists; split; reflexivity.
Qed.

(** X7. [load_prepared_data] returns a frame exactly when the cleaned file
    holds it, and in no case writes a file: the fallback on the raw data
    can only raise, because [preprocess_data], called from the imported
    module, never returns. *)
Theorem load_prepared_data_never_writes (w : world model) :
  files (snd (load_prepared_data w)) = files w /\
  (forall df,
     fst (load_prepared_data w) = Ok df <->
     read_file CLEANED_DATA_FILE (files w) = Some (Csv df)).
Proof.
  destruct (read_file CLEANED_DATA_FILE (files w)) as [[df0 | | | | |] |] eqn:C.
  1:{ destruct (load_prepared_data_present w df0 C) as [w' [-> F]]. simpl.
      split; [exact F |]. intros df. split; congruence. }
  all: destruct (load_prepared_data_absent w) as [e [w' [E F]]];
    [ intros df; rewrite C; discriminate
    | rewrite E; simpl; split; [exact F |];
      intros df; split; discriminate ].
Qed.



(** X10. Without the cleaned file the training script does nothing but
    log: whatever else the disk holds (the raw file or not), [main]
    returns without a run and no file is written or changed. *)
Theorem main_needs_the_cleaned_file (w : world model) :
  read_file CLEANED_DATA_FILE (files w) = None ->
  fst (main w) = Ok None /\ files (snd (main w)) = files w.
Proof.
  intros C.
  assert (R : exists w', main w = (Ok None, w') /\ files w' = files w).
  { unfold main, pipeline, try_except, bind. simpl.
    match goal with
    | |- context [load_prepared_data ?w0] =>
        destruct (load_prepared_data_absent w0) as [e [w1 [E F]]];
          [ intros df; simpl; rewrite C; discriminate | rewrite E ]
    end.
    simpl in F |- *. eexists. split; [reflexivity | exact F]. }
  destruct R as [w' [-> F]]. split; [reflexivity | exact F].
Qed.

End LoadingAndMain.

Lemma main_needs_the_cleaned_file_witness :
  fst (@model_training.main fixtures.identity_rng fixtures.blank_synthesiser
         fixtures.no_failure
         (fixtures.blank_world [(config.RAW_DATA_FILE, Csv fixtures.unit_row)]))
  = Ok None.
Proof.
  exact (proj1 (@main_needs_the_cleaned_file fixtures.identity_rng
                  fixtures.blank_synthesiser fixtures.no_failure
                  (fixtures.blank_world
                     [(config.RAW_DATA_FILE, Csv fixtures.unit_row)])
                  eq_refl)).
Defined.

(* ===================================================================== *)
(** * model_training: how the stages fail *)
(* ===================================================================== *)

Section StageFailures.
Import config data_cleaning model_training fixtures sklearn.
Context {RS : RandomState} {SY : Synthesiser} {ES : Estimators}.

(** X11. The balancer needs both classes. It reads [class_counts[0]], then
    [class_counts[1]], before any resampling: a training set without a
    legitimate row raises [KeyError: 0], a training set with legitimate
    rows and no fraud raises [KeyError: 1]. *)
Theorem balancer_needs_both_classes (train : Dataset) (w : world model) :
  (count_class (Int 0) (samples train) = 0 ->
   fst (handle_imbalanced_data train w) = Raise (KeyError ["0"])) /\
  (count_class (Int 0) (samples train) <> 0 ->
   count_class (Int 1) (samples train) = 0 ->
   fst (handle_imbalanced_data train w) = Raise (KeyError ["1"])).
Proof.
  split.
  - intros H0.
    unfold handle_imbalanced_data, bind, lift, logging, class_count.
    cbv beta iota zeta. rewrite H0. reflexivity.
  - intros H0 H1.
    unfold handle_imbalanced_data, bind, lift, logging, class_count.
    cbv beta iota zeta.
    destruct (count_class (Int 0) (samples train)) as [|n]; [congruence |].
    cbv beta iota zeta. rewrite H1. reflexivity.
Qed.

(** X12. [prepare_train_test_split] raises for two reasons only, a frame
    without the column [Class] ([KeyError]) or a split that scikit-learn
    refuses, and in both cases no file was written: the train and test
    files are written together, after the split, or not at all. *)
Theorem failed_split_writes_nothing (df : DataFrame) (w w' : world model) e :
  prepare_train_test_split df w = (Raise e, w') ->
  files w' = files w /\
  ((has_column df "Class" = false /\ e = KeyError ["Class"]) \/
   exists features,
     drop df "Class" = Ok features /\
     stratified_split TEST_SIZE RANDOM_STATE
       (to_samples features (column df "Class")) = Raise e).
Proof.
  unfold prepare_train_test_split, bind, lift, logging, to_csv, save, ret.
  simpl.
  destruct (drop df "Class") as [features | e0] eqn:D; simpl.
  - rewrite (getitem_has _ _ (drop_has _ _ _ D)). simpl.
    destruct (stratified_split TEST_SIZE RANDOM_STATE
                (to_samples features (column df "Class")))
      as [[train test] | e1] eqn:S; simpl; intros E; [discriminate |].
    injection E as <- <-. split; [reflexivity |]. right. eauto.
  - intros E. injection E as <- <-. split; [reflexivity |]. left.
    unfold drop in D. destruct (has_column df "Class"); [discriminate |].
    injection D as <-. auto.
Qed.

End StageFailures.

Lemma balancer_needs_both_classes_witness :
  fst (model_training.handle_imbalanced_data
         (RS := fixtures.identity_rng) (SY := fixtures.blank_synthesiser)
         (ES := fixtures.no_failure)
         (fixtures.labelled 0 3) (fixtures.blank_world []))
  = Raise (KeyError ["0"]) /\
  fst (model_training.handle_imbalanced_data
         (RS := fixtures.identity_rng) (SY := fixtures.blank_synthesiser)
         (ES := fixtures.no_failure)
         (fixtures.labelled 3 0) (fixtures.blank_world []))
  = Raise (KeyError ["1"]).
Proof.
  split.
  - apply (proj1 (balancer_needs_both_classes
                    (RS := fixtures.identity_rng)
                    (SY := fixtures.blank_synthesiser)
                    (ES := fixtures.no_failure)
                    (fixtures.labelled 0 3) (fixtures.blank_world []))).
    reflexivity.
  - apply (proj2 (balancer_needs_both_classes
                    (RS := fixtures.identity_rng)
                    (SY := fixtures.blank_synthesiser)
                    (ES := fixtures.no_failure)
                    (fixtures.labelled 3 0) (fixtures.blank_world []))).
    + vm_compute. discriminate.
    + reflexivity.
Defined.

Lemma failed_split_writes_nothing_witness :
  files (snd (model_training.prepare_train_test_split
                (RS := fixtures.identity_rng) (ES := fixtures.no_failure)
                (mkFrame 0 []) (fixtures.blank_world [])))
  = [].
Proof.
  destruct (model_training.prepare_train_test_split
              (RS := fixtures.identity_rng) (ES := fixtures.no_failure)
              (mkFrame 0 []) (fixtures.blank_world []))
    as [[r | e] w'] eqn:E.
  - vm_compute in E. discriminate.
  - exact (proj1 (failed_split_writes_nothing _ _ _ _ E)).
Defined.

(* ===================================================================== *)
(** * model_training: what training leaves on disk *)
(* ===================================================================== *)

Section TrainingFiles.
Import config model_training fixtures.
Context {RS : RandomState} {SY : Synthesiser} {ES : Estimators}.
Local Open Scope Q_scope.

(** Decreasing importance. *)
Let decreasing (a b : string * Q) : Prop := snd b <= snd a.

Lemma insert_by_importance_perm (r : string * Q) (l : list (string * Q)) :
  Permutation (insert_by_importance r l) (r :: l).
Proof.
  induction l as [|h t IH]; simpl; auto.
  destruct (Qle_bool (snd h) (snd r)); auto.
  rewrite IH. apply perm_swap.
Qed.

Lemma insert_by_importance_sorted (r : string * Q) (l : list (string * Q)) :
  StronglySorted decreasing l ->
  StronglySorted decreasing (insert_by_importance r l).
Proof.
  induction l as [|h t IH]; simpl; intros S.
  - repeat constructor.
  - apply StronglySorted_inv in S. destruct S as [St Fh].
    destruct (Qle_bool (snd h) (snd r)) eqn:E.
    + apply Qle_bool_iff in E. constructor.
      * constructor; assumption.
      * constructor; [exact E |].
        eapply Forall_impl; [| exact Fh].
        intros a Ha. unfold decreasing in *. eapply Qle_trans; eauto.
    + assert (L : snd r < snd h).
      { apply Qnot_le_lt. intros C. apply Qle_bool_iff in C. congruence. }
      constructor; [apply IH; exact St |].
      apply (Permutation_Forall (Permutation_sym (insert_by_importance_perm r t))).
      constructor; [apply Qlt_le_weak; exact L | exact Fh].
Qed.

Lemma sort_values_desc_perm (l : list (string * Q)) :
  Permutation (sort_values_desc l) l.
Proof.
  induction l as [|r l IH]; simpl; auto.
  rewrite insert_by_importance_perm. now constructor.
Qed.

Lemma sort_values_desc_sorted (l : list (string * Q)) :
  StronglySorted decreasing (sort_values_desc l).
Proof.
  induction l as [|r l IH]; simpl.
  - constructor.
  - now apply insert_by_importance_sorted.
Qed.

Lemma append_inj_l (a b c : string) : a +++ b = a +++ c -> b = c.
Proof.
  induction a as [|ch a IH]; simpl; intros E; [exact E |].
  injection E as E. auto.
Qed.

(** X15. For a model that has [feature_importances_], one importance per
    selected feature, the importance file that a turn of the training loop
    writes holds every pair of [zip(selected_features, importances)] once,
    ranked by decreasing importance. *)
Theorem importance_file_is_a_sorted_ranking (d : Dataset) (sel : list string)
  acc (name : string) (w w' : world model) trained (m : model) (imp : list Q) :
  train_one d sel acc name w = (Ok trained, w') ->
  fit name d = Ok m ->
  feature_importances_ m = Some imp ->
  List.length imp = List.length sel ->
  exists ranking,
    read_file ("model_analysis/" +++ name +++ "_feature_importance.csv")
      (files w') = Some (ImportanceCsv ranking) /\
    Permutation ranking (combine sel imp) /\
    StronglySorted (fun a b => snd b <= snd a) ranking.
Proof.
  intros E F I L. revert E.
  unfold train_one, bind, lift, logging, save, ret. simpl.
  destruct (cross_val_score name d) as [s | e]; simpl; [| discriminate].
  rewrite F. simpl. rewrite I. simpl.
  rewrite (feature_table_Ok sel imp L). simpl.
  intros E. injection E as _ <-. cbn [files].
  exists (sort_values_desc (combine sel imp)).
  split; [| split; [apply sort_values_desc_perm | apply sort_values_desc_sorted]].
  rewrite read_write_other.
  - apply read_write_same.
  - intros C. apply (append_inj_l "model_analysis/") in C.
    apply append_inj_l in C. discriminate.
Qed.

Lemma NoDup_model_names : NoDup model_names.
Proof.
  unfold model_names. repeat constructor; simpl; intuition discriminate.
Qed.

Lemma length_append (a b : string) :
  String.length (a +++ b) = (String.length a + String.length b)%nat.
Proof. induction a as [|c a IH]; simpl; congruence. Qed.

Lemma append_inj_r (a b s : string) : a +++ s = b +++ s -> a = b.
Proof.
  revert b. induction a as [|c a IH]; intros [|c' b] E; simpl in E.
  - reflexivity.
  - apply (f_equal String.length) in E. simpl in E.
    rewrite length_append in E. lia.
  - apply (f_equal String.length) in E. simpl in E.
    rewrite length_append in E. lia.
  - injection E as -> E. f_equal. auto.
Qed.

Lemma pickle_path_inj (a b : string) :
  "models/" +++ a +++ ".pkl" = "models/" +++ b +++ ".pkl" -> a = b.
Proof.
  intros E. apply (append_inj_l "models/") in E.
  now apply append_inj_r in E.
Qed.

(** The file of a model family. *)
Let pkl (name : string) : string := "models/" +++ name +++ ".pkl".

(** A model family trains when its cross-validation and its fit return and
    the fitted model, if it has importances, has one per selected
    feature. *)
Let trains (d : Dataset) (sel : list string) (name : string) (m : model)
  : Prop :=
  fit name d = Ok m /\
  (exists s, cross_val_score name d = Ok s) /\
  (forall imp, feature_importances_ m = Some imp ->
               List.length imp = List.length sel).

(** The three ways a model family fails with [e], and what each does to the
    file of the family ([before] the call, [after] it): the
    cross-validation raises [e], or the fit raises [e], and the file is as
    it was; or the model was fitted and saved, and the importance table
    raises, the importances being not one per selected feature. *)
Let fails (d : Dataset) (sel : list string) (name : string) (e : exn)
  (before after : option (artifact model)) : Prop :=
  (cross_val_score name d = Raise e /\ after = before) \/
  ((exists s, cross_val_score name d = Ok s) /\
   fit name d = Raise e /\ after = before) \/
  ((exists s, cross_val_score name d = Ok s) /\
   exists m imp,
     fit name d = Ok m /\ feature_importances_ m = Some imp /\
     List.length imp <> List.length sel /\
     e = ValueError "All arrays must be of the same length" /\
     after = Some (Pickle m)).

(** What one turn of the training loop returns and leaves under
    [models/]. *)
Lemma train_one_outcome (d : Dataset) (sel : list string) acc (name : string)
  (w : world model) :
  match train_one d sel acc name w with
  | (Ok trained, w') =>
      exists m,
        trained = acc ++ [(name, m)] /\ trains d sel name m /\
        read_file (pkl name) (files w') = Some (Pickle m)
  | (Raise e, w') =>
      fails d sel name e (read_file (pkl name) (files w))
        (read_file (pkl name) (files w'))
  end /\
  forall n, n <> name ->
    read_file (pkl n) (files (snd (train_one d sel acc name w)))
    = read_file (pkl n) (files w).
Proof.
  assert (P : forall n, n <> name -> pkl name <> pkl n).
  { intros n D C. apply pickle_path_inj in C. congruence. }
  unfold train_one, trains, fails, bind, lift, logging, save, ret. cbv beta iota zeta; cbn [fst snd files].
  destruct (cross_val_score name d) as [s | e] eqn:C; cbv beta iota zeta; cbn [fst snd files].
  2:{ auto. }
  destruct (fit name d) as [m | e] eqn:F; cbv beta iota zeta; cbn [fst snd files].
  2:{ split; [right; left; eauto | auto]. }
  destruct (feature_importances_ m) as [imp |] eqn:I; cbv beta iota zeta; cbn [fst snd files].
  2:{ split.
      - exists m. split; [reflexivity |]. split.
        + split; [reflexivity |]. split; [eauto |].
          intros imp' H. rewrite I in H. discriminate.
        + apply read_write_same.
      - intros n D. apply read_write_other. exact (P n D). }
  destruct (Nat.eq_dec (List.length imp) (List.length sel)) as [L | L].
  - rewrite (feature_table_Ok sel imp L). cbv beta iota zeta; cbn [fst snd files]. split.
    + exists m. split; [reflexivity |]. split.
      * split; [reflexivity |]. split; [eauto |].
        intros imp' H. rewrite I in H. now injection H as <-.
      * rewrite !read_write_other by discriminate. apply read_write_same.
    + intros n D. rewrite !read_write_other by discriminate.
      apply read_write_other. exact (P n D).
  - rewrite (feature_table_Raise sel imp L). cbv beta iota zeta; cbn [fst snd files]. split.
    + right. right. split; [eauto |]. exists m, imp.
      repeat split; auto. apply read_write_same.
    + intros n D. apply read_write_other. exact (P n D).
Qed.

(** What the training loop returns and leaves under [models/]. *)
Lemma train_loop_outcome (d : Dataset) (sel names : list string) :
  forall acc (w : world model),
    NoDup names ->
    match train_loop d sel names acc w with
    | (Ok trained, w') =>
        exists ms,
          trained = acc ++ ms /\ map fst ms = names /\
          Forall (fun nm => trains d sel (fst nm) (snd nm)) ms /\
          (forall n m, In (n, m) ms ->
             read_file (pkl n) (files w') = Some (Pickle m)) /\
          (forall n, ~ In n names ->
             read_file (pkl n) (files w') = read_file (pkl n) (files w))
    | (Raise e, w') =>
        exists before name after ms,
          names = before ++ name :: after /\
          map fst ms = before /\
          Forall (fun nm => trains d sel (fst nm) (snd nm)) ms /\
          (forall n m, In (n, m) ms ->
             read_file (pkl n) (files w') = Some (Pickle m)) /\
          fails d sel name e (read_file (pkl name) (files w))
            (read_file (pkl name) (files w')) /\
          (forall n, ~ In n (before ++ [name]) ->
             read_file (pkl n) (files w') = read_file (pkl n) (files w))
    end.
Proof.
  induction names as [|name rest IH]; intros acc w ND.
  - simpl. exists []. rewrite app_nil_r. repeat split; auto.
    intros n m [].
  - inversion ND as [|? ? Hn ND']; subst.
    simpl. unfold bind at 1.
    destruct (train_one_outcome d sel acc name w) as [T K].
    destruct (train_one d sel acc name w) as [[acc1 | e] w1].
    + destruct T as [m [-> [Tm R0]]]. simpl in K.
      specialize (IH (acc ++ [(name, m)]) w1 ND').
      destruct (train_loop d sel rest (acc ++ [(name, m)]) w1)
        as [[trained | e] w2].
      * destruct IH as [ms [-> [Hm [Hf [Hp Hu]]]]].
        exists ((name, m) :: ms). rewrite <- app_assoc.
        split; [reflexivity |]. split; [simpl; now rewrite Hm |].
        split; [now constructor |]. split.
        -- intros n m' [H | H]; [| now apply Hp].
           injection H as <- <-. now rewrite (Hu name Hn).
        -- intros n H. rewrite Hu by (intros C; apply H; now right).
           apply K. intros ->. apply H. now left.
      * destruct IH as (before & nm & after & ms & Hr & Hm & Hf & Hp & He & Hu).
        assert (Nn : ~ In name (before ++ [nm])).
        { intros C. apply Hn. rewrite Hr.
          apply in_app_or in C. apply in_or_app.
          destruct C as [C | [<- | []]]; [now left | right; now left]. }
        assert (Dn : nm <> name).
        { intros ->. apply Nn, in_or_app. right. now left. }
        exists (name :: before), nm, after, ((name, m) :: ms).
        split; [simpl; now rewrite Hr |]. split; [simpl; now rewrite Hm |].
        split; [now constructor |]. split.
        -- intros n m' [H | H]; [| now apply Hp].
           injection H as <- <-. now rewrite (Hu name Nn).
        -- split.
           ++ now rewrite <- (K nm Dn).
           ++ intros n H. rewrite Hu by (intros C; apply H; now right).
              apply K. intros ->. apply H. now left.
    + simpl in K. exists [], name, rest, [].
      split; [reflexivity |]. split; [reflexivity |].
      split; [constructor |]. split; [intros n m [] |].
      split; [exact T |].
      intros n H. apply K. intros ->. apply H. now left.
Qed.

(** X16. When [train_models] returns, every model it returns is pickled
    under its own name: [models/<name>.pkl] holds the fitted model, and
    the later turns of the loop have not overwritten it. *)
Theorem trained_models_are_pickled (d : Dataset) (sel : list string)
  (w w' : world model) trained :
  train_models d sel w = (Ok trained, w') ->
  forall name m,
    In (name, m) trained ->
    read_file ("models/" +++ name +++ ".pkl") (files w') = Some (Pickle m).
Proof.
  unfold train_models. intros E.
  apply bind_Ok in E. destruct E as [u [w1 [_ E]]].
  pose proof (train_loop_outcome d sel model_names [] w1 NoDup_model_names)
    as L.
  rewrite E in L. destruct L as [ms [-> [_ [_ [P _]]]]]. exact P.
Qed.

(** C3, as the code has it. [train_models] has no handler around a model
    family. When it returns, it returns the three fitted models, in the
    order of the dict, all three trained, and each is saved under its own
    name. Otherwise one family failed, and [train_models] raises the
    exception of the first family that fails: its cross-validation or its
    fit raised, or the importances of its fitted model are not one per
    selected feature. The families before that one have been fitted and
    saved; the families after it are not trained, and their model files
    are as they were before the call. The failure of one family is the
    failure of the stage. *)
Theorem train_models_stops_at_first_failure (d : Dataset)
  (sel : list string) (w : world model) :
  match train_models d sel w with
  | (Ok trained, w') =>
      map fst trained = model_names /\
      Forall (fun nm => trains d sel (fst nm) (snd nm)) trained /\
      (forall name m, In (name, m) trained ->
         read_file (pkl name) (files w') = Some (Pickle m))
  | (Raise e, w') =>
      exists before name after ms,
        model_names = before ++ name :: after /\
        fails d sel name e (read_file (pkl name) (files w))
          (read_file (pkl name) (files w')) /\
        map fst ms = before /\
        Forall (fun nm => trains d sel (fst nm) (snd nm)) ms /\
        (forall n m, In (n, m) ms ->
           read_file (pkl n) (files w') = Some (Pickle m)) /\
        (forall n, In n after ->
           read_file (pkl n) (files w') = read_file (pkl n) (files w))
  end.
Proof.
  unfold train_models. unfold bind at 1. unfold logging at 1.
  match goal with
  | |- context [train_loop d sel model_names [] ?w1] =>
      pose proof (train_loop_outcome d sel model_names [] w1
                    NoDup_model_names) as L;
      destruct (train_loop d sel model_names [] w1) as [[trained | e] w']
  end; cbn [files] in L.
  - destruct L as [ms [-> [Hm [Hf [Hp _]]]]]. simpl. auto.
  - destruct L as (before & name & after & ms & Hn & Hm & Hf & Hp & He & Hu).
    exists before, name, after, ms.
    repeat split; auto.
    intros n H. apply Hu. intros C.
    pose proof NoDup_model_names as ND. rewrite Hn in ND.
    replace (before ++ name :: after) with ((before ++ [name]) ++ after) in ND
      by (now rewrite <- app_assoc).
    clear -ND H C. induction (before ++ [name]) as [|a l IH]; [destruct C |].
    simpl in ND. inversion ND as [|? ? Na ND']; subst.
    destruct C as [-> | C]; [| auto].
    apply Na, in_or_app. now right.
Qed.

End TrainingFiles.

Lemma importance_file_is_a_sorted_ranking_witness :
  exists ranking,
    read_file "model_analysis/random_forest_feature_importance.csv"
      (files (snd (model_training.train_one (ES := fixtures.ranked_estimators)
                     (mkDataset ["V1"; "V2"] []) ["V1"; "V2"] []
                     "random_forest" (fixtures.blank_world []))))
    = Some (ImportanceCsv ranking) /\
    Permutation ranking [("V1", (1 # 4)%Q); ("V2", (3 # 4)%Q)] /\
    StronglySorted (fun a b => (snd b <= snd a)%Q) ranking.
Proof.
  destruct (model_training.train_one (ES := fixtures.ranked_estimators)
              (mkDataset ["V1"; "V2"] []) ["V1"; "V2"] [] "random_forest"
              (fixtures.blank_world []))
    as [[trained | e] w'] eqn:E.
  - exact (importance_file_is_a_sorted_ranking
             (ES := fixtures.ranked_estimators)
             (mkDataset ["V1"; "V2"] []) ["V1"; "V2"] [] "random_forest"
             (fixtures.blank_world []) w' trained "random_forest"
             [(1 # 4)%Q; (3 # 4)%Q] E eq_refl eq_refl eq_refl).
  - vm_compute in E. discriminate.
Defined.

Lemma trained_models_are_pickled_witness :
  read_file "models/random_forest.pkl"
    (files (snd (model_training.train_models (ES := fixtures.no_failure)
                   (fixtures.labelled 1 1) ["V1"] (fixtures.blank_world []))))
  = Some (Pickle "random_forest").
Proof.
  destruct (model_training.train_models (ES := fixtures.no_failure)
              (fixtures.labelled 1 1) ["V1"] (fixtures.blank_world []))
    as [[trained | e] w'] eqn:E.
  - refine (trained_models_are_pickled (ES := fixtures.no_failure) _ _ _ _ _ E
              "random_forest" "random_forest" _).
    vm_compute in E. injection E as <- _. simpl. tauto.
  - vm_compute in E. discriminate.
Defined.

(* ===================================================================== *)
(** * model_training: the partitions on disk and the exports *)
(* ===================================================================== *)

Section PartitionsAndExports.
Import config model_training fixtures sklearn.
Context {RS : RandomState} {SY : Synthesiser} {ES : Estimators}.

Lemma lookup_app_other (n : string) (l1 l2 : list (string * list cell)) :
  ~ In n (map fst l1) -> lookup n (l1 ++ l2) = lookup n l2.
Proof.
  induction l1 as [|[k v] l1 IH]; simpl; intros H; [reflexivity |].
  destruct (String.eqb k n) eqn:E.
  - apply String.eqb_eq in E. tauto.
  - apply IH. tauto.
Qed.

Lemma filter_other_labels (n : string) (l : list (string * list cell)) :
  ~ In n (map fst l) ->
  filter (fun c => negb (String.eqb (fst c) n)) l = l.
Proof.
  induction l as [|[k v] l IH]; simpl; intros H; [reflexivity |].
  destruct (String.eqb k n) eqn:E.
  - apply String.eqb_eq in E. tauto.
  - simpl. f_equal. apply IH. tauto.
Qed.

(** A frame [reads back] a set when its label column is the labels of the
    set and the rows of its other columns are the features of the set, in
    the same order. *)
Let reads_back (saved : DataFrame) (part : Dataset) : Prop :=
  exists features,
    drop saved "Class" = Ok features /\
    columns features = feature_names part /\
    getitem saved "Class" = Ok (map y (samples part)) /\
    map (fun s => (x s, y s)) (to_samples features (map y (samples part)))
    = map (fun s => (x s, y s)) (samples part).

Lemma concat_xy_reads_back (d : Dataset) :
  ~ In "Class" (feature_names d) ->
  (forall s, In s (samples d) ->
             List.length (x s) = List.length (feature_names d)) ->
  reads_back (concat_xy d) d.
Proof.
  intros NC W.
  set (fcols := map (fun j => (nth j (feature_names d) "",
                               map (fun s => nth j (x s) (Float 0)) (samples d)))
                  (seq 0 (List.length (feature_names d)))).
  assert (Fn : map fst fcols = feature_names d).
  { unfold fcols. rewrite map_map. simpl. apply map_nth_positions. }
  assert (L : lookup "Class" (cols (concat_xy d)) = Some (map y (samples d))).
  { unfold concat_xy. simpl. fold fcols.
    rewrite lookup_app_other by (now rewrite Fn). reflexivity. }
  exists (mkFrame (List.length (samples d)) fcols).
  split.
  { unfold drop, has_column. rewrite L. unfold concat_xy. simpl. fold fcols.
    rewrite filter_app, filter_other_labels by (now rewrite Fn).
    simpl. now rewrite app_nil_r. }
  split; [exact Fn |].
  split; [unfold getitem; now rewrite L |].
  unfold to_samples. simpl. rewrite map_map. simpl.
  transitivity
    (map (fun s => (x s, y s))
       (map (fun i => nth i (samples d) default_sample)
          (seq 0 (List.length (samples d)))));
    [| now rewrite map_nth_positions].
  rewrite map_map. apply map_ext_in. intros i Hi. apply in_seq in Hi.
  assert (Si : In (nth i (samples d) default_sample) (samples d))
    by (apply nth_In; lia).
  f_equal.
  - unfold row_at, fcols. rewrite !map_map. simpl.
    rewrite <- (map_nth_positions (Float 0) (x (nth i (samples d) default_sample))).
    rewrite (W _ Si). apply map_ext. intros j.
    rewrite (nth_indep _ (Float 0)
               (nth j (x default_sample) (Float 0)))
      by (rewrite length_map; lia).
    now rewrite (map_nth (fun s => nth j (x s) (Float 0))).
  - change (Int 0) with (y default_sample). apply map_nth.
Qed.

Lemma to_samples_width (features : DataFrame) (target : list cell)
  (idx : list nat) (s : sample) :
  (forall i, In i idx -> i < nrows features) ->
  In s (take (to_samples features target) idx) ->
  List.length (x s) = List.length (columns features).
Proof.
  intros R H. unfold take in H. apply in_map_iff in H.
  destruct H as [i [<- Hi]]. specialize (R i Hi).
  unfold to_samples.
  set (f := fun i => mkSample (Original i)
                       (row_at (map snd (cols features)) i)
                       (nth i target (Int 0))).
  rewrite (nth_indep _ default_sample (f 0))
    by (rewrite length_map, length_seq; auto).
  rewrite (map_nth f), seq_nth by auto.
  unfold f, row_at, columns. simpl. now rewrite !length_map.
Qed.

Lemma split_parts (df : DataFrame) (w w' : world model) (train test : Dataset) :
  prepare_train_test_split df w = (Ok (train, test), w') ->
  feature_names test = feature_names train /\
  ~ In "Class" (feature_names train) /\
  (forall s, In s (samples train ++ samples test) ->
             List.length (x s) = List.length (feature_names train)) /\
  read_file TRAIN_DATA_FILE (files w') = Some (Csv (concat_xy train)) /\
  read_file TEST_DATA_FILE (files w') = Some (Csv (concat_xy test)).
Proof.
  intros E. apply prepare_train_test_split_inv in E.
  destruct E as (features & tr & te & D & St & -> & -> & Fw).
  destruct (stratified_split_spec _ _ _ _ _ St) as [_ [_ [Pm _]]].
  rewrite to_samples_length in Pm.
  assert (Rg : forall i, In i (tr ++ te) -> i < nrows features).
  { intros i Hi. now apply (Permutation_in _ Pm), in_seq in Hi. }
  simpl. split; [reflexivity |]. split.
  { rewrite (drop_columns _ _ _ D). intros C. apply filter_In in C.
    destruct C as [_ C]. now rewrite String.eqb_refl in C. }
  split.
  { intros s Hs. apply in_app_or in Hs. destruct Hs as [Hs | Hs].
    - apply (to_samples_width features (column df "Class") tr); auto.
      intros i Hi. apply Rg, in_or_app. now left.
    - apply (to_samples_width features (column df "Class") te); auto.
      intros i Hi. apply Rg, in_or_app. now right. }
  rewrite Fw. split.
  - rewrite read_write_other by discriminate. apply read_write_same.
  - apply read_write_same.
Qed.

(** X17. The two files that [prepare_train_test_split] writes read back
    as the partitions it returns: in each file the column [Class] holds
    the labels of the partition, and the rows of the other columns are its
    feature rows, in the same order and under the same column names. *)
Theorem saved_partitions_read_back (df : DataFrame) (w w' : world model)
  (train test : Dataset) :
  prepare_train_test_split df w = (Ok (train, test), w') ->
  exists train_df test_df,
    read_file TRAIN_DATA_FILE (files w') = Some (Csv train_df) /\
    read_file TEST_DATA_FILE (files w') = Some (Csv test_df) /\
    reads_back train_df train /\ reads_back test_df test.
Proof.
  intros E. apply split_parts in E.
  destruct E as (Fn & NC & W & Rtr & Rte).
  exists (concat_xy train), (concat_xy test).
  split; [exact Rtr |]. split; [exact Rte |]. split.
  - apply concat_xy_reads_back; [exact NC |].
    intros s Hs. apply W, in_or_app. now left.
  - apply concat_xy_reads_back; rewrite Fn; [exact NC |].
    intros s Hs. apply W, in_or_app. now right.
Qed.

Lemma filter_none {A} (f : A -> bool) (l : list A) :
  (forall a, In a l -> f a = false) -> filter f l = [].
Proof.
  induction l as [|a l IH]; simpl; intros H; [reflexivity |].
  rewrite (H a) by (now left). apply IH. intros b Hb. apply H. now right.
Qed.

(** X18. After a split the feature selection cannot fail: both partitions
    have the columns of the frame, so every selected column is in the test
    partition. The label is never among the selected features, and both
    selected sets have exactly one cell per selected feature on each row,
    with the labels of the partitions. *)
Theorem feature_selection_after_a_split (df : DataFrame) (w w1 : world model)
  (train test : Dataset) :
  prepare_train_test_split df w = (Ok (train, test), w1) ->
  forall w2,
    exists Xtr Xte sel w3,
      preprocess_features train test w2 = (Ok (Xtr, Xte, sel), w3) /\
      ~ In "Class" sel /\
      (forall s, In s (samples Xtr ++ samples Xte) ->
                 List.length (x s) = List.length sel) /\
      map y (samples Xtr) = map y (samples train) /\
      map y (samples Xte) = map y (samples test).
Proof.
  intros E w2. apply split_parts in E. destruct E as (Fn & NC & _).
  unfold preprocess_features, bind, logging, ret, raise. simpl.
  rewrite Fn.
  assert (F : filter (fun c => negb (string_in c (feature_names train)))
                (selected_features_of (feature_names train)) = []).
  { apply filter_none. intros c Hc.
    apply selected_features_of_In in Hc. destruct Hc as [Hc _].
    apply string_in_true in Hc. now rewrite Hc. }
  rewrite F. simpl. do 4 eexists. split; [reflexivity |].
  split.
  { intros C. apply selected_features_of_In in C. tauto. }
  split.
  { intros s Hs. apply in_app_or in Hs.
    destruct Hs as [Hs | Hs]; unfold select_columns in Hs;
      apply in_map_iff in Hs; destruct Hs as [s0 [<- _]]; simpl;
      now rewrite length_map. }
  split; apply select_columns_y.
Qed.

Lemma columns_concat_xy (d : Dataset) :
  columns (concat_xy d) = feature_names d ++ ["Class"].
Proof.
  unfold columns, concat_xy. simpl. rewrite map_app, map_map. simpl.
  now rewrite map_nth_positions.
Qed.

(** X19. The test file carries the label as its last column, and the
    selection rule, applied to the columns of the file (as the export
    script does on the file it reads), yields the features the models were
    trained on, in the same order: the label in the file does not change
    the selection. *)
Theorem test_file_yields_the_training_features (df : DataFrame)
  (w w' : world model) (train test : Dataset) :
  prepare_train_test_split df w = (Ok (train, test), w') ->
  exists test_df,
    read_file TEST_DATA_FILE (files w') = Some (Csv test_df) /\
    columns test_df = feature_names train ++ ["Class"] /\
    selected_features_of (columns test_df)
    = selected_features_of (feature_names train).
Proof.
  intros E. apply split_parts in E.
  destruct E as (Fn & _ & _ & _ & Rte).
  exists (concat_xy test). split; [exact Rte |].
  rewrite columns_concat_xy, Fn. split; [reflexivity |].
  unfold selected_features_of. rewrite filter_app. simpl.
  apply app_nil_r.
Qed.

Lemma flags_are_exclusive (p c : cell) :
  ~ (flag (cell_eqb p (Int 1) && cell_eqb c (Int 0)) = Int 1 /\
     flag (cell_eqb p (Int 0) && cell_eqb c (Int 1)) = Int 1).
Proof.
  unfold flag. intros [A B].
  destruct (cell_eqb p (Int 1)) eqn:E1; simpl in A; [| discriminate].
  destruct (cell_eqb p (Int 0)) eqn:E0; simpl in B; [| discriminate].
  apply cell_eqb_iff in E1, E0. simpl in E1, E0. lra.
Qed.

(** X20. The exports at the end of [main]. In the file for SQL the two
    error flags are 0 or 1 on every row and never both 1: no transaction
    is at once a false positive and a false negative. The file for Excel
    holds exactly the seven columns of [excel_columns], in that order,
    with the cells of the file for SQL. *)
Theorem exported_flags_are_exclusive models (name : string) (test : Dataset)
  (w w' : world model) (u : unit) :
  export_predictions models name test w = (Ok u, w') ->
  exists sql excel,
    read_file "exports/fraud_predictions_for_sql.csv" (files w')
    = Some (Csv sql) /\
    read_file "exports/fraud_predictions_for_excel.csv" (files w')
    = Some (Csv excel) /\
    Forall2 (fun fp fn => (fp = Int 0 \/ fp = Int 1) /\
                          (fn = Int 0 \/ fn = Int 1) /\
                          ~ (fp = Int 1 /\ fn = Int 1))
      (column sql "is_false_positive") (column sql "is_false_negative") /\
    columns excel = ["Time"; "Amount"; "Class"; "predicted_proba";
                     "predicted_class"; "is_false_positive";
                     "is_false_negative"] /\
    forall c, In c (columns excel) -> column excel c = column sql c.
Proof.
  unfold export_predictions. intros E.
  apply bind_Ok in E. destruct E as [m [w1 [_ E]]].
  apply bind_Ok in E. destruct E as [df [w2 [_ E]]]. cbv beta zeta in E.
  apply bind_Ok in E. destruct E as [class1 [w3 [C1 E]]]. cbv beta zeta in E.
  apply bind_Ok in E. destruct E as [class2 [w4 [C2 E]]]. cbv beta zeta in E.
  apply bind_Ok in E. destruct E as [u1 [w5 [S E]]].
  apply bind_Ok in E. destruct E as [ex [w6 [X E]]].
  unfold lift in C1, C2, X.
  injection C1 as C1 <-. injection C2 as C2 <-. injection X as X <-.
  unfold to_csv, save in S, E. injection S as _ <-. injection E as _ <-.
  rewrite getitem_setitem_other in C2 by discriminate.
  assert (class2 = class1) by congruence. subst class2.
  apply getitems_Ok_inv in X. destruct X as [-> _].
  cbn [files]. do 2 eexists.
  split; [rewrite read_write_other by discriminate; apply read_write_same |].
  split; [apply read_write_same |].
  split.
  { rewrite column_setitem_same.
    rewrite column_setitem_other by discriminate.
    rewrite column_setitem_same.
    apply Forall2_map_same. intros [p c] _. cbn [fst snd].
    pose proof (flags_are_exclusive p c) as Ex.
    unfold flag in *.
    destruct (cell_eqb p (Int 1) && cell_eqb c (Int 0)),
             (cell_eqb p (Int 0) && cell_eqb c (Int 1)); tauto. }
  split; [reflexivity |].
  intros c Hc.
  repeat (destruct Hc as [<- | Hc]; [reflexivity |]). destruct Hc.
Qed.

End PartitionsAndExports.

Lemma saved_partitions_read_back_witness :
  exists train test w' test_df,
    model_training.prepare_train_test_split
      (RS := fixtures.identity_rng) (ES := fixtures.no_failure)
      (fixtures.prepared 40 10) (fixtures.blank_world [])
    = (Ok (train, test), w') /\
    read_file config.TEST_DATA_FILE (files w') = Some (Csv test_df) /\
    getitem test_df "Class" = Ok (map y (samples test)).
Proof.
  destruct (model_training.prepare_train_test_split
              (RS := fixtures.identity_rng) (ES := fixtures.no_failure)
              (fixtures.prepared 40 10) (fixtures.blank_world []))
    as [[[train test] | e] w'] eqn:E.
  - pose proof (saved_partitions_read_back
                  (RS := fixtures.identity_rng) (ES := fixtures.no_failure)
                  _ _ _ _ _ E) as H.
    cbv beta zeta in H.
    destruct H as (train_df & test_df & _ & R & _ & features & _ & _ & G & _).
    exists train, test, w', test_df. auto.
  - vm_compute in E. discriminate.
Defined.

Lemma feature_selection_after_a_split_witness :
  exists train test w1 Xtr Xte sel w3,
    model_training.prepare_train_test_split
      (RS := fixtures.identity_rng) (ES := fixtures.no_failure)
      (fixtures.prepared 40 10) (fixtures.blank_world [])
    = (Ok (train, test), w1) /\
    model_training.preprocess_features (ES := fixtures.no_failure)
      train test (fixtures.blank_world [])
    = (Ok (Xtr, Xte, sel), w3) /\
    ~ In "Class" sel.
Proof.
  destruct (model_training.prepare_train_test_split
              (RS := fixtures.identity_rng) (ES := fixtures.no_failure)
              (fixtures.prepared 40 10) (fixtures.blank_world []))
    as [[[train test] | e] w1] eqn:E.
  - destruct (feature_selection_after_a_split
                (RS := fixtures.identity_rng) (ES := fixtures.no_failure)
                _ _ _ _ _ E (fixtures.blank_world []))
      as (Xtr & Xte & sel & w3 & P & NC & _).
    exists train, test, w1, Xtr, Xte, sel, w3. auto.
  - vm_compute in E. discriminate.
Defined.

Lemma exported_flags_are_exclusive_witness :
  exists sql,
    read_file "exports/fraud_predictions_for_sql.csv"
      (files (snd (model_training.export_predictions
                     (ES := fixtures.no_failure)
                     [("random_forest", "random_forest")] "random_forest"
                     (fixtures.labelled 1 1)
                     (fixtures.blank_world
                        [(config.TEST_DATA_FILE,
                          Csv (fixtures.prepared 1 1))]))))
    = Some (Csv sql) /\
    Forall2 (fun fp fn => ~ (fp = Int 1 /\ fn = Int 1))
      (column sql "is_false_positive") (column sql "is_false_negative").
Proof.
  destruct (model_training.export_predictions
              (ES := fixtures.no_failure)
              [("random_forest", "random_forest")] "random_forest"
              (fixtures.labelled 1 1)
              (fixtures.blank_world
                 [(config.TEST_DATA_FILE, Csv (fixtures.prepared 1 1))]))
    as [[u | e] w'] eqn:E.
  - destruct (exported_flags_are_exclusive (ES := fixtures.no_failure)
                _ _ _ _ _ _ E) as (sql & excel & R & _ & F & _).
    exists sql. split; [exact R |].
    revert F. apply Forall2_impl. intros a b H. tauto.
  - vm_compute in E. discriminate.
Defined.

(* ===================================================================== *)
(** * The raw file, the comparison file and the saved model *)
(* ===================================================================== *)

Section SavedModel.
Import config data_cleaning model_training fixtures.
Context {RS : RandomState} {SY : Synthesiser} {ES : Estimators}.

(** X21. [load_raw_data] returns the frame of the raw file when the file
    holds one. Otherwise it logs an error and raises the exception of
    [read_csv] again, [FileNotFoundError] exactly when the file is absent.
    It never writes a file. *)
Theorem load_raw_data_raises_again (w : world model) :
  match load_raw_data w with
  | (Ok df, w') =>
      read_file RAW_DATA_FILE (files w) = Some (Csv df) /\ files w' = files w
  | (Raise e, w') =>
      (forall df, read_file RAW_DATA_FILE (files w) <> Some (Csv df)) /\
      (e = FileNotFoundError RAW_DATA_FILE <->
       read_file RAW_DATA_FILE (files w) = None) /\
      last (log w') (INFO, "") = (ERROR, "Error loading raw data") /\
      files w' = files w
  end.
Proof.
  unfold load_raw_data, try_except, bind, logging, read_csv, raise, ret.
  simpl.
  destruct (read_file RAW_DATA_FILE (files w)) as [[df | | | | |] |]; simpl;
    try (split; [reflexivity | reflexivity]);
    (split; [intros df; discriminate |]);
    (split; [split; intros; (discriminate || reflexivity) |]);
    (split; [apply last_last | reflexivity]).
Qed.

(** X22. When [evaluate_models] returns, the comparison file holds the
    results it returns: one row per model of the dict, in the order of the
    dict, under the name of the model and with the metrics of its scoring
    on the test set. *)
Theorem comparison_file_lists_every_model models (test : Dataset)
  (w w' : world model) (name : string) results :
  evaluate_models models test w = (Ok (name, results), w') ->
  read_file "model_analysis/model_comparison.csv" (files w')
  = Some (ComparisonCsv results) /\
  Forall2 (fun nm row => fst row = fst nm /\
                         score test (snd nm) = Ok (snd row))
    models results.
Proof.
  unfold evaluate_models.
  unfold bind at 1. unfold logging at 1.
  unfold bind at 1.
  match goal with
  | |- context [evaluate_loop test models [] ?w0] =>
      pose proof (evaluate_loop_spec test models [] w0) as L;
      destruct (evaluate_loop test models [] w0) as [[res | e0] w1]
  end; [| discriminate].
  destruct L as [scored [-> [F _]]]. simpl app.
  unfold bind, lift, logging, save, ret, datetime_now. simpl.
  destruct (idxmax (map (fun r => (fst r, auc (snd r))) scored));
    simpl; [| discriminate].
  destruct (dict_get models a); simpl; [| discriminate].
  destruct (dict_get scored a); simpl; [| discriminate].
  intros E. injection E as <- <- <-. cbn [files]. split; [| exact F].
  rewrite !read_write_other by discriminate. apply read_write_same.
Qed.

Lemma evaluate_models_best models (test : Dataset) (w w' : world model)
  (name : string) results :
  evaluate_models models test w = (Ok (name, results), w') ->
  exists m,
    dict_get models name = Ok m /\
    read_file MODEL_FILE (files w') = Some (Pickle m).
Proof.
  unfold evaluate_models.
  unfold bind at 1. unfold logging at 1.
  unfold bind at 1.
  match goal with
  | |- context [evaluate_loop test models [] ?w0] =>
      destruct (evaluate_loop test models [] w0) as [[res | e0] w1]
  end; [| discriminate].
  unfold bind, lift, logging, save, ret, datetime_now. simpl.
  destruct (idxmax (map (fun r => (fst r, auc (snd r))) res));
    simpl; [| discriminate].
  destruct (dict_get models a) as [m |] eqn:G; simpl; [| discriminate].
  destruct (dict_get res a); simpl; [| discriminate].
  intros E. injection E as <- _ <-. cbn [files].
  exists m. split; [exact G |].
  rewrite read_write_other by discriminate. apply read_write_same.
Qed.

Lemma dict_get_Ok_In {A} (d : list (string * A)) (k : string) (v : A) :
  dict_get d k = Ok v -> In (k, v) d.
Proof.
  induction d as [|[k' v'] d IH]; simpl; [discriminate |].
  destruct (String.eqb k' k) eqn:E.
  - apply String.eqb_eq in E. intros [= ->]. left. now subst.
  - auto.
Qed.

Lemma export_predictions_keeps_the_model models (name : string)
  (test : Dataset) (w : world model) :
  read_file MODEL_FILE (files (snd (export_predictions models name test w)))
  = read_file MODEL_FILE (files w).
Proof.
  revert w. unfold export_predictions, to_csv.
  repeat first
    [ apply keeps_ret | apply keeps_lift | apply keeps_read_csv
    | apply keeps_save; simpl; discriminate
    | apply keeps_bind; [| intros ?] ].
Qed.

(** The end of a run that completes. *)
Lemma pipeline_tail (w w' : world model) (r : run) :
  pipeline w = (Ok r, w') ->
  exists wd we wf,
    train_models (run_balanced r) (run_selected_features r) wd
    = (Ok (run_trained_models r), we) /\
    evaluate_models (run_trained_models r) (run_test_processed r) we
    = (Ok (run_best_model_name r, run_results r), wf) /\
    read_file MODEL_FILE (files w') = read_file MODEL_FILE (files wf).
Proof.
  unfold pipeline. intros E.
  apply bind_Ok in E. destruct E as [df [wa [_ E]]].
  apply bind_Ok in E. destruct E as [[train test] [wb [_ E]]].
  apply bind_Ok in E. destruct E as [[[Xtr Xte] sel] [wc [_ E]]].
  apply bind_Ok in E. destruct E as [balanced [wd [_ E]]].
  apply bind_Ok in E. destruct E as [models [we [T E]]].
  apply bind_Ok in E. destruct E as [[best results] [wf [V E]]].
  apply bind_Ok in E. destruct E as [u [wg [X E]]].
  unfold bind, logging, print, ret in E. simpl in E.
  injection E as <- <-. simpl.
  exists wd, we, wf. repeat split; auto.
  pose proof (export_predictions_keeps_the_model models best Xte wf) as K.
  rewrite X in K. exact K.
Qed.

(** X23. In every run of [main] that completes, the model left in the
    model file is one of the three trained families, it is the model the
    run returned under the best name, and it was fitted on the balanced
    training set: what is saved was never fitted on the test partition. *)
Theorem saved_model_was_fit_on_the_balanced_set (w w' : world model)
  (r : run) :
  main w = (Ok (Some r), w') ->
  exists m,
    In (run_best_model_name r) model_names /\
    In (run_best_model_name r, m) (run_trained_models r) /\
    fit (run_best_model_name r) (run_balanced r) = Ok m /\
    read_file MODEL_FILE (files w') = Some (Pickle m).
Proof.
  intros E. apply main_Ok in E. destruct E as [w1 E].
  apply pipeline_tail in E. destruct E as (wd & we & wf & T & V & K).
  apply evaluate_models_best in V. destruct V as [m [G R]].
  apply dict_get_Ok_In in G.
  exists m. split.
  { rewrite <- (train_models_names _ _ _ _ _ T).
    now apply (in_map fst) in G. }
  split; [exact G |]. split; [| now rewrite K].
  revert T. unfold train_models. intros T.
  apply bind_Ok in T. destruct T as [u [w2 [_ T]]].
  pose proof (train_loop_spec (run_balanced r) (run_selected_features r)
                model_names [] w2) as L.
  rewrite T in L. destruct L as [ms [Tm [_ F]]]. rewrite Tm in G.
  simpl in G. rewrite Forall_forall in F. exact (proj1 (F _ G)).
Qed.

End SavedModel.

Lemma comparison_file_lists_every_model_witness :
  exists name results w',
    model_training.evaluate_models (ES := fixtures.no_failure)
      [("random_forest", "random_forest")]
      (fixtures.labelled 1 1) (fixtures.blank_world [])
    = (Ok (name, results), w') /\
    read_file "model_analysis/model_comparison.csv" (files w')
    = Some (ComparisonCsv results).
Proof.
  destruct (model_training.evaluate_models (ES := fixtures.no_failure)
              [("random_forest", "random_forest")]
              (fixtures.labelled 1 1) (fixtures.blank_world []))
    as [[[name results] | e] w'] eqn:E.
  - exists name, results, w'. split; [reflexivity |].
    exact (proj1 (comparison_file_lists_every_model
                    (ES := fixtures.no_failure) _ _ _ _ _ _ E)).
  - vm_compute in E. discriminate.
Defined.

Lemma saved_model_was_fit_on_the_balanced_set_witness :
  exists r w' m,
    model_training.main (RS := fixtures.identity_rng)
      (SY := fixtures.blank_synthesiser) (ES := fixtures.no_failure)
      (fixtures.blank_world
         [(config.CLEANED_DATA_FILE, Csv (fixtures.prepared 40 10))])
    = (Ok (Some r), w') /\
    fit (model_training.run_best_model_name r) (model_training.run_balanced r)
    = Ok m /\
    read_file config.MODEL_FILE (files w') = Some (Pickle m).
Proof.
  destruct (model_training.main (RS := fixtures.identity_rng)
              (SY := fixtures.blank_synthesiser) (ES := fixtures.no_failure)
              (fixtures.blank_world
                 [(config.CLEANED_DATA_FILE, Csv (fixtures.prepared 40 10))]))
    as [[[r |] | e] w'] eqn:E.
  - destruct (saved_model_was_fit_on_the_balanced_set _ _ _ E)
      as (m & _ & _ & F & R).
    exists r, w', m. auto.
  - vm_compute in E. discriminate.
  - vm_compute in E. discriminate.
Defined.

Lemma test_file_yields_the_training_features_witness :
  exists train test w' test_df,
    model_training.prepare_train_test_split
      (RS := fixtures.identity_rng) (ES := fixtures.no_failure)
      (fixtures.prepared 40 10) (fixtures.blank_world [])
    = (Ok (train, test), w') /\
    read_file config.TEST_DATA_FILE (files w') = Some (Csv test_df) /\
    model_training.selected_features_of (columns test_df)
    = model_training.selected_features_of (feature_names train).
Proof.
  destruct (model_training.prepare_train_test_split
              (RS := fixtures.identity_rng) (ES := fixtures.no_failure)
              (fixtures.prepared 40 10) (fixtures.blank_world []))
    as [[[train test] | e] w'] eqn:E.
  - destruct (test_file_yields_the_training_features
                (RS := fixtures.identity_rng) (ES := fixtures.no_failure)
                _ _ _ _ _ E) as (test_df & R & _ & S).
    exists train, test, w', test_df. auto.
  - vm_compute in E. discriminate.
Defined.
